(* ===== verification/_CoqProject ===== *)
-Q . S2P
Prelude.v
Geo.v
Store.v
Registry.v
Assigner.v
Intake.v
Lifecycle.v
Liveness.v
Otp.v
Schema.v
Races.v
Callable.v
Dashboard.v
Incoming.v
Signup.v
App.v
Legacy.v
System.v
Tracking.v
Scripts.v
Profile.v
Boot.v
