(* ===== verification/Prelude.v ===== *)
(** * Alertivo: a verification development of the emergency-dispatch core

    The repository (barnanova/alertivo) is a React-Native client with a
    Firebase back end.  Its coordination core is the Cloud Functions of
    [src/functions/index.js] and [src/functions/triggers/otptriggers.js],
    and the client screens that call them or write to the same Firestore
    database ([src/utils/reportemergency.js], [src/Screens/Responders/
    dashboard.js], [incomingalert.js] and [profile.js],
    [src/Screens/Students/signup.js] and [Confirmation.js]), composed by
    the navigator of [src/App.js];
    beside them sit an older copy of the functions
    ([src/Screens/Shared/fake index.js]) and two scripts.
    The parts talk to each other through that database and the callable
    exports, and the responder's screens also through the navigator, so
    the model has one shared state, the database [Store.DB]: every handler
    is a function over it in the state-and-error monad [ST] of this file,
    and a screen's own state is passed explicitly beside it.  A write made before an exception stays in the
    database, as in Firestore, so the monad keeps the state on the error
    path.

    Files, in dependency order:
    - [Prelude]   this header; the monad [ST] (return, bind, get, modify,
                  throw, catch) with its laws, stdpp's [x ← m; k] notation
                  for it, [st_preserves] for invariants, [st_ensures] for
                  computations that never throw, [st_runs] for a client's
                  calls in sequence; the hint databases [alertivo]
                  and [alertivo_rw] and the tactics; JavaScript truthiness
                  and [String.endsWith]; the id-ordered sort of query
                  results (Firestore's default order).
    - [Geo]       [getDistance] (index.js 44-54) over the reals, with
                  ECMAScript's [Math.atan2]; its range, symmetry and zero.
    - [Store]     the documents of every collection the code touches as
                  records in gmaps, the collections as lenses with their
                  laws (class [CollectionLaws]), get/set/update/delete/add
                  with Firestore's behaviour (update of a missing document
                  fails), the errors ([HttpsError], plain [Error], Auth);
                  an alert's [createdAt] is optional, since the deployed
                  handler writes [routedAt] only.
    - [Registry]  [updateResponderHeartbeat] (index.js 307-352), the
                  dashboard's status writes, the [status == "active"]
                  query, the invariant "assigned iff busy".
    - [Assigner]  [assignNearestResponder] (index.js 57-90): the scan with
                  strict [<] written against the class [Metric] (an
                  interface the haversine instance and a grid instance for
                  computable witnesses implement), proved to compute the
                  first-nearest candidate of an abstract specification
                  ([first_nearest]).
    - [Intake]    [createEmergencyReport] (index.js 116-272): validation,
                  defaults, the report, routing, the alert, the push message
                  and the medical sync payload.
    - [Lifecycle] [handleAccept] / [handleDecline] (incomingalert.js) and
                  [completeEmergency] (index.js 275-304) beside the
                  specification's step relation on alert states.
    - [Liveness]  [markInactiveResponders] (index.js 355-398), its loop
                  proved equal to a map over the registry.
    - [Otp]       [generateOTP], [sendOtpHandler], [verifyOtpHandler] with
                  the Auth calls they make.
    - [Schema]    the data model's constraints on the OTP gate's
                  documents ([gate_wf]), kept by both OTP handlers.
    - [Races]     the assignment and the sweep split at the await between
                  their read and their write, two threads under a schedule
                  ([interleave]).
    - [Callable]  the [onCall] exports and the client [reportEmergency].
    - [Dashboard] the responder dashboard as a client state machine
                  (toggle, 60 s location ticks with the screen's own copy
                  of the haversine formula, 30 s heartbeat ticks, the
                  pending-alert listener with its local notification, the
                  unmount cleanup, the status bar) and the incoming-alert
                  list.
    - [Incoming]  the incoming-alert screen (Module [Incoming]): the
                  single-alert mode fetched by id or passed in, the list
                  mode's condition, its accept and decline handlers over
                  [Lifecycle]'s writes, and what it draws ([renderAlert],
                  the header, the body).
    - [Signup]    the sign-up screen's [handleSendOtp] and
                  [handleVerifyAndSignup], its two buttons as events of a
                  session ([signup_run]) and the controls they show.
    - [App]       App.js: the registered routes, the notification set-up
                  and tap listener; the stack navigator's actions
                  (@react-navigation/stack) and the composed responder
                  application ([AppState]: the stack, the dashboard, the
                  incoming screen), whose [app_step] delivers an event to
                  the mounted component, then applies the navigations it
                  requested, mounting and unmounting screens.
    - [Legacy]    the older functions copy (Module [Legacy]): its
                  [createEmergencyReport], compared with [Intake]'s.
    - [System]    runs of the whole system: sequences of handler calls
                  ([Op], [run_ops]) from every component that writes the
                  registry.
    - [Tracking]  the student's tracking screen, Confirmation.js (Module
                  [Tracking]): the timeline and its timer chain, defined
                  with Equations by well-founded recursion, the video-call
                  start, the titles, the cancel button and what the screen
                  draws.
    - [Scripts]   uploadResponders.mjs, testotp.js and utils/geocoding.js.
    - [Profile]   the responder profile screen (Module [Profile]): the
                  module's declarations, the mount's fetch or creation of
                  the responder document, the guarded inputs, the save
                  with its upload and its [updateDoc] of the whole form,
                  the logout and what it draws, over a [World] that adds
                  the profile part of [responders], Storage, AsyncStorage
                  and Auth's current user to the database.
    - [Boot]      the top level of the two Functions entry points (Module
                  [Boot]): requires, the [onInit] registration and its
                  callback, the module-level [admin.firestore()] and the
                  exports, as statements run in order.

    What the theorems show, by group:
    - loading: neither Functions entry point loads as written -- the
      module-level [admin.firestore()] runs before the [onInit] callback
      that creates the default app; every handler below is modelled as it
      runs once its module loads (so is the profile screen, whose module
      declares [auth] twice);
    - assignment: the scan returns the first nearest located candidate and
      nothing only when none is located; the handler marks it busy; a
      security report gets a pending alert naming exactly the scan's
      choice over the registry it found (nobody only when no active
      responder has a location);
    - registry: the heartbeat makes busy responders active again, breaking
      "assigned iff busy", which every run of reports, accepts, declines,
      completions and sweeps keeps ([System]); the sweep's boundary is
      strict and a second sweep is a no-op;
    - lifecycle: a declined alert can still be accepted; completion frees
      the responder before it touches the report and never marks the alert;
    - OTP: [sendOtp] never serves a request -- [sendEmail] reads
      [sender] outside the block that declared it, so every request that
      passes the checks stores its code and fails with "INTERNAL" --; the
      rate limit's window is two hours, five failures lock an address,
      the lockout blocks new codes but not verification, a stored code
      verifies once within five minutes, [db.Timestamp] is undefined;
      both handlers keep the schema of the gate's documents (six-digit
      codes, five-minute expiry, counts in range, [lockedUntil] only from
      the fifth failure);
    - concurrency: serial assignments never share a responder, overlapping
      ones do; a heartbeat landing inside a sweep is lost;
    - clients: [reportEmergency] never reaches the server's validation
      error and its defaults repair the push text and the sync copy; the
      exports hide index.js's messages behind "INTERNAL"; a dashboard's
      heartbeat keeps its responder alive for three minutes and its
      location is within 15 m of the last fix, but going on duty without
      the location permission still makes it active (and it reads
      "Active"); the alert list keeps accepted alerts; the single-alert
      mode lets a second responder take over an assigned alert; alerts of
      the deployed handler always show "Time: N/A"; the sign-up screen
      only ever shows its generic error message and, [sendOtp] never
      succeeding, its code field never becomes editable, so no session on
      it creates an account; the
      tracking screen's timers stop after one firing per step, always in
      the timeline's shape with one step highlighted, and claim a
      responder is on the way without reading the alert; its call button
      misses an [ON_JOIN] emitted before [join] resolves;
    - composition through the navigator ([Incoming], [App]): the
      dashboard's listener opens the incoming screen with the alert's data
      but not its id, so the first Accept or Decline fails and only the
      list listener's copy can be answered; its [reset] unmounts the
      dashboard for good -- no event of the repository's screens mounts it
      again, so its heartbeat stops -- and a successful decline announces a
      return to the dashboard that [goBack] cannot perform;
    - profile: its save writes back the registry fields
      read at mount, making an assigned responder active again (a
      candidate for a second assignment, and "assigned iff busy" broken),
      its first visit's created fields are never shown and the next save
      erases them, and a signed-out visit never stops loading;
    - legacy and scripts: the legacy copy answers callers exactly as the
      deployed function but never assigns a security report; the seeding
      script reads back the last entry per id; the OTP test script always
      gets invalid-argument.

    Time is an integer number of milliseconds ([Z]); the clock reads of one
    call ([Timestamp.now()], [serverTimestamp()], [Date.now()]) are the
    parameter [now] of that call.  Coordinates are rationals (every finite
    double is one), distances are real numbers: [getDistance] is the exact
    haversine value the double computation approximates.  Values the
    outside world chooses (generated ids, [Math.random()], Auth's new uid,
    the mail set-up [sendEmail] runs against, the device's permission and position
    fixes, the image picker's answer and the upload's URL) are arguments, and so is the host's text formatting (dates,
    numbers).  No definition needs fuel: every loop is a fold over a
    snapshot list, the [interleave] of two threads is structural in its
    schedule, and the runs of events ([run_ops], [signup_run], [app_run],
    [Profile.profile_events])
    are structural in their event lists.  After each event [App.flush]
    applies the incoming screen's pending navigations once; one pass is
    enough because those navigations (to AlertDetails, back) never mount
    that screen afresh.

    [Tracking.run_timeline] is the one definition that is not structural:
    it recurses on [timeline.length - stepIndex], which each firing lowers
    by one, so it needs no fuel either.

    Not modelled: styles and static text of the screens; the screens
    App.js imports that are not in the repository (AlertDetails, the
    login, welcome and student screens); the registry writers of the other
    screens on a responder document the profile screen created, which has
    no registry fields (no [status]) that [Store]'s record could hold;
    [firebaseconfig.js] (SDK configuration); the video
    call SDK beyond the outcomes of [join]; the responder triggers (their
    source is not in the repository); reading preload.json and the HTTP
    transport of the test script; the Firebase SDKs beyond the behaviour
    stated where they are called; the stack navigator beyond [navigate],
    [reset] and [goBack]. *)

From stdpp Require Export base strings gmap list sorting.
From Stdlib Require Export ZArith.

(** ** The state-and-error monad

    [ST S E A] runs on a state [S] and returns either an error [E] or a
    value [A], together with the final state.  Unlike a state transformer
    over a sum, the state is returned on the error path too: Firestore
    commits every awaited write as it happens, so a handler that throws
    after a write leaves that write behind. *)

Definition ST (S E A : Type) : Type := S -> (E + A) * S.

Section StateError.
Context {S E : Type}.

Definition st_return {A} (a : A) : ST S E A := fun s => (inr a, s).

Definition st_bind {A B} (m : ST S E A) (k : A -> ST S E B) : ST S E B :=
  fun s => match m s with
           | (inl e, s') => (inl e, s')
           | (inr a, s') => k a s'
           end.

Definition st_get : ST S E S := fun s => (inr s, s).
Definition st_put (s : S) : ST S E unit := fun _ => (inr tt, s).
Definition st_modify (f : S -> S) : ST S E unit := fun s => (inr tt, f s).
Definition st_throw {A} (e : E) : ST S E A := fun s => (inl e, s).

(** [try { m } catch (e) { h(e) }] *)
Definition st_catch {A} (m : ST S E A) (h : E -> ST S E A) : ST S E A :=
  fun s => match m s with
           | (inl e, s') => h e s'
           | r => r
           end.

(** Result and final state of a run, for statements. *)
Definition st_result {A} (m : ST S E A) (s : S) : E + A := fst (m s).
Definition st_state {A} (m : ST S E A) (s : S) : S := snd (m s).

Lemma st_bind_ret_l {A B} (a : A) (k : A -> ST S E B) s :
  st_bind (st_return a) k s = k a s.
Proof. reflexivity. Qed.

Lemma st_bind_ret_r {A} (m : ST S E A) s : st_bind m st_return s = m s.
Proof. unfold st_bind. by destruct (m s) as [[] ?]. Qed.

Lemma st_bind_assoc {A B C} (m : ST S E A) (k : A -> ST S E B)
      (k' : B -> ST S E C) s :
  st_bind (st_bind m k) k' s = st_bind m (fun a => st_bind (k a) k') s.
Proof. unfold st_bind. by destruct (m s) as [[] ?]. Qed.

Lemma st_bind_inr {A B} (m : ST S E A) (k : A -> ST S E B) s a s' :
  m s = (inr a, s') -> st_bind m k s = k a s'.
Proof. unfold st_bind. by intros ->. Qed.

Lemma st_bind_inl {A B} (m : ST S E A) (k : A -> ST S E B) s e s' :
  m s = (inl e, s') -> st_bind m k s = (inl e, s').
Proof. unfold st_bind. by intros ->. Qed.

(** An invariant of the state that every step of [m] keeps, whatever the
    result: the shape of the preservation theorems of the components. *)
Definition st_preserves {A} (I : S -> Prop) (m : ST S E A) : Prop :=
  forall s, I s -> I (snd (m s)).

Lemma st_preserves_return {A} I (a : A) : st_preserves I (st_return a).
Proof. by intros s. Qed.

Lemma st_preserves_throw {A} I (e : E) : st_preserves I (@st_throw A e).
Proof. by intros s. Qed.

Lemma st_preserves_modify I f :
  (forall s, I s -> I (f s)) -> st_preserves I (st_modify f).
Proof. intros Hf s. apply Hf. Qed.

Lemma st_preserves_bind {A B} I (m : ST S E A) (k : A -> ST S E B) :
  st_preserves I m -> (forall a, st_preserves I (k a)) ->
  st_preserves I (st_bind m k).
Proof.
  intros Hm Hk s Hs. unfold st_bind.
  specialize (Hm s Hs). destruct (m s) as [[e|a] s']; [done|].
  by apply Hk.
Qed.

Lemma st_preserves_catch {A} I (m : ST S E A) (h : E -> ST S E A) :
  st_preserves I m -> (forall e, st_preserves I (h e)) ->
  st_preserves I (st_catch m h).
Proof.
  intros Hm Hh s Hs. unfold st_catch.
  specialize (Hm s Hs). destruct (m s) as [[e|a] s']; [|done].
  by apply Hh.
Qed.

(** [m] returns on every state, with a value satisfying [P]: it never
    throws. *)
Definition st_ensures {A} (P : A -> Prop) (m : ST S E A) : Prop :=
  forall s, exists a s', m s = (inr a, s') /\ P a.

Lemma st_ensures_return {A} (P : A -> Prop) a : P a -> st_ensures P (st_return a).
Proof. intros Ha s. by exists a, s. Qed.

Lemma st_ensures_bind {A B} (P : B -> Prop) (Q : A -> Prop) (m : ST S E A) (k : A -> ST S E B) :
  st_ensures Q m -> (forall a, Q a -> st_ensures P (k a)) -> st_ensures P (st_bind m k).
Proof.
  intros Hm Hk s. destruct (Hm s) as (a & s1 & E1 & Ha).
  destruct (Hk a Ha s1) as (b & s2 & E2 & Hb). exists b, s2. unfold st_bind. by rewrite E1.
Qed.

Lemma st_ensures_weaken {A} (P Q : A -> Prop) (m : ST S E A) :
  (forall a, Q a -> P a) -> st_ensures Q m -> st_ensures P m.
Proof. intros HPQ Hm s. destruct (Hm s) as (a & s' & Hs & Ha). eauto. Qed.
End StateError.

#[export] Instance st_mret {S E} : MRet (ST S E) := fun A a => st_return a.
#[export] Instance st_mbind {S E} : MBind (ST S E) := fun A B k m => st_bind m k.

(** [if (b) { m }] *)
Definition st_when {S E} (b : bool) (m : ST S E unit) : ST S E unit :=
  if b then m else st_return tt.

(** [for (const x of xs) { await f(x) }] *)
Fixpoint st_iter {S E X} (f : X -> ST S E unit) (xs : list X) : ST S E unit :=
  match xs with
  | [] => st_return tt
  | x :: xs' => st_bind (f x) (fun _ => st_iter f xs')
  end.

(** Independent calls of a client, one after the other, each on the state
    the previous one left; the results in order and the final state. *)
Fixpoint st_runs {S E A} (ms : list (ST S E A)) (s : S) : list (E + A) * S :=
  match ms with
  | [] => ([], s)
  | m :: ms' => let '(r, s1) := m s in
                let '(rs, s2) := st_runs ms' s1 in (r :: rs, s2)
  end.

Lemma st_runs_cons_eq {S E A} (m : ST S E A) ms s r s1 :
  m s = (r, s1) -> st_runs (m :: ms) s = (r :: (st_runs ms s1).1, (st_runs ms s1).2).
Proof. intros H. simpl. rewrite H. by destruct (st_runs ms s1). Qed.

Lemma st_runs_cons {S E A} (m : ST S E A) ms s r s1 :
  m s = (r, s1) -> (st_runs (m :: ms) s).1 = r :: (st_runs ms s1).1.
Proof. intros H. simpl. rewrite H. by destruct (st_runs ms s1). Qed.

Lemma st_preserves_when {S E} (I : S -> Prop) b (m : ST S E unit) :
  st_preserves I m -> st_preserves I (st_when b m).
Proof. intros Hm. destruct b; [done | intros s Hs; exact Hs]. Qed.

Lemma st_preserves_iter {S E X} (I : S -> Prop) (f : X -> ST S E unit) xs :
  (forall x, st_preserves I (f x)) -> st_preserves I (st_iter f xs).
Proof.
  intros Hf. induction xs as [|x xs IH]; simpl.
  - apply st_preserves_return.
  - apply st_preserves_bind; [apply Hf | intros; apply IH].
Qed.

(** [alter] of a present key is the insert of the changed value. *)
Lemma alter_lookup_Some `{FinMap K M} {A} (f : A -> A) (m : M A) i x :
  m !! i = Some x -> alter f i m = <[i:=f x]> m.
Proof.
  intros Hi. apply map_eq. intros j. destruct (decide (i = j)) as [<-|Hne].
  - by rewrite lookup_alter_eq, lookup_insert_eq, Hi.
  - by rewrite lookup_alter_ne, lookup_insert_ne.
Qed.

(** ** Automation *)

Create HintDb alertivo.
Create Rewrite HintDb alertivo_rw.

#[export] Hint Resolve st_preserves_return st_preserves_throw
  st_preserves_when st_preserves_iter : alertivo.
#[export] Hint Rewrite @st_bind_ret_l @st_bind_assoc : alertivo_rw.

(** Unfold one run of a monadic program to its case analysis. *)
Ltac st_unfold :=
  cbn [mbind mret st_mbind st_mret st_bind st_return st_get st_put
       st_modify st_throw st_catch st_when st_result st_state fst snd] in *.

(** Decide the [bool_decide]s of the goal whose propositions [done]
    settles, e.g. comparisons of string literals. *)
Ltac simpl_bool_decide :=
  repeat first [ rewrite bool_decide_eq_true_2 by done
               | rewrite bool_decide_eq_false_2 by done ].

(** Split a [st_preserves] goal along the program's binds. *)
Ltac st_preserve :=
  repeat first
    [ apply st_preserves_bind; [| intros ?]
    | apply st_preserves_catch; [| intros ?]
    | apply st_preserves_when
    | apply st_preserves_return
    | apply st_preserves_throw ].

(** ** JavaScript values *)

(** A string field that may be missing, read where the code tests it:
    [undefined] and [""] are falsy; [str_val] gives the value when truthy. *)
Definition str_val (o : option string) : option string :=
  match o with
  | Some s => if String.eqb s "" then None else Some s
  | None => None
  end.

Definition truthy_str (o : option string) : bool := bool_decide (is_Some (str_val o)).

(** [x || d] for a string field *)
Definition str_or (o : option string) (d : string) : string :=
  default d (str_val o).

Lemma str_val_some s : s <> "" -> str_val (Some s) = Some s.
Proof. intros Hs. simpl. by destruct (String.eqb_spec s ""). Qed.

Lemma str_or_some s d : s <> "" -> str_or (Some s) d = s.
Proof. intros Hs. unfold str_or. by rewrite str_val_some. Qed.

Lemma truthy_str_some s : s <> "" -> truthy_str (Some s) = true.
Proof. intros Hs. unfold truthy_str. rewrite str_val_some by done. by apply bool_decide_eq_true_2. Qed.

#[export] Hint Rewrite str_val_some str_or_some using congruence : alertivo_rw.

(** [s.endsWith(suffix)] *)
Definition ends_with (suffix s : string) : bool :=
  let n := String.length s in
  let k := String.length suffix in
  (k <=? n)%nat && String.eqb (String.substring (n - k) k s) suffix.

Lemma substring_0_length (t : string) :
  String.substring 0 (String.length t) t = t.
Proof. induction t as [|c t IH]; simpl; [done|]. by rewrite IH. Qed.

Lemma substring_app_r (p t : string) :
  String.substring (String.length p) (String.length t) (p +:+ t) = t.
Proof.
  induction p as [|c p IH]; simpl; [apply substring_0_length | done].
Qed.

Lemma string_length_app (p t : string) :
  String.length (p +:+ t) = (String.length p + String.length t)%nat.
Proof. induction p as [|c p IH]; simpl; [done|]. by rewrite IH. Qed.

Lemma substring_split (s : string) (n : nat) :
  (n <= String.length s)%nat ->
  s = String.substring 0 n s +:+
      String.substring n (String.length s - n) s.
Proof.
  revert n. induction s as [|c s IH]; intros [|n] Hn; simpl in *.
  - done.
  - lia.
  - simpl. by rewrite substring_0_length.
  - change (String c s = String c (String.substring 0 n s +:+
      String.substring n (String.length s - n) s)).
    f_equal. apply IH. lia.
Qed.

Lemma ends_with_app (p t : string) : ends_with t (p +:+ t) = true.
Proof.
  unfold ends_with. rewrite string_length_app.
  replace (String.length p + String.length t - String.length t)%nat
    with (String.length p) by lia.
  rewrite substring_app_r, String.eqb_refl, andb_true_r.
  apply Nat.leb_le. lia.
Qed.

Lemma ends_with_spec (t s : string) :
  ends_with t s = true -> exists p, s = p +:+ t.
Proof.
  unfold ends_with. intros [Hle Heq]%andb_prop.
  apply String.eqb_eq in Heq. apply Nat.leb_le in Hle.
  exists (String.substring 0 (String.length s - String.length t) s).
  pose proof (substring_split s (String.length s - String.length t)) as Hs.
  replace (String.length s - (String.length s - String.length t))%nat
    with (String.length t) in Hs by lia.
  rewrite Heq in Hs. apply Hs. lia.
Qed.

(** [`${x}`] for a field that may be missing: [undefined] prints as
    "undefined". *)
Definition template_str (o : option string) : string :=
  default "undefined" o.

(** [s.toUpperCase()] on ASCII letters. *)
Definition ascii_upper (c : Ascii.ascii) : Ascii.ascii :=
  let n := Ascii.nat_of_ascii c in
  if (97 <=? n)%nat && (n <=? 122)%nat then Ascii.ascii_of_nat (n - 32) else c.

Fixpoint to_upper (s : string) : string :=
  match s with
  | EmptyString => EmptyString
  | String c s' => String (ascii_upper c) (to_upper s')
  end.

(** ** Lists *)

(** Nothing is filtered out by a test against the empty list. *)
Lemma filter_not_in_nil {A} (l : list (string * A)) : filter (fun p => p.1 ∉ []) l = l.
Proof.
  induction l as [|x l IH]; [done |].
  rewrite filter_cons_True; [by rewrite IH | apply not_elem_of_nil].
Qed.

Lemma filter_nil_forall {A} (P : A -> Prop) `{!forall x, Decision (P x)} (l : list A) :
  (forall x, x ∈ l -> ~ P x) -> filter P l = [].
Proof.
  induction l as [|x l IH]; intros Hl; [done |].
  rewrite filter_cons_False by (apply Hl; set_solver).
  apply IH. intros y Hy. apply Hl. set_solver.
Qed.

(** ** Documents in id order

    A Firestore query with no [orderBy] returns its documents in ascending
    order of document id.  [sort_by_id] is a stable insertion sort of
    (id, data) pairs on [String.leb]. *)

Section SortById.
Context {A : Type}.

Fixpoint insert_by_id (x : string * A) (l : list (string * A)) :
    list (string * A) :=
  match l with
  | [] => [x]
  | y :: l' => if String.leb x.1 y.1 then x :: y :: l'
               else y :: insert_by_id x l'
  end.

Fixpoint sort_by_id (l : list (string * A)) : list (string * A) :=
  match l with
  | [] => []
  | x :: l' => insert_by_id x (sort_by_id l')
  end.

Lemma insert_by_id_perm x l : insert_by_id x l ≡ₚ x :: l.
Proof.
  induction l as [|y l IH]; simpl; [done|].
  destruct (String.leb x.1 y.1); [done|].
  rewrite IH. constructor.
Qed.

Lemma sort_by_id_perm l : sort_by_id l ≡ₚ l.
Proof.
  induction l as [|x l IH]; simpl; [done|].
  by rewrite insert_by_id_perm, IH.
Qed.
End SortById.

#[export] Hint Resolve insert_by_id_perm sort_by_id_perm : alertivo.
