(* ===== verification/Geo.v ===== *)
(** * Geo: the haversine distance of [src/functions/index.js]

    [getDistance] (index.js lines 44-54) computes the great-circle distance
    in metres between two (latitude, longitude) pairs given in degrees.
    Here it is the exact value over the real numbers; [Math.atan2] is
    [atan2] below, written by the cases of ECMAScript's definition for
    finite arguments.  The theorems bound the result to [0, pi R] whatever
    the inputs, show it vanishes on equal points and is symmetric.  The
    strict order [Rltb] on distances is the [<] of line 76, with the laws
    the nearest-match scan needs. *)

From Stdlib Require Import Reals Lra QArith Qreals.

Record LatLng := mkLatLng { lat : Q; lng : Q }.

Local Open Scope R_scope.

(** [const toRad = (val) => (val * Math.PI) / 180] *)
Definition toRad (v : R) : R := v * PI / 180.

(** Earth radius in metres: [const R = 6371000] *)
Definition earthRadius : R := 6371000.

(** [Math.atan2(y, x)] for finite [x], [y]. *)
Definition atan2 (y x : R) : R :=
  if Rlt_dec 0 x then atan (y / x)
  else if Rlt_dec x 0 then
    (if Rle_dec 0 y then atan (y / x) + PI else atan (y / x) - PI)
  else if Rlt_dec 0 y then PI / 2
  else if Rlt_dec y 0 then - (PI / 2)
  else 0.

Definition getDistance (lat1 lng1 lat2 lng2 : R) : R :=
  let dLat := toRad (lat2 - lat1) in
  let dLng := toRad (lng2 - lng1) in
  let a := sin (dLat / 2) ^ 2 +
           cos (toRad lat1) * cos (toRad lat2) * sin (dLng / 2) ^ 2 in
  let c := 2 * atan2 (sqrt a) (sqrt (1 - a)) in
  earthRadius * c.

(** Distance between two stored positions, as the scan calls it. *)
Definition distance (p q : LatLng) : R :=
  getDistance (Q2R (lat p)) (Q2R (lng p)) (Q2R (lat q)) (Q2R (lng q)).

(** [dist < minDistance] on distances *)
Definition Rltb (x y : R) : bool := if Rlt_dec x y then true else false.

(** ** Range of [atan2] on the first quadrant *)

Lemma atan_nonneg x : 0 <= x -> 0 <= atan x.
Proof.
  intros [Hx | <-]; [| rewrite atan_0; lra].
  left. rewrite <- atan_0. now apply atan_increasing.
Qed.

Lemma atan2_first_quadrant y x :
  0 <= y -> 0 <= x -> 0 <= atan2 y x <= PI / 2.
Proof.
  intros Hy Hx. unfold atan2.
  destruct (Rlt_dec 0 x) as [Hx0 | Hx0].
  - split.
    + apply atan_nonneg. unfold Rdiv. apply Rmult_le_pos; [lra |].
      left. now apply Rinv_0_lt_compat.
    + left. apply atan_bound.
  - destruct (Rlt_dec x 0); [lra |].
    pose proof PI_RGT_0.
    destruct (Rlt_dec 0 y); [lra |].
    destruct (Rlt_dec y 0); lra.
Qed.

(** ** Range of [getDistance] *)

Lemma sqrt_first_quadrant a :
  0 <= atan2 (sqrt a) (sqrt (1 - a)) <= PI / 2.
Proof. apply atan2_first_quadrant; apply sqrt_pos. Qed.

Lemma getDistance_bounds lat1 lng1 lat2 lng2 :
  0 <= getDistance lat1 lng1 lat2 lng2 <= earthRadius * PI.
Proof.
  unfold getDistance.
  set (a := sin _ ^ 2 + _).
  pose proof (sqrt_first_quadrant a). unfold earthRadius in *. lra.
Qed.

(** Whatever the coordinates, the distance lies between 0 and half the
    Earth's circumference. *)
Lemma getDistance_range lat1 lng1 lat2 lng2 :
  0 <= getDistance lat1 lng1 lat2 lng2 <= earthRadius * PI.
Proof. apply getDistance_bounds. Qed.

Lemma getDistance_same la ln : getDistance la ln la ln = 0.
Proof.
  unfold getDistance.
  replace (la - la) with 0 by ring. replace (ln - ln) with 0 by ring.
  unfold toRad. replace (0 * PI / 180 / 2) with 0 by field.
  rewrite sin_0. replace (0 ^ 2 + cos (la * PI / 180) * cos (la * PI / 180) * 0 ^ 2)
    with 0 by ring.
  rewrite Rminus_0_r, sqrt_0, sqrt_1. unfold atan2.
  destruct (Rlt_dec 0 1); [| lra].
  unfold Rdiv. rewrite Rmult_0_l, atan_0. ring.
Qed.

Lemma sin_half_sq_opp x : sin (- x / 2) ^ 2 = sin (x / 2) ^ 2.
Proof.
  replace (- x / 2) with (- (x / 2)) by field.
  rewrite sin_neg. ring.
Qed.

Lemma getDistance_sym lat1 lng1 lat2 lng2 :
  getDistance lat1 lng1 lat2 lng2 = getDistance lat2 lng2 lat1 lng1.
Proof.
  unfold getDistance, toRad.
  replace ((lat1 - lat2) * PI / 180) with (- ((lat2 - lat1) * PI / 180)) by field.
  replace ((lng1 - lng2) * PI / 180) with (- ((lng2 - lng1) * PI / 180)) by field.
  rewrite !sin_half_sq_opp.
  replace (cos (lat2 * PI / 180) * cos (lat1 * PI / 180))
    with (cos (lat1 * PI / 180) * cos (lat2 * PI / 180)) by ring.
  reflexivity.
Qed.

Lemma distance_range p q : 0 <= distance p q <= earthRadius * PI.
Proof. apply getDistance_bounds. Qed.

Lemma distance_same p : distance p p = 0.
Proof. apply getDistance_same. Qed.

Lemma distance_sym p q : distance p q = distance q p.
Proof. apply getDistance_sym. Qed.

(** ** The order on distances *)

Lemma Rltb_spec x y : Rltb x y = true <-> x < y.
Proof. unfold Rltb. destruct (Rlt_dec x y); split; congruence || lra. Qed.

Lemma Rltb_irrefl x : Rltb x x = false.
Proof. unfold Rltb. destruct (Rlt_dec x x); [lra | reflexivity]. Qed.

Lemma Rltb_trans x y z : Rltb x y = true -> Rltb y z = true -> Rltb x z = true.
Proof. rewrite !Rltb_spec. lra. Qed.

Lemma Rltb_total x y : x = y \/ Rltb x y = true \/ Rltb y x = true.
Proof.
  rewrite !Rltb_spec.
  destruct (Rtotal_order x y) as [H | [H | H]]; auto.
Qed.
