(* ===== verification/Store.v ===== *)
(** * Store: the Firestore database shared by every handler

    Each collection the code reads or writes is a [gmap] from document id
    to a record of the fields the code uses, one [Module] per document
    kind so that the source's field names can be kept.  A [Collection] is
    a lens into the database record, with the laws of [CollectionLaws];
    the document primitives ([doc_get], [doc_set], [doc_update],
    [doc_delete], [audit_add], [emit]) are written once against it.
    [doc_update] fails with [NotFound] on a missing document, as
    Firestore's [update()] does; [doc_delete] of a missing document
    succeeds.  External side effects (push messages, e-mails, the medical
    sync) are appended to [outbox]. *)

From S2P Require Import Prelude Geo.
From Stdlib Require QArith.

(** A report location as the client sends it: [{lat, lng, readableAddress?}]. *)
Record Location := mkLocation {
  loc_lat : QArith_base.Q;
  loc_lng : QArith_base.Q;
  readableAddress : option string
}.

Definition loc_pos (l : Location) : LatLng := mkLatLng (loc_lat l) (loc_lng l).

(** [additionalInfo], a free-form object of strings. *)
Definition Info := list (string * string).

Module Report.
Inductive status_t := pending | completed.

(** A document of [emergencies] (index.js lines 136-148, 289-292). *)
Record t := mk {
  type : string;
  location : Location;
  details : string;
  notes : option string;   (** [None]: no [notes] field (the legacy handler) *)
  urgency : string;
  contactMethod : string;
  additionalInfo : Info;
  createdByUID : string;
  displayCode : string;
  createdAt : Z;
  status : status_t;
  completedAt : option Z
}.
End Report.

(** A document of [departments/clinic/emergencies] or
    [departments/fireDept/emergencies]: [{...newReport, routedAt}]. *)
Record Routed := mkRouted { routed_report : Report.t; routedAt : Z }.

Module Responder.
Inductive status_t := active | busy | inactive.

Record current_location := mkCurrent { cur_pos : LatLng; updatedAt : Z }.

(** A document of [responders]. *)
Record t := mk {
  status : status_t;
  currentLocation : option current_location;
  lastKnownLocation : option LatLng;
  lastHeartbeat : option Z;
  lastActiveAt : option Z;
  lastInactiveAt : option Z;
  assignedEmergency : option string;
  expoPushToken : option string
}.
End Responder.

#[export] Instance responder_status_eq_dec : EqDecision Responder.status_t.
Proof. solve_decision. Defined.

Module Alert.
Inductive status_t := pending | accepted | declined.

(** A document of [responders_alerts] (index.js lines 160-179,
    incomingalert.js lines 101-105, 128-131). *)
Record t := mk {
  emergencyId : option string;   (** [None]: no such field (the legacy handler) *)
  type : string;
  details : string;
  urgency : string;
  createdByUID : string;
  displayCode : string;
  location : Location;
  additionalInfo : Info;
  assignedResponder : option string;
  status : status_t;
  routedAt : Z;
  acceptedAt : option Z;
  responderUID : option string;
  declinedAt : option Z;
  createdAt : option Z   (** [None]: no such field (the deployed handler writes [routedAt] only) *)
}.
End Alert.

#[export] Instance alert_status_eq_dec : EqDecision Alert.status_t.
Proof. solve_decision. Defined.

(** Documents of the OTP gate (otptriggers.js). *)
Module OtpDoc.
Record t := mk { otp : string; expiresAt : Z; createdAt : Z; ip : string }.
End OtpDoc.

Module RateLimit.
Record t := mk { count : Z; resetAt : Z }.
End RateLimit.

Module FailedAttempts.
Record t := mk { count : Z; lockedUntil : option Z }.
End FailedAttempts.

Module Audit.
Inductive details_t :=
| attempts (n : Z)
| fails (n : Z)
| uid (u : string).
Record t := mk { action : string; email : string; timestamp : Z;
                 details : details_t }.
End Audit.

Module UserProfile.
Record t := mk { uid : string; email : string; verified : bool;
                 createdAt : Z; role : string }.
End UserProfile.

(** A Firebase Auth account; Auth keeps e-mails unique, so accounts are
    stored by e-mail. *)
Module AuthUser.
Record t := mk { uid : string; emailVerified : bool;
                 password : option string }.
End AuthUser.

(** The body posted to the administrative back end for a medical report
    (index.js lines 233-243). *)
Record MedicalSync := mkMedicalSync {
  sync_reportId : string;
  sync_type : string;
  sync_location : Location;
  sync_details : option string;   (** [None] is the empty object [{}] *)
  sync_notes : string;
  sync_urgency : string;
  contact_method : string;
  created_by_uid : string;
  display_code : string
}.

(** Messages sent to the outside world. *)
Inductive Effect :=
| PushSent (token title body alertId : string)
| EmailSent (to text : string)
| SyncPosted (payload : MedicalSync).

(** ** The database *)

Record DB := mkDB {
  emergencies : gmap string Report.t;
  responders_alerts : gmap string Alert.t;
  responders : gmap string Responder.t;
  clinic_emergencies : gmap string Routed;
  fireDept_emergencies : gmap string Routed;
  otps : gmap string OtpDoc.t;
  rateLimits : gmap string RateLimit.t;
  failedAttempts : gmap string FailedAttempts.t;
  auditLogs : list Audit.t;
  users : gmap string UserProfile.t;
  auth_users : gmap string AuthUser.t;
  outbox : list Effect
}.

Definition empty_db : DB := mkDB ∅ ∅ ∅ ∅ ∅ ∅ ∅ ∅ [] ∅ ∅ [].

(** Record updates, written with the projections so that a projection of
    an update computes on a database that is a variable. *)
Definition set_emergencies m (db : DB) : DB :=
  mkDB m (responders_alerts db) (responders db) (clinic_emergencies db)
    (fireDept_emergencies db) (otps db) (rateLimits db) (failedAttempts db)
    (auditLogs db) (users db) (auth_users db) (outbox db).
Definition set_responders_alerts m (db : DB) : DB :=
  mkDB (emergencies db) m (responders db) (clinic_emergencies db)
    (fireDept_emergencies db) (otps db) (rateLimits db) (failedAttempts db)
    (auditLogs db) (users db) (auth_users db) (outbox db).
Definition set_responders m (db : DB) : DB :=
  mkDB (emergencies db) (responders_alerts db) m (clinic_emergencies db)
    (fireDept_emergencies db) (otps db) (rateLimits db) (failedAttempts db)
    (auditLogs db) (users db) (auth_users db) (outbox db).
Definition set_clinic m (db : DB) : DB :=
  mkDB (emergencies db) (responders_alerts db) (responders db) m
    (fireDept_emergencies db) (otps db) (rateLimits db) (failedAttempts db)
    (auditLogs db) (users db) (auth_users db) (outbox db).
Definition set_fireDept m (db : DB) : DB :=
  mkDB (emergencies db) (responders_alerts db) (responders db)
    (clinic_emergencies db) m (otps db) (rateLimits db) (failedAttempts db)
    (auditLogs db) (users db) (auth_users db) (outbox db).
Definition set_otps m (db : DB) : DB :=
  mkDB (emergencies db) (responders_alerts db) (responders db)
    (clinic_emergencies db) (fireDept_emergencies db) m (rateLimits db)
    (failedAttempts db) (auditLogs db) (users db) (auth_users db) (outbox db).
Definition set_rateLimits m (db : DB) : DB :=
  mkDB (emergencies db) (responders_alerts db) (responders db)
    (clinic_emergencies db) (fireDept_emergencies db) (otps db) m
    (failedAttempts db) (auditLogs db) (users db) (auth_users db) (outbox db).
Definition set_failedAttempts m (db : DB) : DB :=
  mkDB (emergencies db) (responders_alerts db) (responders db)
    (clinic_emergencies db) (fireDept_emergencies db) (otps db)
    (rateLimits db) m (auditLogs db) (users db) (auth_users db) (outbox db).
Definition set_auditLogs m (db : DB) : DB :=
  mkDB (emergencies db) (responders_alerts db) (responders db)
    (clinic_emergencies db) (fireDept_emergencies db) (otps db)
    (rateLimits db) (failedAttempts db) m (users db) (auth_users db)
    (outbox db).
Definition set_users m (db : DB) : DB :=
  mkDB (emergencies db) (responders_alerts db) (responders db)
    (clinic_emergencies db) (fireDept_emergencies db) (otps db)
    (rateLimits db) (failedAttempts db) (auditLogs db) m (auth_users db)
    (outbox db).
Definition set_auth_users m (db : DB) : DB :=
  mkDB (emergencies db) (responders_alerts db) (responders db)
    (clinic_emergencies db) (fireDept_emergencies db) (otps db)
    (rateLimits db) (failedAttempts db) (auditLogs db) (users db) m
    (outbox db).
Definition set_outbox m (db : DB) : DB :=
  mkDB (emergencies db) (responders_alerts db) (responders db)
    (clinic_emergencies db) (fireDept_emergencies db) (otps db)
    (rateLimits db) (failedAttempts db) (auditLogs db) (users db)
    (auth_users db) m.

Arguments set_emergencies _ _ /.
Arguments set_responders_alerts _ _ /.
Arguments set_responders _ _ /.
Arguments set_clinic _ _ /.
Arguments set_fireDept _ _ /.
Arguments set_otps _ _ /.
Arguments set_rateLimits _ _ /.
Arguments set_failedAttempts _ _ /.
Arguments set_auditLogs _ _ /.
Arguments set_users _ _ /.
Arguments set_auth_users _ _ /.
Arguments set_outbox _ _ /.

(** ** Collections as lenses *)

Record Collection (T : Type) := mkCollection {
  coll_path : string;
  coll_get : DB -> gmap string T;
  coll_set : gmap string T -> DB -> DB
}.
Arguments coll_path {T} _.
Arguments coll_get {T} _ _.
Arguments coll_set {T} _ _ _.

Class CollectionLaws {T} (c : Collection T) := {
  coll_get_set m db : coll_get c (coll_set c m db) = m;
  coll_set_get db : coll_set c (coll_get c db) db = db;
  coll_set_set m m' db : coll_set c m (coll_set c m' db) = coll_set c m db
}.

Definition emergencies_c : Collection Report.t :=
  mkCollection _ "emergencies" emergencies set_emergencies.
Definition alerts_c : Collection Alert.t :=
  mkCollection _ "responders_alerts" responders_alerts set_responders_alerts.
Definition responders_c : Collection Responder.t :=
  mkCollection _ "responders" responders set_responders.
Definition clinic_c : Collection Routed :=
  mkCollection _ "departments/clinic/emergencies" clinic_emergencies set_clinic.
Definition fireDept_c : Collection Routed :=
  mkCollection _ "departments/fireDept/emergencies" fireDept_emergencies
    set_fireDept.
Definition otps_c : Collection OtpDoc.t :=
  mkCollection _ "otps" otps set_otps.
Definition rateLimits_c : Collection RateLimit.t :=
  mkCollection _ "rateLimits" rateLimits set_rateLimits.
Definition failedAttempts_c : Collection FailedAttempts.t :=
  mkCollection _ "failedAttempts" failedAttempts set_failedAttempts.
Definition users_c : Collection UserProfile.t :=
  mkCollection _ "users" users set_users.

Ltac collection_laws := split; intros; by repeat match goal with db : DB |- _ => destruct db end.

#[export] Instance emergencies_laws : CollectionLaws emergencies_c.
Proof. collection_laws. Qed.
#[export] Instance alerts_laws : CollectionLaws alerts_c.
Proof. collection_laws. Qed.
#[export] Instance responders_laws : CollectionLaws responders_c.
Proof. collection_laws. Qed.
#[export] Instance clinic_laws : CollectionLaws clinic_c.
Proof. collection_laws. Qed.
#[export] Instance fireDept_laws : CollectionLaws fireDept_c.
Proof. collection_laws. Qed.
#[export] Instance otps_laws : CollectionLaws otps_c.
Proof. collection_laws. Qed.
#[export] Instance rateLimits_laws : CollectionLaws rateLimits_c.
Proof. collection_laws. Qed.
#[export] Instance failedAttempts_laws : CollectionLaws failedAttempts_c.
Proof. collection_laws. Qed.
#[export] Instance users_laws : CollectionLaws users_c.
Proof. collection_laws. Qed.

(** ** Errors *)

Inductive HttpsCode := invalid_argument | resource_exhausted
                     | permission_denied | internal.

Inductive Error :=
| HttpsError (code : HttpsCode) (msg : string)  (** [functions.https.HttpsError] *)
| JsError (msg : string)                        (** [new Error(msg)] *)
| NotFound (path id : string)                   (** [update()] of a missing document *)
| AuthError (code : string).                     (** a Firebase Auth error, by its [err.code] *)

Definition error_message (e : Error) : string :=
  match e with
  | HttpsError _ msg | JsError msg => msg
  | NotFound path id => "5 NOT_FOUND: No document to update: " +:+ path +:+ "/" +:+ id
  | AuthError code => code
  end.

(** [catch (err) { throw new Error(err.message) }], the handlers of index.js *)
Definition rethrow {A} (m : ST DB Error A) : ST DB Error A :=
  st_catch m (fun e => st_throw (JsError (error_message e))).

(** ** Document primitives *)

Abbreviation M := (ST DB Error).

Section Documents.
Context {T : Type} (c : Collection T).

(** [await ref.get()] *)
Definition doc_get (id : string) : M (option T) :=
  fun db => (inr (coll_get c db !! id), db).

(** [await ref.set(v)] *)
Definition doc_set (id : string) (v : T) : M unit :=
  st_modify (fun db => coll_set c (<[id:=v]> (coll_get c db)) db).

(** [await ref.update({...})]: the change [f] of the stored fields. *)
Definition doc_update (id : string) (f : T -> T) : M unit :=
  fun db => match coll_get c db !! id with
            | Some v => (inr tt, coll_set c (<[id:=f v]> (coll_get c db)) db)
            | None => (inl (NotFound (coll_path c) id), db)
            end.

(** [await ref.delete()] *)
Definition doc_delete (id : string) : M unit :=
  st_modify (fun db => coll_set c (delete id (coll_get c db)) db).

Context `{!CollectionLaws c}.

Lemma doc_get_run id db : doc_get id db = (inr (coll_get c db !! id), db).
Proof. reflexivity. Qed.

Lemma doc_set_lookup id v db :
  coll_get c (st_state (doc_set id v) db) = <[id:=v]> (coll_get c db).
Proof. apply coll_get_set. Qed.

Lemma doc_update_some id f db v :
  coll_get c db !! id = Some v ->
  doc_update id f db = (inr tt, coll_set c (<[id:=f v]> (coll_get c db)) db).
Proof. unfold doc_update. by intros ->. Qed.

Lemma doc_update_none id f db :
  coll_get c db !! id = None ->
  doc_update id f db = (inl (NotFound (coll_path c) id), db).
Proof. unfold doc_update. by intros ->. Qed.

Lemma doc_delete_lookup id db :
  coll_get c (st_state (doc_delete id) db) = delete id (coll_get c db).
Proof. apply coll_get_set. Qed.
End Documents.

(** [await db.collection("auditLogs").add(entry)] *)
Definition audit_add (entry : Audit.t) : M unit :=
  st_modify (fun db => set_auditLogs (auditLogs db ++ [entry]) db).

(** A message handed to an external service. *)
Definition emit (e : Effect) : M unit :=
  st_modify (fun db => set_outbox (outbox db ++ [e]) db).

(** Unfold a handler's run down to lookups in the collections, leaving
    the database a variable. *)
Ltac handler_unfold :=
  repeat progress unfold rethrow, st_catch, st_bind, st_return, st_throw, st_modify, st_when,
    doc_get, doc_set, doc_update, doc_delete, audit_add, emit,
    mbind, mret, st_mbind, st_mret in *;
  cbn [coll_get coll_set coll_path emergencies_c alerts_c responders_c
       clinic_c fireDept_c otps_c rateLimits_c failedAttempts_c users_c
       fst snd] in *.

(** Destruct the database records of the context, so that the lens
    projections of concrete collections compute. *)
Ltac db_simpl :=
  repeat match goal with db : DB |- _ => destruct db end; cbn in *.

#[export] Hint Resolve doc_get_run : alertivo.
