(* ===== verification/Registry.v ===== *)
(** * Registry: the responders collection and its writers

    [updateResponderHeartbeat] (index.js lines 307-352) is the server's
    heartbeat handler; [goActive] and [goInactive] are the awaited writes
    of the responder dashboard's toggle (dashboard.js lines 185-198; the
    whole toggle, with its timers, is modelled in Dashboard);
    [active_docs] is the query [where("status", "==", "active").get()]
    (index.js lines 58-61 and 362-365), ordered by document id.

    The specification states the registry invariant "a responder's
    [assignedEmergency] is set iff its status is [busy]"
    ([assigned_iff_busy]).  This file proves what the heartbeat does on
    every branch and that it breaks the invariant: it writes
    [status: "active"] whatever the current status, so a busy responder
    that sends a heartbeat is active again while still assigned. *)

From S2P Require Import Prelude Geo Store.
From Stdlib Require Import QArith_base.
Local Close Scope Q_scope.

(** ** Heartbeat *)

(** The request [{responderUID, location}] of [updateResponderHeartbeat]. *)
Record HeartbeatRequest := mkHeartbeatRequest {
  hb_responderUID : option string;
  hb_location : option LatLng
}.

(** A JavaScript number is truthy unless it is [0] (or NaN). *)
Definition q_truthy (q : Q) : bool := negb (Qeq_bool q 0).

(** [if (location && location.lat && location.lng)] *)
Definition location_given (loc : option LatLng) : option LatLng :=
  match loc with
  | Some l => if q_truthy (lat l) && q_truthy (lng l) then Some l else None
  | None => None
  end.

(** The fields [responderRef.update(updateData)] writes (lines 324-338). *)
Definition heartbeat_update (now : Z) (loc : option LatLng)
    (r : Responder.t) : Responder.t :=
  Responder.mk Responder.active
    (match location_given loc with
     | Some l => Some (Responder.mkCurrent l now)
     | None => Responder.currentLocation r
     end)
    (Responder.lastKnownLocation r) (Some now) (Some now)
    (Responder.lastInactiveAt r) (Responder.assignedEmergency r)
    (Responder.expoPushToken r).

Definition updateResponderHeartbeat (now : Z) (req : HeartbeatRequest) : M unit :=
  rethrow
    (match str_val (hb_responderUID req) with
     | None => st_throw (JsError "Missing responderUID")
     | Some uid =>
         snap ← doc_get responders_c uid;
         match snap with
         | None => st_throw (JsError "Responder not found")
         | Some _ => doc_update responders_c uid (heartbeat_update now (hb_location req))
         end
     end).

(** ** The dashboard's toggle *)

(** [updateDoc(doc(db, "responders", uid), {status: "active", lastActiveAt})] *)
Definition set_active (now : Z) (r : Responder.t) : Responder.t :=
  Responder.mk Responder.active (Responder.currentLocation r)
    (Responder.lastKnownLocation r) (Responder.lastHeartbeat r) (Some now)
    (Responder.lastInactiveAt r) (Responder.assignedEmergency r)
    (Responder.expoPushToken r).

(** [updateDoc(..., {status: "inactive", lastInactiveAt})] *)
Definition set_inactive (now : Z) (r : Responder.t) : Responder.t :=
  Responder.mk Responder.inactive (Responder.currentLocation r)
    (Responder.lastKnownLocation r) (Responder.lastHeartbeat r)
    (Responder.lastActiveAt r) (Some now) (Responder.assignedEmergency r)
    (Responder.expoPushToken r).

Definition set_push_token (token : string) (r : Responder.t) : Responder.t :=
  Responder.mk (Responder.status r) (Responder.currentLocation r)
    (Responder.lastKnownLocation r) (Responder.lastHeartbeat r)
    (Responder.lastActiveAt r) (Responder.lastInactiveAt r)
    (Responder.assignedEmergency r) (Some token).

(** [toggleActive] when going on duty: [sendExpoPushToken] (its errors are
    caught) and then the awaited status write.  The location tracker's
    own [status: "active"] write is the same update. *)
Definition goActive (uid : string) (now : Z) (token : option string) : M unit :=
  _ ← st_catch
        (match str_val token with
         | Some t => doc_update responders_c uid (set_push_token t)
         | None => st_return tt
         end)
        (fun _ => st_return tt);
  doc_update responders_c uid (set_active now).

(** [toggleActive] when going off duty (the tracker's stop writes the same
    fields). *)
Definition goInactive (uid : string) (now : Z) : M unit :=
  doc_update responders_c uid (set_inactive now).

(** ** The [status == "active"] query *)

Definition is_active (p : string * Responder.t) : Prop :=
  Responder.status p.2 = Responder.active.

#[export] Instance is_active_dec p : Decision (is_active p).
Proof. unfold is_active. apply _. Defined.

(** The query's snapshot: the active documents in ascending id order. *)
Definition active_docs (m : gmap string Responder.t) : list (string * Responder.t) :=
  sort_by_id (filter is_active (map_to_list m)).

(** ** The registry invariant *)

Definition assigned_iff_busy (r : Responder.t) : Prop :=
  is_Some (Responder.assignedEmergency r) <-> Responder.status r = Responder.busy.

#[export] Instance assigned_iff_busy_dec r : Decision (assigned_iff_busy r).
Proof. unfold assigned_iff_busy. apply _. Defined.

Definition registry_ok (db : DB) : Prop :=
  map_Forall (fun _ r => assigned_iff_busy r) (responders db).

(** ** Lemmas on the query *)

Lemma elem_of_active_docs (m : gmap string Responder.t) id r :
  (id, r) ∈ active_docs m <-> m !! id = Some r /\ Responder.status r = Responder.active.
Proof.
  unfold active_docs. rewrite (sort_by_id_perm _), list_elem_of_filter,
    elem_of_map_to_list. unfold is_active. simpl. tauto.
Qed.

Lemma active_docs_NoDup (m : gmap string Responder.t) :
  NoDup (active_docs m).*1.
Proof.
  unfold active_docs. rewrite (sort_by_id_perm _).
  apply NoDup_fmap_fst.
  - intros i x y Hx Hy.
    apply list_elem_of_filter in Hx as [_ Hx], Hy as [_ Hy].
    apply elem_of_map_to_list in Hx, Hy. congruence.
  - apply NoDup_filter, NoDup_map_to_list.
Qed.

Lemma active_docs_status (m : gmap string Responder.t) p :
  p ∈ active_docs m -> Responder.status p.2 = Responder.active.
Proof. destruct p. rewrite elem_of_active_docs. tauto. Qed.

(** ** Heartbeat: behaviour on every branch *)

Lemma registry_ok_insert db uid r :
  registry_ok db -> assigned_iff_busy r ->
  registry_ok (set_responders (<[uid:=r]> (responders db)) db).
Proof.
  intros Hok Hr. unfold registry_ok. destruct db. cbn in *.
  by apply map_Forall_insert_2.
Qed.

#[export] Hint Resolve registry_ok_insert : alertivo.

Lemma updateResponderHeartbeat_ok now uid loc db r :
  uid <> "" -> responders db !! uid = Some r ->
  updateResponderHeartbeat now (mkHeartbeatRequest (Some uid) loc) db =
  (inr tt, set_responders (<[uid:=heartbeat_update now loc r]> (responders db)) db).
Proof.
  intros Huid Hr. unfold updateResponderHeartbeat. cbn [hb_responderUID].
  rewrite str_val_some by done. handler_unfold. by rewrite !Hr.
Qed.

Lemma updateResponderHeartbeat_missing now req db :
  str_val (hb_responderUID req) = None ->
  updateResponderHeartbeat now req db = (inl (JsError "Missing responderUID"), db).
Proof.
  intros H. unfold updateResponderHeartbeat. by rewrite H.
Qed.

Lemma updateResponderHeartbeat_unknown now uid loc db :
  uid <> "" -> responders db !! uid = None ->
  updateResponderHeartbeat now (mkHeartbeatRequest (Some uid) loc) db =
  (inl (JsError "Responder not found"), db).
Proof.
  intros Huid Hr. unfold updateResponderHeartbeat. cbn [hb_responderUID].
  rewrite str_val_some by done. handler_unfold. by rewrite !Hr.
Qed.

(** C4: the heartbeat makes every responder active, busy ones included: a
    responder busy with an emergency that sends a heartbeat is active
    again while still assigned, which breaks "assigned iff busy" and puts
    it back among the Assigner's candidates. *)
Theorem updateResponderHeartbeat_reactivates_busy now uid loc db r e :
  uid <> "" -> responders db !! uid = Some r ->
  Responder.status r = Responder.busy -> Responder.assignedEmergency r = Some e ->
  exists r',
    updateResponderHeartbeat now (mkHeartbeatRequest (Some uid) loc) db =
      (inr tt, set_responders (<[uid:=r']> (responders db)) db) /\
    Responder.status r' = Responder.active /\
    Responder.assignedEmergency r' = Some e /\ ~ assigned_iff_busy r'.
Proof.
  intros Huid Hr Hbusy He. exists (heartbeat_update now loc r).
  rewrite (updateResponderHeartbeat_ok _ _ _ _ _ Huid Hr).
  split_and!; [done | done | by simpl; rewrite He |].
  unfold assigned_iff_busy. simpl. rewrite He. intros [H _]. by specialize (H ltac:(eauto)).
Qed.

(** the heartbeat's errors: without a responder id, or for an unknown
    responder, it fails with the code's message and writes nothing. *)
Theorem updateResponderHeartbeat_errors now uid loc db :
  updateResponderHeartbeat now (mkHeartbeatRequest None loc) db =
    (inl (JsError "Missing responderUID"), db) /\
  (uid <> "" -> responders db !! uid = None ->
   updateResponderHeartbeat now (mkHeartbeatRequest (Some uid) loc) db =
     (inl (JsError "Responder not found"), db)).
Proof.
  split.
  - by apply updateResponderHeartbeat_missing.
  - apply updateResponderHeartbeat_unknown.
Qed.

(** ** Witnesses *)

Definition busy_responder : Responder.t :=
  Responder.mk Responder.busy None None (Some 0%Z) (Some 0%Z) None (Some "rep1") None.

Definition busy_db : DB := set_responders {["r1" := busy_responder]} empty_db.

Lemma updateResponderHeartbeat_reactivates_busy_witness :
  exists r',
    updateResponderHeartbeat 60000 (mkHeartbeatRequest (Some "r1") None) busy_db =
      (inr tt, set_responders (<["r1":=r']> (responders busy_db)) busy_db) /\
    Responder.status r' = Responder.active /\
    Responder.assignedEmergency r' = Some "rep1" /\ ~ assigned_iff_busy r'.
Proof.
  apply (updateResponderHeartbeat_reactivates_busy 60000 "r1" None busy_db
           busy_responder "rep1"); [done | reflexivity | reflexivity | reflexivity].
Defined.

Lemma updateResponderHeartbeat_errors_witness :
  updateResponderHeartbeat 60000 (mkHeartbeatRequest (Some "r9") None) busy_db =
    (inl (JsError "Responder not found"), busy_db).
Proof.
  apply (proj2 (updateResponderHeartbeat_errors 60000 "r9" None busy_db));
    [done | reflexivity].
Defined.
