(* ===== verification/Assigner.v ===== *)
(** * Assigner: [assignNearestResponder] (index.js lines 56-90)

    The scan is written against the class [Metric]: a distance between
    two positions and the strict order [dist_lt] the code compares with.
    The code's instance is [haversine_metric] (Geo's [distance] with [<]
    on the reals); [grid_metric] is a computable instance on integers.

    [nearest_scan] is the [forEach] of lines 69-80 as a left fold over the
    snapshot, with [minDistance = Infinity] as [None].  Its specification
    [first_nearest] says that the result is located, strictly closer than
    every located candidate before it and not farther than every located
    candidate after it: the minimum, with ties going to the first one
    seen.  The scan meets it on every input; the handler marks the chosen
    responder busy and changes nothing else. *)

From S2P Require Import Prelude Geo Store Registry.
From Stdlib Require Import Reals Lra QArith_base.
Local Close Scope Q_scope.

(** ** The interface between the geometry and the scan *)

Class Metric (D : Type) := {
  dist_lt : D -> D -> bool;
  dist : LatLng -> LatLng -> D;
  dist_lt_irrefl x : dist_lt x x = false;
  dist_lt_trans x y z : dist_lt x y = true -> dist_lt y z = true -> dist_lt x z = true;
  dist_lt_total x y : x = y \/ dist_lt x y = true \/ dist_lt y x = true
}.

(** The code's metric: [getDistance] compared with [<]. *)
#[export] Instance haversine_metric : Metric R := {|
  dist_lt := Rltb;
  dist := distance;
  dist_lt_irrefl := Rltb_irrefl;
  dist_lt_trans := Rltb_trans;
  dist_lt_total := Rltb_total
|}.

(** A computable metric (grid distance between integer parts of the
    coordinates, compared on [Z]), used to run concrete scenarios. *)
Definition grid_dist (p q : LatLng) : Z :=
  Z.abs (Qround.Qfloor (lat p) - Qround.Qfloor (lat q)) +
  Z.abs (Qround.Qfloor (lng p) - Qround.Qfloor (lng q)).

Definition grid_metric : Metric Z.
Proof.
  refine {| dist_lt := Z.ltb; dist := grid_dist |}.
  - intros x. apply Z.ltb_irrefl.
  - intros x y z. rewrite !Z.ltb_lt. lia.
  - intros x y. rewrite !Z.ltb_lt. lia.
Defined.

(** ** The scan *)

(** [data.currentLocation || data.lastKnownLocation] *)
Definition responder_location (r : Responder.t) : option LatLng :=
  match Responder.currentLocation r with
  | Some c => Some (Responder.cur_pos c)
  | None => Responder.lastKnownLocation r
  end.

Section Scan.
Context `{Metric D} (target : LatLng).

(** [dist < minDistance], [minDistance] being [None] for [Infinity] *)
Definition lt_min (d : D) (minDistance : option D) : bool :=
  match minDistance with
  | None => true
  | Some m => dist_lt d m
  end.

(** One call of the [forEach] callback: [(nearest, minDistance)] *)
Definition scan_step (acc : option (string * Responder.t) * option D)
    (doc : string * Responder.t) : option (string * Responder.t) * option D :=
  match responder_location doc.2 with
  | None => acc
  | Some l =>
      let d := dist target l in
      if lt_min d acc.2 then (Some doc, Some d) else acc
  end.

Definition nearest_scan (docs : list (string * Responder.t)) :
    option (string * Responder.t) :=
  (foldl scan_step (None, None) docs).1.

(** ** Specification *)

Definition located (y : string * Responder.t) (l : LatLng) : Prop :=
  responder_location y.2 = Some l.

Definition no_candidate (docs : list (string * Responder.t)) : Prop :=
  forall y, y ∈ docs -> responder_location y.2 = None.

(** [doc] at position [length pre], located at [l], beats every located
    candidate before it and is not beaten by any after it. *)
Definition first_nearest (docs : list (string * Responder.t))
    (doc : string * Responder.t) (l : LatLng) : Prop :=
  exists pre post,
    docs = pre ++ doc :: post /\ located doc l /\
    (forall y l', y ∈ pre -> located y l' ->
       dist_lt (dist target l) (dist target l') = true) /\
    (forall y l', y ∈ post -> located y l' ->
       dist_lt (dist target l') (dist target l) = false).

Definition scan_inv (docs : list (string * Responder.t))
    (acc : option (string * Responder.t) * option D) : Prop :=
  (acc = (None, None) /\ no_candidate docs) \/
  (exists doc l, acc = (Some doc, Some (dist target l)) /\
                 first_nearest docs doc l).
End Scan.

(** ** The handler *)

(** [nearest.ref.update({status: "busy", assignedEmergency: reportId})] *)
Definition set_busy (reportId : string) (r : Responder.t) : Responder.t :=
  Responder.mk Responder.busy (Responder.currentLocation r)
    (Responder.lastKnownLocation r) (Responder.lastHeartbeat r)
    (Responder.lastActiveAt r) (Responder.lastInactiveAt r)
    (Some reportId) (Responder.expoPushToken r).

Definition assignNearestResponder `{Metric D} (eloc : Location) (reportId : string) :
    M (option string) :=
  db ← st_get;
  let respondersSnap := active_docs (responders db) in
  if bool_decide (respondersSnap = []) then mret None
  else
    match nearest_scan (loc_pos eloc) respondersSnap with
    | Some (id, _) =>
        _ ← doc_update responders_c id (set_busy reportId);
        mret (Some id)
    | None => mret None
    end.

(** The promise of [assignNearestResponder] when it returns [Some id]. *)
Definition nearest_choice `{Metric D} (eloc : Location) (reportId : string)
    (db db' : DB) (id : string) : Prop :=
  exists r l,
    responders db !! id = Some r /\ Responder.status r = Responder.active /\
    responder_location r = Some l /\
    responders db' = <[id:=set_busy reportId r]> (responders db) /\
    (forall id' r' l', responders db !! id' = Some r' ->
       Responder.status r' = Responder.active -> responder_location r' = Some l' ->
       dist_lt (dist (loc_pos eloc) l') (dist (loc_pos eloc) l) = false).

(** ** A scenario: two active responders, 5 and 12 grid units away *)

Definition scenario_responder (pos : option LatLng) : Responder.t :=
  Responder.mk Responder.active
    (option_map (fun p => Responder.mkCurrent p 0%Z) pos) None
    (Some 0%Z) (Some 0%Z) None None (Some "token-1").

Definition scenario_db : DB :=
  set_responders
    (<["r1" := scenario_responder (Some (mkLatLng 0%Q 5%Q))]>
      (<["r2" := scenario_responder (Some (mkLatLng 0%Q 12%Q))]>
        (<["r3" := scenario_responder None]> ∅)))
    empty_db.

(** One active responder with a location, one inactive. *)
Definition single_db : DB :=
  set_responders
    (<["r1" := scenario_responder (Some (mkLatLng 0%Q 5%Q))]>
      (<["r9" := Responder.mk Responder.inactive None
                   (Some (mkLatLng 0%Q 1%Q)) None None None None None]> ∅))
    empty_db.

(** Active responders, none with a location. *)
Definition unlocated_db : DB :=
  set_responders (<["r3" := scenario_responder None]> ∅) empty_db.

Definition scenario_report_location : Location := mkLocation 0%Q 0%Q None.

(** Splitting one list at two positions [i < j]: the element at [i] lies
    before position [j], the one at [j] after position [i]. *)
Lemma split_before {A} (pre post pre' post' : list A) x x' :
  pre ++ x :: post = pre' ++ x' :: post' -> length pre < length pre' ->
  x ∈ pre' /\ x' ∈ post.
Proof.
  intros Heq Hlt. split.
  - apply (f_equal (.!! length pre)) in Heq.
    rewrite (list_lookup_middle pre) in Heq by done.
    rewrite lookup_app_l in Heq by done.
    by eapply list_elem_of_lookup_2.
  - apply (f_equal (.!! length pre')) in Heq.
    rewrite (list_lookup_middle pre') in Heq by done.
    rewrite lookup_app_r in Heq by lia.
    destruct (length pre' - length pre)%nat as [|k] eqn:Hk; [lia |].
    by eapply list_elem_of_lookup_2.
Qed.

Section ScanProofs.
Context `{Metric D} (target : LatLng).

Local Abbreviation scan_step := (scan_step target).
Local Abbreviation nearest_scan := (nearest_scan target).
Local Abbreviation first_nearest := (first_nearest target).
Local Abbreviation scan_inv := (scan_inv target).

(** ** Lemmas on the order *)

Lemma dist_lt_asym x y : dist_lt x y = true -> dist_lt y x = false.
Proof.
  intros Hxy. destruct (dist_lt y x) eqn:Hyx; [|done].
  pose proof (dist_lt_trans _ _ _ Hxy Hyx). by rewrite dist_lt_irrefl in *.
Qed.

Lemma dist_lt_trans_le x y z :
  dist_lt x y = true -> dist_lt z y = false -> dist_lt x z = true.
Proof.
  intros Hxy Hzy. destruct (dist_lt_total y z) as [<- | [Hyz | Hzy']].
  - done.
  - by eapply dist_lt_trans.
  - congruence.
Qed.

(** ** The fold invariant *)

Lemma first_nearest_snoc_skip docs doc l x :
  first_nearest docs doc l ->
  (forall lx, located x lx -> dist_lt (dist target lx) (dist target l) = false) ->
  first_nearest (docs ++ [x]) doc l.
Proof.
  intros (pre & post & -> & Hl & Hpre & Hpost) Hx.
  exists pre, (post ++ [x]). split_and!; [by simplify_list_eq | done | done |].
  intros y l' [Hy | ->%list_elem_of_singleton]%elem_of_app; eauto.
Qed.

Lemma first_nearest_snoc_new docs x lx :
  located x lx ->
  (forall y l', y ∈ docs -> located y l' ->
     dist_lt (dist target lx) (dist target l') = true) ->
  first_nearest (docs ++ [x]) x lx.
Proof.
  intros Hx Hdocs. exists docs, []. split_and!; [done | done | done |].
  intros y l' Hy. by apply not_elem_of_nil in Hy.
Qed.

Lemma first_nearest_beaten docs doc l dx :
  first_nearest docs doc l -> dist_lt dx (dist target l) = true ->
  forall y l', y ∈ docs -> located y l' -> dist_lt dx (dist target l') = true.
Proof.
  intros (pre & post & -> & Hl & Hpre & Hpost) Hdx y l' Hy Hyl.
  apply elem_of_app in Hy as [Hy | [-> | Hy]%elem_of_cons].
  - eapply dist_lt_trans; [exact Hdx | eauto].
  - unfold located in *. congruence.
  - eapply dist_lt_trans_le; eauto.
Qed.

Lemma scan_inv_step docs acc x :
  scan_inv docs acc -> scan_inv (docs ++ [x]) (scan_step acc x).
Proof.
  unfold scan_step.
  destruct (responder_location x.2) as [lx|] eqn:Hx.
  - intros [[-> Hnone] | (doc & l & -> & Hfirst)]; simpl.
    + right. exists x, lx. split; [done |].
      apply first_nearest_snoc_new; [done |].
      intros y l' Hy Hyl. unfold located in Hyl. by rewrite Hnone in Hyl.
    + destruct (dist_lt (dist target lx) (dist target l)) eqn:Hlt.
      * right. exists x, lx. split; [done |].
        apply first_nearest_snoc_new; [done |].
        by eapply first_nearest_beaten.
      * right. exists doc, l. split; [done |].
        apply first_nearest_snoc_skip; [done |].
        unfold located. intros lx' Hlx'. congruence.
  - intros [[-> Hnone] | (doc & l & -> & Hfirst)].
    + left. split; [done |].
      intros y [Hy | ->%list_elem_of_singleton]%elem_of_app; auto.
    + right. exists doc, l. split; [done |].
      apply first_nearest_snoc_skip; [done |].
      unfold located. intros lx' Hlx'. congruence.
Qed.

Lemma scan_inv_foldl docs : scan_inv docs (foldl scan_step (None, None) docs).
Proof.
  induction docs as [|x docs IH] using rev_ind.
  - left. split; [done |]. intros y Hy. by apply not_elem_of_nil in Hy.
  - rewrite foldl_app. by apply scan_inv_step.
Qed.

Lemma first_nearest_in docs doc l : first_nearest docs doc l -> doc ∈ docs.
Proof. intros (pre & post & -> & _). set_solver. Qed.

Lemma first_nearest_not_worse docs doc l y l' :
  first_nearest docs doc l -> y ∈ docs -> located y l' ->
  dist_lt (dist target l') (dist target l) = false.
Proof.
  intros (pre & post & -> & Hl & Hpre & Hpost) Hy Hyl.
  apply elem_of_app in Hy as [Hy | [-> | Hy]%elem_of_cons]; eauto.
  - apply dist_lt_asym. eauto.
  - unfold located in *. rewrite Hl in Hyl. injection Hyl as ->.
    apply dist_lt_irrefl.
Qed.

(** ** The scan meets its specification *)

(** The scan's result, as its invariant gives it at the end of the loop. *)
Lemma nearest_scan_result docs :
  match nearest_scan docs with
  | Some doc => exists l, first_nearest docs doc l
  | None => no_candidate docs
  end.
Proof.
  unfold nearest_scan.
  destruct (scan_inv_foldl docs) as [[-> Hnone] | (doc & l & -> & Hfirst)];
    simpl; eauto.
Qed.

(** C1: on every snapshot the scan returns a candidate that is located,
    strictly closer than every located candidate before it and not
    farther than any located candidate after it; it returns nothing
    exactly when no candidate has a location. *)
Theorem nearest_scan_spec docs :
  match nearest_scan docs with
  | Some doc => exists l, first_nearest docs doc l
  | None => no_candidate docs
  end.
Proof. apply nearest_scan_result. Qed.

Lemma nearest_scan_in docs doc : nearest_scan docs = Some doc -> doc ∈ docs.
Proof.
  intros Hs. pose proof (nearest_scan_result docs) as Hspec. rewrite Hs in Hspec.
  destruct Hspec as [l Hl]. by eapply first_nearest_in.
Qed.

Lemma nearest_scan_minimal docs doc l y l' :
  nearest_scan docs = Some doc -> located doc l -> y ∈ docs -> located y l' ->
  dist_lt (dist target l') (dist target l) = false.
Proof.
  intros Hs Hl Hy Hyl. pose proof (nearest_scan_result docs) as Hspec.
  rewrite Hs in Hspec. destruct Hspec as [l0 Hfirst].
  assert (l0 = l) as ->.
  { destruct Hfirst as (_ & _ & _ & Hl0 & _). unfold located in *. congruence. }
  by eapply first_nearest_not_worse.
Qed.
End ScanProofs.

(** ** The handler on each branch *)

Section Handler.
Context `{Metric D}.

Lemma assignNearestResponder_some (eloc : Location) reportId db id r :
  nearest_scan (loc_pos eloc) (active_docs (responders db)) = Some (id, r) ->
  assignNearestResponder eloc reportId db =
  (inr (Some id), set_responders (<[id:=set_busy reportId r]> (responders db)) db).
Proof.
  intros Hs. pose proof (nearest_scan_in _ _ _ Hs) as Hin.
  apply elem_of_active_docs in Hin as [Hr _].
  unfold assignNearestResponder. handler_unfold. cbn [st_get].
  rewrite bool_decide_eq_false_2; [rewrite Hs; by rewrite Hr |].
  intros Hnil. rewrite Hnil in Hs. discriminate.
Qed.

Lemma assignNearestResponder_none (eloc : Location) reportId db :
  nearest_scan (loc_pos eloc) (active_docs (responders db)) = None ->
  assignNearestResponder eloc reportId db = (inr None, db).
Proof.
  intros Hs. unfold assignNearestResponder. handler_unfold. cbn [st_get].
  case_bool_decide; [done |]. by rewrite Hs.
Qed.

Lemma nearest_choice_of_run (eloc : Location) reportId db id db' :
  assignNearestResponder eloc reportId db = (inr (Some id), db') ->
  nearest_choice eloc reportId db db' id.
Proof.
  intros Hrun.
  destruct (nearest_scan (loc_pos eloc) (active_docs (responders db)))
    as [[id0 r]|] eqn:Hs.
  - rewrite (assignNearestResponder_some _ _ _ _ _ Hs) in Hrun.
    injection Hrun as <- <-.
    pose proof (nearest_scan_result (loc_pos eloc) (active_docs (responders db))) as Hspec.
    rewrite Hs in Hspec. destruct Hspec as [l Hfirst].
    pose proof (first_nearest_in _ _ _ _ Hfirst) as [Hr Hact]%elem_of_active_docs.
    exists r, l. split_and!; [done | done | by destruct Hfirst as (_&_&_&?&_) | by destruct db |].
    intros id' r' l' Hr' Hact' Hl'.
    eapply (first_nearest_not_worse _ _ _ _ (id', r')); [done | | done].
    by apply elem_of_active_docs.
  - by rewrite assignNearestResponder_none in Hrun.
Qed.

Lemma assign_none_of_no_candidate (eloc : Location) reportId db :
  map_Forall (fun _ r => Responder.status r = Responder.active ->
                         responder_location r = None) (responders db) ->
  assignNearestResponder eloc reportId db = (inr None, db).
Proof.
  intros Hnone. apply assignNearestResponder_none.
  pose proof (nearest_scan_result (loc_pos eloc) (active_docs (responders db))) as Hspec.
  destruct (nearest_scan _ _) as [[id r]|] eqn:Hs; [| done].
  destruct Hspec as [l Hfirst].
  pose proof (first_nearest_in _ _ _ _ Hfirst) as [Hr Hact]%elem_of_active_docs.
  destruct Hfirst as (_ & _ & _ & Hl & _). unfold located in Hl. simpl in Hl.
  by rewrite (Hnone id r Hr Hact) in Hl.
Qed.

Lemma nearest_choice_responders (eloc : Location) reportId db db' db'' id :
  responders db'' = responders db' ->
  nearest_choice eloc reportId db db' id -> nearest_choice eloc reportId db db'' id.
Proof.
  intros Heq (r & l & Hr & Hact & Hl & Hdb' & Hmin).
  exists r, l. rewrite Heq. eauto 10.
Qed.

(** C2: the responder [assignNearestResponder] picks was active, has a
    location, is not farther from the report than any other active
    responder with a location, and is now busy with the report; no other
    document of any collection changes. *)
Theorem assignNearestResponder_nearest (eloc : Location) reportId db id db' :
  assignNearestResponder eloc reportId db = (inr (Some id), db') ->
  nearest_choice eloc reportId db db' id /\ db' = set_responders (responders db') db.
Proof.
  intros Hrun. split; [by apply nearest_choice_of_run |].
  destruct (nearest_scan (loc_pos eloc) (active_docs (responders db))) as [[i r]|] eqn:Hs.
  - rewrite (assignNearestResponder_some _ _ _ _ _ Hs) in Hrun.
    injection Hrun as _ <-. by destruct db.
  - by rewrite (assignNearestResponder_none _ _ _ Hs) in Hrun.
Qed.

(** with no active responder that has a location, nothing is
    assigned and the database is unchanged. *)
Theorem assignNearestResponder_no_candidate (eloc : Location) reportId db :
  map_Forall (fun _ r => Responder.status r = Responder.active ->
                         responder_location r = None) (responders db) ->
  assignNearestResponder eloc reportId db = (inr None, db).
Proof. apply assign_none_of_no_candidate. Qed.

(** Assignment keeps the registry invariant: the chosen responder is
    written busy together with its emergency. *)
Lemma assignNearestResponder_registry_ok (eloc : Location) reportId :
  st_preserves registry_ok (assignNearestResponder eloc reportId).
Proof.
  intros db Hok.
  destruct (nearest_scan (loc_pos eloc) (active_docs (responders db)))
    as [[id r]|] eqn:Hs.
  - rewrite (assignNearestResponder_some _ _ _ _ _ Hs). simpl.
    apply registry_ok_insert; [done |]. unfold assigned_iff_busy. simpl.
    split; [done | eauto].
  - by rewrite assignNearestResponder_none.
Qed.
End Handler.

(** ** The code's metric *)

(** Spec section 8, "nearest-match correctness", for [getDistance]: the
    assigned responder's distance to the report is at most that of every
    other active responder with a location. *)
Corollary assignNearestResponder_haversine (eloc : Location) reportId db id db' :
  assignNearestResponder eloc reportId db = (inr (Some id), db') ->
  exists r l,
    responders db !! id = Some r /\ responder_location r = Some l /\
    Responder.status (set_busy reportId r) = Responder.busy /\
    (forall id' r' l', responders db !! id' = Some r' ->
       Responder.status r' = Responder.active -> responder_location r' = Some l' ->
       (distance (loc_pos eloc) l <= distance (loc_pos eloc) l')%R).
Proof.
  intros Hrun.
  destruct (nearest_choice_of_run _ _ _ _ _ Hrun)
    as (r & l & Hr & _ & Hl & _ & Hmin).
  exists r, l. split_and!; [done | done | done |].
  intros id' r' l' Hr' Hact Hl'. specialize (Hmin id' r' l' Hr' Hact Hl').
  simpl in Hmin. destruct (Rltb_spec (distance (loc_pos eloc) l')
                                     (distance (loc_pos eloc) l)) as [_ Hb].
  apply Rnot_lt_le. intros Hlt. rewrite (Hb Hlt) in Hmin. discriminate.
Qed.

(** ** Witnesses *)

Lemma assignNearestResponder_nearest_witness :
  @assignNearestResponder Z grid_metric scenario_report_location "e1" scenario_db =
    (inr (Some "r1"),
     snd (@assignNearestResponder Z grid_metric scenario_report_location "e1"
            scenario_db)) /\
  @nearest_choice Z grid_metric scenario_report_location "e1" scenario_db
    (snd (@assignNearestResponder Z grid_metric scenario_report_location "e1"
            scenario_db)) "r1".
Proof.
  assert (Hrun : @assignNearestResponder Z grid_metric scenario_report_location "e1"
                   scenario_db =
                 (inr (Some "r1"),
                  snd (@assignNearestResponder Z grid_metric scenario_report_location
                         "e1" scenario_db))) by (vm_compute; reflexivity).
  split; [exact Hrun | exact (proj1 (assignNearestResponder_nearest _ _ _ _ _ Hrun))].
Defined.

Lemma assignNearestResponder_haversine_witness :
  assignNearestResponder scenario_report_location "e1" single_db =
    (inr (Some "r1"), snd (assignNearestResponder scenario_report_location "e1" single_db)) /\
  exists r l,
    responders single_db !! "r1" = Some r /\ responder_location r = Some l /\
    Responder.status (set_busy "e1" r) = Responder.busy /\
    (forall id' r' l', responders single_db !! id' = Some r' ->
       Responder.status r' = Responder.active -> responder_location r' = Some l' ->
       (distance (loc_pos scenario_report_location) l <=
        distance (loc_pos scenario_report_location) l')%R).
Proof.
  assert (Hrun : assignNearestResponder scenario_report_location "e1" single_db =
                 (inr (Some "r1"),
                  snd (assignNearestResponder scenario_report_location "e1" single_db)))
    by reflexivity.
  split; [exact Hrun | exact (assignNearestResponder_haversine _ _ _ _ _ Hrun)].
Defined.

Lemma assignNearestResponder_no_candidate_witness :
  map_Forall (fun _ r => Responder.status r = Responder.active ->
                         responder_location r = None) (responders unlocated_db) /\
  @assignNearestResponder Z grid_metric scenario_report_location "e1" unlocated_db =
    (inr None, unlocated_db).
Proof.
  assert (Hnone : map_Forall (fun _ r => Responder.status r = Responder.active ->
                                 responder_location r = None)
                    (responders unlocated_db))
    by (apply map_Forall_insert_2; [reflexivity | apply map_Forall_empty]).
  split; [exact Hnone | exact (assignNearestResponder_no_candidate _ _ _ Hnone)].
Defined.
