(* ===== verification/Intake.v ===== *)
(** * Intake: [createEmergencyReport] (index.js lines 116-272)

    The handler validates the request ([!type || !location ||
    !createdByUID]), fills the defaults, adds the report to [emergencies]
    under the id Firestore generates ([reportId], an argument here), and
    routes by type: a security report runs the Assigner and writes the
    [responders_alerts] document under the same id, then sends a push
    message to the assigned responder when it has a token; a medical
    report is copied to the clinic's collection and posted to the
    administrative back end; a fire report is copied to the fire
    department's collection.  Push and sync failures are caught by the
    code, so they are recorded in [outbox] as attempts.

    The handler is written against the [Metric] interface of the Assigner;
    the deployed function is its [haversine_metric] instance. *)

From S2P Require Import Prelude Geo Store Registry Assigner.

(** The request's fields, [undefined] being [None]. *)
Record EmergencyRequest := mkEmergencyRequest {
  req_type : option string;
  req_location : option Location;
  req_details : option string;
  req_urgency : option string;
  req_contactMethod : option string;
  req_additionalInfo : option Info;
  req_createdByUID : option string;
  req_displayCode : option string;
  req_notes : option string
}.

(** [newReport] (lines 136-148) *)
Definition newReport (now : Z) (type : string) (location : Location)
    (createdByUID : string) (req : EmergencyRequest) : Report.t :=
  Report.mk type location (str_or (req_details req) "")
    (Some (str_or (req_notes req) "")) (str_or (req_urgency req) "medium")
    (str_or (req_contactMethod req) "chat")
    (default [] (req_additionalInfo req)) createdByUID
    (str_or (req_displayCode req) "ANON") now Report.pending None.

(** The [responders_alerts] document (lines 163-179). *)
Definition newAlert (now : Z) (reportId type : string) (location : Location)
    (createdByUID : string) (req : EmergencyRequest)
    (assigned : option string) : Alert.t :=
  Alert.mk (Some reportId) type (str_or (req_details req) "")
    (str_or (req_urgency req) "medium") createdByUID
    (str_or (req_displayCode req) "ANON")
    (mkLocation (loc_lat location) (loc_lng location)
       (Some (str_or (readableAddress location) "")))
    (default [] (req_additionalInfo req))
    (str_val assigned) Alert.pending now None None None None.

Definition push_title : string := "🚨 New Emergency Alert".

(** [`${type.toUpperCase()} - ${urgency} priority at ${location.readableAddress || "Nearby"}`] *)
Definition push_body (type : string) (req : EmergencyRequest) (location : Location) : string :=
  to_upper type +:+ " - " +:+ template_str (req_urgency req) +:+ " priority at " +:+
  str_or (readableAddress location) "Nearby".

(** Lines 188-218: read the assigned responder's token and send. *)
Definition notify_assigned (reportId type : string) (location : Location)
    (req : EmergencyRequest) (assigned : option string) : M unit :=
  match str_val assigned with
  | None => st_return tt
  | Some uid =>
      snap ← doc_get responders_c uid;
      match str_val (snap ≫= Responder.expoPushToken) with
      | Some token => emit (PushSent token push_title (push_body type req location) reportId)
      | None => st_return tt
      end
  end.

(** [medicalSyncData] (lines 233-243); a missing [details] is posted as
    the empty object [{}], written [None]. *)
Definition medicalSyncData (reportId : string) (location : Location)
    (createdByUID : string) (req : EmergencyRequest) : MedicalSync :=
  mkMedicalSync reportId "medical" location (str_val (req_details req))
    (str_or (req_notes req) "") (str_or (req_urgency req) "medium")
    (str_or (req_contactMethod req) "both") createdByUID
    (str_or (req_displayCode req) "ANON").

Definition createEmergencyReport `{Metric D} (now : Z) (reportId : string)
    (req : EmergencyRequest) : M string :=
  rethrow
    (match str_val (req_type req), req_location req, str_val (req_createdByUID req) with
     | Some type, Some location, Some createdByUID =>
         let report := newReport now type location createdByUID req in
         _ ← doc_set emergencies_c reportId report;
         _ ← st_when (bool_decide (type = "security"))
               (assigned ← assignNearestResponder location reportId;
                _ ← doc_set alerts_c reportId
                      (newAlert now reportId type location createdByUID req assigned);
                notify_assigned reportId type location req assigned);
         _ ← st_when (bool_decide (type = "medical"))
               (_ ← doc_set clinic_c reportId (mkRouted report now);
                emit (SyncPosted (medicalSyncData reportId location createdByUID req)));
         _ ← st_when (bool_decide (type = "fire"))
               (doc_set fireDept_c reportId (mkRouted report now));
         mret reportId
     | _, _, _ => st_throw (JsError "Missing required emergency fields.")
     end).

(** ** Lemmas on the pieces *)

Lemma set_outbox_id db : set_outbox (outbox db) db = db.
Proof. by destruct db. Qed.

(** The messages [notify_assigned] sends on a database. *)
Definition notify_effects (reportId type : string) (location : Location)
    (req : EmergencyRequest) (assigned : option string) (db : DB) : list Effect :=
  match str_val assigned with
  | None => []
  | Some uid =>
      match str_val (responders db !! uid ≫= Responder.expoPushToken) with
      | Some token => [PushSent token push_title (push_body type req location) reportId]
      | None => []
      end
  end.

(** The notification touches nothing but the outbox and never fails. *)
Lemma notify_assigned_run reportId type location req assigned db :
  notify_assigned reportId type location req assigned db =
  (inr tt, set_outbox (outbox db ++ notify_effects reportId type location req assigned db) db).
Proof.
  unfold notify_assigned, notify_effects. destruct (str_val assigned) as [uid|].
  - handler_unfold. case_match; [done |].
    by rewrite app_nil_r, set_outbox_id.
  - by rewrite app_nil_r, set_outbox_id.
Qed.

Section Intake.
Context `{Metric D}.

(** The report that a valid request writes first. *)
Definition report_written (now : Z) (reportId type : string) (location : Location)
    (createdByUID : string) (req : EmergencyRequest) (db : DB) : DB :=
  set_emergencies (<[reportId:=newReport now type location createdByUID req]>
                     (emergencies db)) db.

(** What a valid security report leaves behind. *)
Definition security_outcome (now : Z) (reportId : string) (req : EmergencyRequest)
    (location : Location) (createdByUID : string) (db : DB) : Prop :=
  exists assigned db',
    createEmergencyReport now reportId req db = (inr reportId, db') /\
    assigned = fst <$> nearest_scan (loc_pos location) (active_docs (responders db)) /\
    emergencies db' !! reportId = Some (newReport now "security" location createdByUID req) /\
    responders_alerts db' !! reportId =
      Some (newAlert now reportId "security" location createdByUID req assigned) /\
    match assigned with
    | None => responders db' = responders db
    | Some id => nearest_choice location reportId
                   (report_written now reportId "security" location createdByUID req db)
                   db' id
    end.

(** A security report made with no candidate: a pending, unassigned alert. *)
Definition unassigned_outcome (now : Z) (reportId : string) (req : EmergencyRequest)
    (db : DB) : Prop :=
  exists db' alert,
    createEmergencyReport now reportId req db = (inr reportId, db') /\
    responders_alerts db' !! reportId = Some alert /\
    Alert.assignedResponder alert = None /\ Alert.status alert = Alert.pending /\
    responders db' = responders db.

(** What a valid report of another type leaves behind. *)
Definition routing_outcome (now : Z) (reportId : string) (req : EmergencyRequest)
    (type : string) (location : Location) (createdByUID : string) (db : DB) : Prop :=
  exists db',
    createEmergencyReport now reportId req db = (inr reportId, db') /\
    emergencies db' !! reportId = Some (newReport now type location createdByUID req) /\
    responders db' = responders db /\
    responders_alerts db' = responders_alerts db /\
    clinic_emergencies db' !! reportId =
      (if bool_decide (type = "medical")
       then Some (mkRouted (newReport now type location createdByUID req) now)
       else clinic_emergencies db !! reportId) /\
    fireDept_emergencies db' !! reportId =
      (if bool_decide (type = "fire")
       then Some (mkRouted (newReport now type location createdByUID req) now)
       else fireDept_emergencies db !! reportId).

(** a request without a type, a location or a creator is refused with
    the code's message and writes nothing. *)
Theorem createEmergencyReport_invalid now reportId req db :
  str_val (req_type req) = None \/ req_location req = None \/
  str_val (req_createdByUID req) = None ->
  createEmergencyReport now reportId req db =
  (inl (JsError "Missing required emergency fields."), db).
Proof.
  intros Hmiss. unfold createEmergencyReport.
  destruct (str_val (req_type req)), (req_location req),
    (str_val (req_createdByUID req)); try reflexivity.
  exfalso. naive_solver.
Qed.

(** The run of a valid security report, given the Assigner's run on the
    database holding the new report. *)
Lemma createEmergencyReport_security_run now reportId req location createdByUID db
    assigned db2 :
  str_val (req_type req) = Some "security" -> req_location req = Some location ->
  str_val (req_createdByUID req) = Some createdByUID ->
  assignNearestResponder location reportId
    (report_written now reportId "security" location createdByUID req db) =
    (inr assigned, db2) ->
  createEmergencyReport now reportId req db =
  (inr reportId,
   let db3 := set_responders_alerts
                (<[reportId:=newAlert now reportId "security" location createdByUID
                               req assigned]> (responders_alerts db2)) db2 in
   set_outbox (outbox db3 ++ notify_effects reportId "security" location req
                                 assigned db3) db3).
Proof.
  intros Ht Hl Hc Ha. unfold report_written in Ha.
  unfold createEmergencyReport. rewrite Ht, Hl, Hc. handler_unfold.
  simpl_bool_decide. cbn beta iota zeta. rewrite Ha. cbn beta iota zeta.
  by rewrite notify_assigned_run.
Qed.

Lemma report_written_responders now reportId type location createdByUID req db :
  responders (report_written now reportId type location createdByUID req db) =
  responders db.
Proof. by destruct db. Qed.

(** C24: a security report is stored, and its alert is written pending under
    the report's id, assigned to the scan's choice over the registry the
    report found: the first nearest located active responder when there
    is one (the specification of the scan in [Assigner]), now busy with
    the report, and
    nobody, with the registry untouched, only when no active responder
    has a location. *)
Theorem createEmergencyReport_security now reportId req location createdByUID db :
  str_val (req_type req) = Some "security" -> req_location req = Some location ->
  str_val (req_createdByUID req) = Some createdByUID ->
  security_outcome now reportId req location createdByUID db.
Proof.
  intros Ht Hl Hc. unfold security_outcome.
  set (db1 := report_written now reportId "security" location createdByUID req db).
  assert (Hdb1 : responders db1 = responders db) by apply report_written_responders.
  rewrite <- Hdb1.
  destruct (nearest_scan (loc_pos location) (active_docs (responders db1)))
    as [[id r]|] eqn:Hs.
  - pose proof (assignNearestResponder_some location reportId db1 id r Hs) as Ha.
    pose proof (nearest_choice_of_run _ _ _ _ _ Ha) as Hchoice.
    eexists (Some id), _.
    split; [exact (createEmergencyReport_security_run _ _ _ _ _ _ _ _ Ht Hl Hc Ha) |].
    split_and!; [done | | |].
    + subst db1. destruct db. cbn. by rewrite lookup_insert_eq.
    + subst db1. destruct db. cbn. by rewrite lookup_insert_eq.
    + eapply nearest_choice_responders; [| exact Hchoice]. by destruct db.
  - pose proof (assignNearestResponder_none location reportId db1 Hs) as Ha.
    eexists None, _.
    split; [exact (createEmergencyReport_security_run _ _ _ _ _ _ _ _ Ht Hl Hc Ha) |].
    split; [done |]. subst db1. destruct db. cbn. split_and!; [by rewrite lookup_insert_eq.. | done].
Qed.

(** spec section 8, no-candidate behaviour: a security report made
    while no active responder has a location yields a pending alert with
    no assigned responder, and the registry is untouched. *)
Theorem createEmergencyReport_no_candidate now reportId req location createdByUID db :
  str_val (req_type req) = Some "security" -> req_location req = Some location ->
  str_val (req_createdByUID req) = Some createdByUID ->
  map_Forall (fun _ r => Responder.status r = Responder.active ->
                         responder_location r = None) (responders db) ->
  unassigned_outcome now reportId req db.
Proof.
  intros Ht Hl Hc Hnone. unfold unassigned_outcome.
  pose proof (assign_none_of_no_candidate location reportId
    (report_written now reportId "security" location createdByUID req db)) as Ha.
  rewrite report_written_responders in Ha. specialize (Ha Hnone).
  eexists _, _.
  split; [exact (createEmergencyReport_security_run _ _ _ _ _ _ _ _ Ht Hl Hc Ha) |].
  destruct db. cbn. split_and!; [by rewrite lookup_insert_eq | done | done | done].
Qed.

(** C35: a valid report that is not a security report assigns nobody and
    writes no alert; it is copied to the clinic exactly when its type is
    "medical" and to the fire department exactly when it is "fire"; any
    other type is stored and routed nowhere. *)
Theorem createEmergencyReport_routing now reportId req type location createdByUID db :
  str_val (req_type req) = Some type -> req_location req = Some location ->
  str_val (req_createdByUID req) = Some createdByUID -> type <> "security" ->
  routing_outcome now reportId req type location createdByUID db.
Proof.
  intros Ht Hl Hc Hsec. unfold routing_outcome, createEmergencyReport. rewrite Ht, Hl, Hc.
  handler_unfold. rewrite (bool_decide_eq_false_2 (type = "security")) by done.
  destruct db. cbn beta iota zeta.
  case_bool_decide as Hmed; case_bool_decide as Hfire; subst; try done;
    cbn; eexists; (split; [reflexivity |]); cbn;
    split_and!; try done; by rewrite ?lookup_insert_eq.
Qed.

(** Every valid request succeeds and returns the report's id. *)
Lemma createEmergencyReport_valid now reportId req type location createdByUID db :
  str_val (req_type req) = Some type -> req_location req = Some location ->
  str_val (req_createdByUID req) = Some createdByUID ->
  exists db', createEmergencyReport now reportId req db = (inr reportId, db').
Proof.
  intros Ht Hl Hc. destruct (decide (type = "security")) as [->|Hsec].
  - set (db1 := report_written now reportId "security" location createdByUID req db).
    destruct (nearest_scan (loc_pos location) (active_docs (responders db1)))
      as [[id r]|] eqn:Hs;
      [pose proof (assignNearestResponder_some location reportId db1 id r Hs) as Ha
      | pose proof (assignNearestResponder_none location reportId db1 Hs) as Ha];
      eexists; exact (createEmergencyReport_security_run _ _ _ _ _ _ _ _ Ht Hl Hc Ha).
  - unfold createEmergencyReport. rewrite Ht, Hl, Hc. handler_unfold.
    rewrite (bool_decide_eq_false_2 (type = "security")) by done.
    destruct db. cbn beta iota zeta.
    case_bool_decide; case_bool_decide; cbn; by eexists.
Qed.

End Intake.

(** ** Defaults that disagree between the copies of a report *)

(** With no urgency in the request, the stored alert says "medium" but the
    push message sent to the responder says "undefined priority". *)
Lemma push_body_missing_urgency type req location now reportId createdByUID assigned :
  req_urgency req = None ->
  push_body type req location =
    to_upper type +:+ " - undefined priority at " +:+
    str_or (readableAddress location) "Nearby" /\
  Alert.urgency (newAlert now reportId type location createdByUID req assigned) = "medium".
Proof. intros Hu. unfold push_body, newAlert, str_or. by rewrite Hu. Qed.

(** With no contact method in the request, the stored report says "chat"
    and the copy posted to the administrative back end says "both". *)
Lemma medicalSyncData_contact_default reportId location createdByUID req now type :
  req_contactMethod req = None ->
  contact_method (medicalSyncData reportId location createdByUID req) = "both" /\
  Report.contactMethod (newReport now type location createdByUID req) = "chat".
Proof. intros Hc. unfold medicalSyncData, newReport, str_or. by rewrite Hc. Qed.

(** ** Witnesses *)

Definition sample_request (type : string) : EmergencyRequest :=
  mkEmergencyRequest (Some type) (Some scenario_report_location) None None None None
    (Some "student-1") None None.

Definition untyped_request : EmergencyRequest :=
  mkEmergencyRequest None (Some scenario_report_location) None None None None
    (Some "student-1") None None.

Lemma createEmergencyReport_invalid_witness :
  (str_val (req_type untyped_request) = None \/ req_location untyped_request = None \/
   str_val (req_createdByUID untyped_request) = None) /\
  @createEmergencyReport Z grid_metric 1000 "rep0" untyped_request scenario_db =
  (inl (JsError "Missing required emergency fields."), scenario_db).
Proof.
  assert (Hmiss : str_val (req_type untyped_request) = None \/
                  req_location untyped_request = None \/
                  str_val (req_createdByUID untyped_request) = None)
    by (left; reflexivity).
  split; [exact Hmiss | exact (createEmergencyReport_invalid _ _ _ _ Hmiss)].
Defined.

Lemma createEmergencyReport_security_witness :
  @security_outcome Z grid_metric 1000 "rep1" (sample_request "security")
    scenario_report_location "student-1" scenario_db.
Proof.
  apply (@createEmergencyReport_security Z grid_metric); reflexivity.
Defined.

Lemma createEmergencyReport_no_candidate_witness :
  @unassigned_outcome Z grid_metric 1000 "rep1" (sample_request "security") unlocated_db.
Proof.
  apply (@createEmergencyReport_no_candidate Z grid_metric _ _ _ scenario_report_location
           "student-1"); [reflexivity | reflexivity | reflexivity |].
  apply map_Forall_insert_2; [reflexivity | apply map_Forall_empty].
Defined.

Lemma createEmergencyReport_routing_witness :
  @routing_outcome Z grid_metric 1000 "rep2" (sample_request "medical") "medical"
    scenario_report_location "student-1" scenario_db.
Proof.
  apply (@createEmergencyReport_routing Z grid_metric); try reflexivity. done.
Defined.

Lemma push_body_missing_urgency_witness :
  req_urgency (sample_request "security") = None /\
  push_body "security" (sample_request "security") scenario_report_location =
    "SECURITY - undefined priority at Nearby".
Proof.
  split; [reflexivity |].
  exact (proj1 (push_body_missing_urgency "security" (sample_request "security")
                  scenario_report_location 1000 "rep1" "student-1" None eq_refl)).
Defined.

Lemma medicalSyncData_contact_default_witness :
  req_contactMethod (sample_request "medical") = None /\
  contact_method (medicalSyncData "rep2" scenario_report_location "student-1"
                    (sample_request "medical")) = "both".
Proof.
  split; [reflexivity |].
  exact (proj1 (medicalSyncData_contact_default "rep2" scenario_report_location
                  "student-1" (sample_request "medical") 1000 "medical" eq_refl)).
Defined.
