(* ===== verification/Lifecycle.v ===== *)
(** * Lifecycle: the alert state machine as the code runs it

    Accepting and declining are client writes of the responder's screen
    (incomingalert.js lines 97-141): [handleAccept] updates the alert to
    [accepted] and then the responder to [busy] with the alert's id;
    [handleDecline] updates the alert to [declined].  Both catch their
    errors and show a dialog, so they return whether they succeeded.
    [completeEmergency] (index.js lines 275-304) is the server's
    completion: the responder back to [active] with its
    [assignedEmergency] deleted, then the report to [completed].

    The specification's machine is [spec_step]: pending to accepted or
    declined, accepted to completed, declined and completed terminal.
    The code checks no source state: [code_step] is the machine it
    implements, and the theorems show where it leaves the specification
    (a declined alert can be accepted) and what completion guarantees. *)

From S2P Require Import Prelude Geo Store Registry.
From Stdlib Require Import QArith_base.
Local Close Scope Q_scope.
Local Open Scope Z_scope.

(** ** The client's accept and decline *)

(** [updateDoc(alertRef, {status: "accepted", acceptedAt, responderUID: uid})] *)
Definition accept_update (now : Z) (uid : string) (a : Alert.t) : Alert.t :=
  Alert.mk (Alert.emergencyId a) (Alert.type a) (Alert.details a) (Alert.urgency a)
    (Alert.createdByUID a) (Alert.displayCode a) (Alert.location a)
    (Alert.additionalInfo a) (Alert.assignedResponder a) Alert.accepted
    (Alert.routedAt a) (Some now) (Some uid) (Alert.declinedAt a) (Alert.createdAt a).

(** [updateDoc(alertRef, {status: "declined", declinedAt})] *)
Definition decline_update (now : Z) (a : Alert.t) : Alert.t :=
  Alert.mk (Alert.emergencyId a) (Alert.type a) (Alert.details a) (Alert.urgency a)
    (Alert.createdByUID a) (Alert.displayCode a) (Alert.location a)
    (Alert.additionalInfo a) (Alert.assignedResponder a) Alert.declined
    (Alert.routedAt a) (Alert.acceptedAt a) (Alert.responderUID a) (Some now) (Alert.createdAt a).

(** [updateDoc(doc(db, "responders", uid), {status: "busy", assignedEmergency: alertId})] *)
Definition busy_with (alertId : string) (r : Responder.t) : Responder.t :=
  Responder.mk Responder.busy (Responder.currentLocation r)
    (Responder.lastKnownLocation r) (Responder.lastHeartbeat r)
    (Responder.lastActiveAt r) (Responder.lastInactiveAt r)
    (Some alertId) (Responder.expoPushToken r).

(** [try { ... return true } catch { Alert.alert("Error", ...) }] *)
Definition client_try (m : M unit) : M bool :=
  st_catch (_ ← m; mret true) (fun _ => mret false).

Definition handleAccept (now : Z) (uid alertId : string) : M bool :=
  client_try
    (_ ← doc_update alerts_c alertId (accept_update now uid);
     doc_update responders_c uid (busy_with alertId)).

Definition handleDecline (now : Z) (alertId : string) : M bool :=
  client_try (doc_update alerts_c alertId (decline_update now)).

(** ** The server's completion *)

(** [{status: "active", assignedEmergency: FieldValue.delete(), lastActiveAt}] *)
Definition complete_responder (now : Z) (r : Responder.t) : Responder.t :=
  Responder.mk Responder.active (Responder.currentLocation r)
    (Responder.lastKnownLocation r) (Responder.lastHeartbeat r) (Some now)
    (Responder.lastInactiveAt r) None (Responder.expoPushToken r).

(** [{status: "completed", completedAt}] *)
Definition complete_report (now : Z) (rep : Report.t) : Report.t :=
  Report.mk (Report.type rep) (Report.location rep) (Report.details rep)
    (Report.notes rep) (Report.urgency rep) (Report.contactMethod rep)
    (Report.additionalInfo rep) (Report.createdByUID rep) (Report.displayCode rep)
    (Report.createdAt rep) Report.completed (Some now).

Record CompleteRequest := mkCompleteRequest {
  cr_responderUID : option string;
  cr_emergencyId : option string
}.

Definition completeEmergency (now : Z) (req : CompleteRequest) : M unit :=
  rethrow
    (match str_val (cr_responderUID req), str_val (cr_emergencyId req) with
     | Some responderUID, Some emergencyId =>
         _ ← doc_update responders_c responderUID (complete_responder now);
         doc_update emergencies_c emergencyId (complete_report now)
     | _, _ => st_throw (JsError "Missing responderUID or emergencyId")
     end).

(** ** The two machines *)

(** The specification's statuses and transitions (spec section 4.4). *)
Inductive spec_status := s_pending | s_accepted | s_declined | s_completed.

Inductive spec_step : spec_status -> spec_status -> Prop :=
| spec_accept : spec_step s_pending s_accepted
| spec_decline : spec_step s_pending s_declined
| spec_complete : spec_step s_accepted s_completed.

Definition spec_of (s : Alert.status_t) : spec_status :=
  match s with
  | Alert.pending => s_pending
  | Alert.accepted => s_accepted
  | Alert.declined => s_declined
  end.

(** The transitions of an alert's status the code performs: accept and
    decline from any status. *)
Inductive code_step : Alert.status_t -> Alert.status_t -> Prop :=
| code_accept s : code_step s Alert.accepted
| code_decline s : code_step s Alert.declined.

(** ** A scenario: report "rep1", its pending alert, responder "r1" busy with it *)

Definition scenario_location : Location := mkLocation 0%Q 0%Q None.

Definition scenario_report : Report.t :=
  Report.mk "security" scenario_location "" (Some "") "medium" "chat" [] "student-1" "ANON"
    1000 Report.pending None.

Definition scenario_alert : Alert.t :=
  Alert.mk (Some "rep1") "security" "" "medium" "student-1" "ANON"
    (mkLocation 0%Q 0%Q (Some "")) [] (Some "r1") Alert.pending 1000 None None None None.

Definition scenario_busy : Responder.t :=
  Responder.mk Responder.busy None (Some (mkLatLng 0%Q 5%Q)) (Some 900) (Some 900)
    None (Some "rep1") None.

Definition lifecycle_db : DB :=
  mkDB {["rep1" := scenario_report]} {["rep1" := scenario_alert]}
    {["r1" := scenario_busy]} ∅ ∅ ∅ ∅ ∅ [] ∅ ∅ [].

(** ** Lemmas *)

#[export] Hint Constructors spec_step code_step : alertivo.

Lemma client_try_ok (m : M unit) db db' :
  m db = (inr tt, db') -> client_try m db = (inr true, db').
Proof. intros Hm. unfold client_try. handler_unfold. by rewrite Hm. Qed.

(** The client's handlers never reject. *)
Lemma client_try_ensures m : st_ensures (fun _ => True) (client_try m).
Proof.
  intros s. unfold client_try, st_catch.
  destruct ((_ ← m; mret true) s) as [[e|b] s']; eauto.
Qed.

Lemma client_try_err (m : M unit) db e db' :
  m db = (inl e, db') -> client_try m db = (inr false, db').
Proof. intros Hm. unfold client_try. handler_unfold. by rewrite Hm. Qed.

Lemma spec_star_declined s :
  rtc spec_step s_declined s -> s = s_declined.
Proof. inversion 1 as [|? ? ? Hstep]; [done | inversion Hstep]. Qed.

Lemma spec_star_completed s :
  rtc spec_step s_completed s -> s = s_completed.
Proof. inversion 1 as [|? ? ? Hstep]; [done | inversion Hstep]. Qed.

Lemma handleAccept_run now uid alertId db a r :
  responders_alerts db !! alertId = Some a -> responders db !! uid = Some r ->
  handleAccept now uid alertId db =
  (inr true,
   set_responders (<[uid:=busy_with alertId r]> (responders db))
     (set_responders_alerts (<[alertId:=accept_update now uid a]> (responders_alerts db)) db)).
Proof.
  intros Ha Hr. apply client_try_ok. handler_unfold. rewrite Ha.
  destruct db; cbn in *. by rewrite Hr.
Qed.

Lemma handleDecline_run now alertId db a :
  responders_alerts db !! alertId = Some a ->
  handleDecline now alertId db =
  (inr true, set_responders_alerts (<[alertId:=decline_update now a]> (responders_alerts db)) db).
Proof. intros Ha. apply client_try_ok. handler_unfold. by rewrite Ha. Qed.

(** C26: accepting checks nothing about the alert: whatever its status, the
    alert becomes accepted by this responder and the responder busy with
    it.  So a pending alert that one responder declined can then be
    accepted, a transition the specification's machine does not have
    (declined is terminal there). *)
Theorem accept_after_decline now1 now2 uid alertId db a r :
  responders_alerts db !! alertId = Some a -> responders db !! uid = Some r ->
  Alert.status a = Alert.pending ->
  let db1 := snd (handleDecline now1 alertId db) in
  exists a',
    handleAccept now2 uid alertId db1 = (inr true, snd (handleAccept now2 uid alertId db1)) /\
    responders_alerts db1 !! alertId = Some a' /\ Alert.status a' = Alert.declined /\
    responders_alerts (snd (handleAccept now2 uid alertId db1)) !! alertId =
      Some (accept_update now2 uid a') /\
    code_step (Alert.status a') Alert.accepted /\
    ~ rtc spec_step (spec_of (Alert.status a')) (spec_of Alert.accepted).
Proof.
  intros Ha Hr Hpend db1. exists (decline_update now1 a).
  assert (Ha1 : responders_alerts db1 !! alertId = Some (decline_update now1 a)).
  { subst db1. rewrite (handleDecline_run _ _ _ _ Ha). destruct db. simpl.
    by rewrite lookup_insert_eq. }
  assert (Hr1 : responders db1 !! uid = Some r).
  { subst db1. rewrite (handleDecline_run _ _ _ _ Ha). by destruct db. }
  rewrite (handleAccept_run _ _ _ _ _ _ Ha1 Hr1).
  split_and!; try done.
  - destruct db1. simpl. by rewrite lookup_insert_eq.
  - constructor.
  - simpl. intros Hstar. by apply spec_star_declined in Hstar.
Qed.

(** declining touches only the alert: the responder the Assigner made
    busy with this report stays busy with it, out of the candidates of
    later reports, until someone completes the emergency. *)
Theorem handleDecline_keeps_responder now alertId db :
  responders (snd (handleDecline now alertId db)) = responders db.
Proof.
  unfold handleDecline, client_try. handler_unfold.
  destruct (responders_alerts db !! alertId); by destruct db.
Qed.

(** C27: spec section 8, "complete always restores the responder": when both
    documents exist, completion makes the responder active with no
    assigned emergency and the report completed, and leaves the alert as
    it was. *)
Theorem completeEmergency_ok now responderUID emergencyId db r rep :
  responderUID <> "" -> emergencyId <> "" ->
  responders db !! responderUID = Some r -> emergencies db !! emergencyId = Some rep ->
  exists db',
    completeEmergency now (mkCompleteRequest (Some responderUID) (Some emergencyId)) db =
      (inr tt, db') /\
    responders db' !! responderUID = Some (complete_responder now r) /\
    Responder.status (complete_responder now r) = Responder.active /\
    Responder.assignedEmergency (complete_responder now r) = None /\
    emergencies db' !! emergencyId = Some (complete_report now rep) /\
    responders_alerts db' = responders_alerts db.
Proof.
  intros Hu He Hr Hrep. unfold completeEmergency. cbn [cr_responderUID cr_emergencyId].
  rewrite !str_val_some by done. handler_unfold. rewrite Hr.
  destruct db; cbn in *. rewrite Hrep. eexists. split; [reflexivity |].
  cbn. split_and!; [by rewrite lookup_insert_eq | done | done | by rewrite lookup_insert_eq | done].
Qed.

(** completion with an unknown report id fails, but only after the
    responder has been set active and unassigned: the two updates are not
    one transaction. *)
Theorem completeEmergency_unknown_report now responderUID emergencyId db r :
  responderUID <> "" -> emergencyId <> "" ->
  responders db !! responderUID = Some r -> emergencies db !! emergencyId = None ->
  completeEmergency now (mkCompleteRequest (Some responderUID) (Some emergencyId)) db =
  (inl (JsError (error_message (NotFound "emergencies" emergencyId))),
   set_responders (<[responderUID:=complete_responder now r]> (responders db)) db).
Proof.
  intros Hu He Hr Hrep. unfold completeEmergency. cbn [cr_responderUID cr_emergencyId].
  rewrite !str_val_some by done. handler_unfold. rewrite Hr.
  destruct db; cbn in *. by rewrite Hrep.
Qed.

(** ** The registry invariant along the lifecycle *)

Lemma doc_update_responders_ok id f :
  (forall r, assigned_iff_busy (f r)) ->
  st_preserves registry_ok (doc_update responders_c id f).
Proof.
  intros Hf db Hok. handler_unfold.
  destruct (responders db !! id); simpl; [| done].
  by apply registry_ok_insert.
Qed.

Lemma doc_update_alerts_ok id f : st_preserves registry_ok (doc_update alerts_c id f).
Proof.
  intros db Hok. handler_unfold.
  destruct (responders_alerts db !! id); by destruct db.
Qed.

Lemma doc_update_emergencies_ok id f :
  st_preserves registry_ok (doc_update emergencies_c id f).
Proof.
  intros db Hok. handler_unfold.
  destruct (emergencies db !! id); by destruct db.
Qed.

#[export] Hint Resolve doc_update_alerts_ok doc_update_emergencies_ok : alertivo.

Lemma busy_with_ok alertId r : assigned_iff_busy (busy_with alertId r).
Proof. unfold assigned_iff_busy. simpl. split; [done | eauto]. Qed.

Lemma complete_responder_ok now r : assigned_iff_busy (complete_responder now r).
Proof. unfold assigned_iff_busy. simpl. split; [by intros [] | done]. Qed.

(** accept, decline and completion keep "assigned iff busy" on every
    branch, the failing ones included. *)
Theorem lifecycle_registry_ok now uid alertId req :
  st_preserves registry_ok (handleAccept now uid alertId) /\
  st_preserves registry_ok (handleDecline now alertId) /\
  st_preserves registry_ok (completeEmergency now req).
Proof.
  split_and!.
  - unfold handleAccept, client_try. st_preserve; auto with alertivo.
    apply doc_update_responders_ok, busy_with_ok.
  - unfold handleDecline, client_try. st_preserve; auto with alertivo.
  - unfold completeEmergency, rethrow.
    apply st_preserves_catch; [| intros; apply st_preserves_throw].
    destruct (str_val (cr_responderUID req)), (str_val (cr_emergencyId req));
      try apply st_preserves_throw.
    apply st_preserves_bind; [| auto with alertivo].
    apply doc_update_responders_ok, complete_responder_ok.
Qed.

(** ** Witnesses *)

Lemma accept_after_decline_witness :
  let db1 := snd (handleDecline 1100 "rep1" lifecycle_db) in
  exists a',
    handleAccept 1200 "r1" "rep1" db1 = (inr true, snd (handleAccept 1200 "r1" "rep1" db1)) /\
    responders_alerts db1 !! "rep1" = Some a' /\ Alert.status a' = Alert.declined /\
    responders_alerts (snd (handleAccept 1200 "r1" "rep1" db1)) !! "rep1" =
      Some (accept_update 1200 "r1" a') /\
    code_step (Alert.status a') Alert.accepted /\
    ~ rtc spec_step (spec_of (Alert.status a')) (spec_of Alert.accepted).
Proof.
  exact (accept_after_decline 1100 1200 "r1" "rep1" lifecycle_db scenario_alert
           scenario_busy eq_refl eq_refl eq_refl).
Defined.

Lemma completeEmergency_ok_witness :
  exists db',
    completeEmergency 2000 (mkCompleteRequest (Some "r1") (Some "rep1")) lifecycle_db =
      (inr tt, db') /\
    responders db' !! "r1" = Some (complete_responder 2000 scenario_busy) /\
    Responder.status (complete_responder 2000 scenario_busy) = Responder.active /\
    Responder.assignedEmergency (complete_responder 2000 scenario_busy) = None /\
    emergencies db' !! "rep1" = Some (complete_report 2000 scenario_report) /\
    responders_alerts db' = responders_alerts lifecycle_db.
Proof.
  apply completeEmergency_ok; [done | done | reflexivity | reflexivity].
Defined.

Lemma completeEmergency_unknown_report_witness :
  completeEmergency 2000 (mkCompleteRequest (Some "r1") (Some "rep9")) lifecycle_db =
  (inl (JsError (error_message (NotFound "emergencies" "rep9"))),
   set_responders (<["r1":=complete_responder 2000 scenario_busy]> (responders lifecycle_db))
     lifecycle_db).
Proof.
  apply completeEmergency_unknown_report; [done | done | reflexivity | reflexivity].
Defined.
