(* ===== verification/Liveness.v ===== *)
(** * Liveness: [markInactiveResponders] (index.js lines 355-398)

    The sweep reads the active responders once, then walks the snapshot in
    order: a responder whose last heartbeat (or, without one, its last
    activity) is missing or older than [now - 3 min] is updated to
    [inactive] with [lastInactiveAt = now], and counted.  The loop
    ([sweep_docs]) is proved equal to a pure map over the registry
    ([demote]), with the count of the stale active responders; the other
    theorems follow from that equation: nothing active is stale after a
    sweep, a second sweep at the same time does nothing, the boundary is
    strict, and "assigned iff busy" is kept. *)

From S2P Require Import Prelude Geo Store Registry.
Local Open Scope Z_scope.

(** [3 * 60 * 1000] *)
Definition heartbeatTimeout : Z := 3 * 60 * 1000.

(** [data.lastHeartbeat?.toDate() || data.lastActiveAt?.toDate()] *)
Definition last_seen (r : Responder.t) : option Z :=
  match Responder.lastHeartbeat r with
  | Some t => Some t
  | None => Responder.lastActiveAt r
  end.

(** [!lastHeartbeat || lastHeartbeat < cutoff] *)
Definition is_stale (cutoff : Z) (r : Responder.t) : bool :=
  match last_seen r with
  | None => true
  | Some t => t <? cutoff
  end.

(** One iteration of the [for ... of activeRespondersSnap.docs] loop. *)
Definition sweep_doc (now cutoff count : Z) (doc : string * Responder.t) : M Z :=
  if is_stale cutoff doc.2 then
    _ ← doc_update responders_c doc.1 (set_inactive now);
    mret (count + 1)
  else mret count.

Fixpoint sweep_docs (now cutoff count : Z) (docs : list (string * Responder.t)) : M Z :=
  match docs with
  | [] => mret count
  | doc :: docs' => c ← sweep_doc now cutoff count doc; sweep_docs now cutoff c docs'
  end.

(** The handler: its [catch] builds [functions.https.HttpsError], but
    index.js never imports [functions], so the catch itself throws a
    ReferenceError. *)
Definition markInactiveResponders (now : Z) : M Z :=
  st_catch
    (let cutoff := now - heartbeatTimeout in
     db ← st_get;
     sweep_docs now cutoff 0 (active_docs (responders db)))
    (fun _ => st_throw (JsError "functions is not defined")).

(** ** The reference: the sweep as a map over the registry *)

Definition demote (now cutoff : Z) (r : Responder.t) : Responder.t :=
  if bool_decide (Responder.status r = Responder.active) && is_stale cutoff r
  then set_inactive now r else r.

Definition stale_docs (cutoff : Z) (m : gmap string Responder.t) :
    list (string * Responder.t) :=
  filter (fun p => is_stale cutoff p.2 = true) (active_docs m).

(** The sequential effect of the loop on the registry, in snapshot order. *)
Definition demote_docs (now cutoff : Z) (docs : list (string * Responder.t))
    (m : gmap string Responder.t) : gmap string Responder.t :=
  foldl (fun m p => if is_stale cutoff p.2 then <[p.1:=set_inactive now p.2]> m else m)
    m docs.

(** ** A scenario: heartbeats four and two minutes old at [now = 1000000] *)

Definition liveness_responder (hb : Z) : Responder.t :=
  Responder.mk Responder.active None None (Some hb) (Some hb) None None None.

Definition liveness_db : DB :=
  set_responders
    (<["r1" := liveness_responder (1000000 - 240000)]>
      (<["r2" := liveness_responder (1000000 - 120000)]> ∅))
    empty_db.

(** ** The loop equals the reference *)

Lemma sweep_docs_run now cutoff docs : forall count db,
  NoDup docs.*1 ->
  (forall id r, (id, r) ∈ docs -> responders db !! id = Some r) ->
  sweep_docs now cutoff count docs db =
  (inr (count + Z.of_nat (length (filter (fun p => is_stale cutoff p.2 = true) docs))),
   set_responders (demote_docs now cutoff docs (responders db)) db).
Proof.
  induction docs as [|[id r] docs IH]; intros count db Hnd Hin; simpl.
  - rewrite Z.add_0_r. by destruct db.
  - apply NoDup_cons in Hnd as [Hnotin Hnd]. simpl in Hnotin.
    assert (Hr : responders db !! id = Some r) by (apply Hin; set_solver).
    unfold sweep_doc. simpl. destruct (is_stale cutoff r) eqn:Hs.
    + rewrite filter_cons_True by done. simpl length.
      handler_unfold. rewrite Hr.
      rewrite IH; [| done |].
      * destruct db. cbn. f_equal. f_equal. lia.
      * intros id' r' Hin'. destruct db. cbn.
        rewrite lookup_insert_ne; [by apply Hin; set_solver |].
        intros ->. apply Hnotin. exact (list_elem_of_fmap_2 fst _ (id', r') Hin').
    + rewrite filter_cons_False by (cbn; by rewrite Hs).
      handler_unfold. rewrite IH; [done | done |]. intros. apply Hin. set_solver.
Qed.

Lemma demote_docs_notin now cutoff docs : forall m i,
  i ∉ docs.*1 -> demote_docs now cutoff docs m !! i = m !! i.
Proof.
  induction docs as [|[id r] docs IH]; intros m i Hi; simpl; [done |].
  rewrite IH by set_solver. destruct (is_stale cutoff r); [| done].
  rewrite lookup_insert_ne; [done | set_solver].
Qed.

Lemma demote_docs_in now cutoff docs : forall m i r,
  NoDup docs.*1 -> (i, r) ∈ docs ->
  demote_docs now cutoff docs m !! i =
  if is_stale cutoff r then Some (set_inactive now r) else m !! i.
Proof.
  induction docs as [|[id r0] docs IH]; intros m i r Hnd Hin; simpl.
  - by apply not_elem_of_nil in Hin.
  - apply NoDup_cons in Hnd as [Hnotin Hnd]. simpl in Hnotin.
    apply elem_of_cons in Hin as [Heq | Hin].
    + injection Heq as <- <-. rewrite demote_docs_notin by done.
      destruct (is_stale cutoff r); [by rewrite lookup_insert_eq | done].
    + rewrite (IH _ i r Hnd Hin). destruct (is_stale cutoff r); [done |].
      destruct (is_stale cutoff r0); [| done].
      rewrite lookup_insert_ne; [done |]. intros ->.
      apply Hnotin. by apply (list_elem_of_fmap_2 fst _ (i, r)).
Qed.

Lemma demote_docs_active now cutoff (m : gmap string Responder.t) :
  demote_docs now cutoff (active_docs m) m = demote now cutoff <$> m.
Proof.
  apply map_eq. intros i. rewrite lookup_fmap.
  destruct (m !! i) as [r|] eqn:Hr; simpl.
  - destruct (decide (Responder.status r = Responder.active)) as [Hact | Hact].
    + rewrite (demote_docs_in _ _ _ _ _ r (active_docs_NoDup m))
        by (by apply elem_of_active_docs).
      unfold demote. rewrite bool_decide_eq_true_2 by done. simpl.
      by destruct (is_stale cutoff r).
    + rewrite demote_docs_notin, Hr.
      * unfold demote. by rewrite bool_decide_eq_false_2.
      * intros ([i' r'] & -> & Hin)%list_elem_of_fmap.
        apply elem_of_active_docs in Hin as [Hr' Hact']. simpl in *. congruence.
  - rewrite demote_docs_notin; [done |].
    intros ([i' r'] & -> & Hin)%list_elem_of_fmap.
    apply elem_of_active_docs in Hin as [Hr' _]. simpl in *. congruence.
Qed.

Lemma demote_idem now cutoff r : demote now cutoff (demote now cutoff r) = demote now cutoff r.
Proof.
  unfold demote. destruct (bool_decide _ && is_stale cutoff r) eqn:H1.
  - done.
  - by rewrite H1.
Qed.

Lemma demote_fresh now cutoff r :
  Responder.status (demote now cutoff r) = Responder.active ->
  is_stale cutoff (demote now cutoff r) = false.
Proof.
  unfold demote. destruct (bool_decide _ && is_stale cutoff r) eqn:H1; simpl.
  - done.
  - intros Ha. by rewrite bool_decide_eq_true_2 in H1.
Qed.

Lemma stale_docs_demoted now cutoff (m : gmap string Responder.t) :
  stale_docs cutoff (demote now cutoff <$> m) = [].
Proof.
  unfold stale_docs. apply filter_nil_forall. intros [i r] Hin.
  apply elem_of_active_docs in Hin as [Hr Hact].
  rewrite lookup_fmap in Hr. destruct (m !! i) as [r0|]; [| done].
  injection Hr as <-. simpl. by rewrite demote_fresh.
Qed.

Lemma markInactiveResponders_run now db :
  markInactiveResponders now db =
  (inr (Z.of_nat (length (stale_docs (now - heartbeatTimeout) (responders db)))),
   set_responders (demote now (now - heartbeatTimeout) <$> responders db) db).
Proof.
  unfold markInactiveResponders. handler_unfold. cbn [st_get].
  rewrite sweep_docs_run.
  - by rewrite demote_docs_active.
  - apply active_docs_NoDup.
  - intros id r. rewrite elem_of_active_docs. tauto.
Qed.

(** C5: equivalence of the sweep with the reference: the loop over the
    snapshot demotes exactly the active responders whose last heartbeat
    (or activity) is missing or older than [now - 3 min], leaves every
    other responder and every other collection as it was, and returns
    how many it demoted. *)
Theorem markInactiveResponders_spec now db :
  markInactiveResponders now db =
  (inr (Z.of_nat (length (stale_docs (now - heartbeatTimeout) (responders db)))),
   set_responders (demote now (now - heartbeatTimeout) <$> responders db) db).
Proof. apply markInactiveResponders_run. Qed.

Lemma markInactiveResponders_state now db :
  snd (markInactiveResponders now db) =
  set_responders (demote now (now - heartbeatTimeout) <$> responders db) db.
Proof. by rewrite markInactiveResponders_run. Qed.

(** after a sweep no active responder is stale. *)
Theorem markInactiveResponders_fresh now db :
  map_Forall (fun _ r => Responder.status r = Responder.active ->
                         is_stale (now - heartbeatTimeout) r = false)
    (responders (snd (markInactiveResponders now db))).
Proof.
  rewrite markInactiveResponders_state. destruct db; simpl.
  apply map_Forall_fmap. intros i r _ Hact. by apply demote_fresh.
Qed.

(** spec section 8, liveness idempotence: a second sweep at the same
    time demotes nobody and changes nothing. *)
Theorem markInactiveResponders_idempotent now db :
  let db' := snd (markInactiveResponders now db) in
  markInactiveResponders now db' = (inr 0, db').
Proof.
  simpl. rewrite markInactiveResponders_run, !markInactiveResponders_state.
  destruct db; simpl. rewrite stale_docs_demoted. f_equal.
  rewrite <- map_fmap_compose. f_equal. apply map_fmap_ext. intros. apply demote_idem.
Qed.

(** C30: spec section 8, heartbeat expiry: an active responder whose last
    heartbeat is at [t] is demoted exactly when [t < now - 3 min]; a
    heartbeat exactly three minutes old keeps it active. *)
Theorem markInactiveResponders_boundary now db id r t :
  responders db !! id = Some r -> Responder.status r = Responder.active ->
  Responder.lastHeartbeat r = Some t ->
  responders (snd (markInactiveResponders now db)) !! id =
  Some (if bool_decide (t < now - heartbeatTimeout) then set_inactive now r else r).
Proof.
  intros Hr Hact Ht. rewrite markInactiveResponders_state. destruct db; simpl in *.
  rewrite lookup_fmap, Hr. simpl. unfold demote, is_stale, last_seen.
  rewrite Ht, bool_decide_eq_true_2 by done. simpl.
  by destruct (Z.ltb_spec t (now - heartbeatTimeout));
    [rewrite bool_decide_eq_true_2 | rewrite bool_decide_eq_false_2 by lia].
Qed.

Lemma demote_ok now cutoff r : assigned_iff_busy r -> assigned_iff_busy (demote now cutoff r).
Proof.
  unfold demote, assigned_iff_busy. intros Hr.
  destruct (bool_decide _) eqn:Hact; simpl; [| done].
  destruct (is_stale cutoff r); simpl; [| done].
  apply bool_decide_eq_true_1 in Hact. rewrite Hact in Hr.
  split; [| done]. intros Hsome. by apply Hr in Hsome.
Qed.

(** the sweep keeps "assigned iff busy": it only demotes active
    responders, which the invariant says carry no assignment. *)
Theorem markInactiveResponders_registry_ok now :
  st_preserves registry_ok (markInactiveResponders now).
Proof.
  intros db Hok. rewrite markInactiveResponders_state. unfold registry_ok in *.
  destruct db; simpl in *. apply map_Forall_fmap.
  intros i r Hr. apply demote_ok. exact (Hok i r Hr).
Qed.

(** ** Witnesses *)

Lemma markInactiveResponders_boundary_witness :
  responders (snd (markInactiveResponders 1000000 liveness_db)) !! "r1" =
    Some (set_inactive 1000000 (liveness_responder 760000)) /\
  responders (snd (markInactiveResponders 1000000 liveness_db)) !! "r2" =
    Some (liveness_responder 880000).
Proof.
  split.
  - rewrite (markInactiveResponders_boundary 1000000 liveness_db "r1"
               (liveness_responder 760000) 760000 eq_refl eq_refl eq_refl).
    reflexivity.
  - rewrite (markInactiveResponders_boundary 1000000 liveness_db "r2"
               (liveness_responder 880000) 880000 eq_refl eq_refl eq_refl).
    reflexivity.
Defined.
