(* ===== verification/Otp.v ===== *)
(** * Otp: the e-mail one-time-password gate (triggers/otptriggers.js)

    [sendOtpHandler] (lines 48-134) checks the student domain, counts the
    request in [rateLimits/<email>], refuses while [failedAttempts/<email>]
    is locked, replaces [otps/<email>] by a fresh six-digit code valid for
    five minutes, mails it and appends an audit entry -- as written it
    never gets that far: [sendEmail] reads [sender] outside the block that
    declared it and throws a [ReferenceError] after the code is stored.  [verifyOtpHandler]
    (lines 136-239) either records a failure (and locks the e-mail after
    five) or consumes the code, clears the counters, provisions the Auth
    account, optionally sets its password and writes the profile.

    The inputs the code takes from its environment are arguments of the
    handlers: [clock] is [db.Timestamp.now()] in milliseconds ([None] when
    [db.Timestamp] is undefined, which makes the handler throw), the
    instant [Date.now()] reads is the same; [u] is [Math.random()]; [mail]
    is the SendGrid set-up [sendEmail] runs against; [newUid] is the uid Auth gives a new
    account.  Auth accounts are stored by e-mail, as Auth keeps e-mails
    unique; [createUser] fails only when the e-mail is taken (its other
    errors, such as a malformed address, are not modelled), and
    [updateUser] refuses passwords shorter than six characters. *)

From S2P Require Import Prelude Store.
From stdpp Require Import pretty.
From Stdlib Require Import QArith_base Qround Lqa.
Local Close Scope Q_scope.
Local Open Scope Z_scope.

(** ** Constants and helpers (lines 4-46) *)

Definition OTP_EXPIRY_MINUTES : Z := 5.
Definition MAX_ATTEMPTS_PER_HOUR : Z := 3.
Definition LOCKOUT_MINUTES : Z := 30.
Definition minute : Z := 60 * 1000.
Definition hour : Z := 60 * 60 * 1000.

(** [Math.floor(100000 + Math.random() * 900000).toString()] *)
Definition generateOTP (u : Q) : string :=
  pretty (Z.to_N (Qfloor (100000 + u * 900000)%Q)).

(** The SendGrid set-up [sendEmail] runs against: configured (key and
    sender set) with a service that would accept the message, configured
    with one that would refuse it, or not configured (or the module not
    loadable). *)
Inductive MailOutcome := mail_sent | mail_config_missing | mail_send_failed.

(** [sendEmail] (lines 12-46).  A set-up failure inside the first [try]
    becomes [internal]/"Failed to initialize email service.".  Otherwise
    the message is built after that block (lines 33-38) with
    [from: sender], but [sender] was declared with [const] inside the
    block (line 18): the name is not in scope there, so building the
    message throws a [ReferenceError] and [sgMail.send] (line 40) is never
    reached, whatever the service would answer. *)
Definition sendEmail (email otp : string) (mail : MailOutcome) : M unit :=
  match mail with
  | mail_config_missing => st_throw (HttpsError internal "Failed to initialize email service.")
  | mail_sent | mail_send_failed => st_throw (JsError "sender is not defined")
  end.

(** The error [sendEmail] throws. *)
Definition mail_error (mail : MailOutcome) : Error :=
  match mail with
  | mail_config_missing => HttpsError internal "Failed to initialize email service."
  | mail_sent | mail_send_failed => JsError "sender is not defined"
  end.

(** [const now = db.Timestamp.now()] *)
Definition timestamp_now (clock : option Z) : M Z :=
  match clock with
  | Some t => st_return t
  | None => st_throw (JsError "Cannot read properties of undefined (reading 'now')")
  end.

(** ** sendOtp *)

Record SendOtpRequest := mkSendOtpRequest {
  so_email : option string;
  so_ip : option string
}.

Definition student_domain : string := "@students.unilorin.edu.ng".

(** Lines 64-74: the count of this request; [resetAt > hourAgo] increments. *)
Definition rate_attempts (hourAgo : Z) (d : option RateLimit.t) : Z :=
  match d with
  | Some r => if bool_decide (hourAgo < RateLimit.resetAt r)
              then RateLimit.count r + 1 else 1
  | None => 1
  end.

(** Lines 91-94: [failedDoc.exists && lockedUntil?.toDate() > now.toDate()] *)
Definition locked (now : Z) (d : option FailedAttempts.t) : bool :=
  match d ≫= FailedAttempts.lockedUntil with
  | Some l => bool_decide (now < l)
  | None => false
  end.

Definition sendOtpHandler (clock : option Z) (u : Q) (mail : MailOutcome)
    (req : SendOtpRequest) : M string :=
  match str_val (so_email req) with
  | Some email =>
      if ends_with student_domain email then
        now ← timestamp_now clock;
        rateDoc ← doc_get rateLimits_c email;
        let attempts := rate_attempts (now - hour) rateDoc in
        if bool_decide (MAX_ATTEMPTS_PER_HOUR < attempts) then
          st_throw (HttpsError resource_exhausted "Too many attempts. Try again in an hour.")
        else
          (_ ← doc_set rateLimits_c email (RateLimit.mk attempts (now + hour));
           failedDoc ← doc_get failedAttempts_c email;
           if locked now failedDoc then
             st_throw (HttpsError permission_denied
                         "Account locked due to too many failed attempts.")
           else
             (_ ← doc_delete otps_c email;
              let otp := generateOTP u in
              _ ← doc_set otps_c email
                    (OtpDoc.mk otp (now + OTP_EXPIRY_MINUTES * minute) now
                       (str_or (so_ip req) "unknown"));
              _ ← sendEmail email otp mail;
              _ ← audit_add (Audit.mk "OTP_SENT" email now (Audit.attempts attempts));
              mret "OTP sent!"))
      else st_throw (HttpsError invalid_argument "Invalid student email.")
  | None => st_throw (HttpsError invalid_argument "Invalid student email.")
  end.

(** ** verifyOtp *)

Record VerifyOtpRequest := mkVerifyOtpRequest {
  vo_email : option string;
  vo_otp : option string;
  vo_password : option string
}.

(** Lines 151-155: no challenge, another code ([!==]) or [expiresAt < now]. *)
Definition otp_rejected (now : Z) (otp : string) (d : option OtpDoc.t) : bool :=
  match d with
  | None => true
  | Some o => negb (String.eqb (OtpDoc.otp o) otp) || bool_decide (OtpDoc.expiresAt o < now)
  end.

(** [failedDoc.exists ? failedDoc.data().count + 1 : 1] *)
Definition fail_count (d : option FailedAttempts.t) : Z :=
  match d with
  | Some f => FailedAttempts.count f + 1
  | None => 1
  end.

(** [fails >= 5 ? now + LOCKOUT_MINUTES : null] *)
Definition lock_after (now fails : Z) : option Z :=
  if bool_decide (5 <= fails) then Some (now + LOCKOUT_MINUTES * minute) else None.

(** Lines 157-177, the failure branch before its [throw]. *)
Definition record_failure (now : Z) (email : string) : M unit :=
  failedDoc ← doc_get failedAttempts_c email;
  let fails := fail_count failedDoc in
  _ ← doc_set failedAttempts_c email (FailedAttempts.mk fails (lock_after now fails));
  audit_add (Audit.mk "OTP_FAILED" email now (Audit.fails fails)).

(** [auth.createUser({ email, emailVerified: true })] *)
Definition auth_createUser (newUid email : string) : M string :=
  fun db => match auth_users db !! email with
            | Some _ => (inl (AuthError "auth/email-already-exists"), db)
            | None => (inr newUid, set_auth_users
                         (<[email:=AuthUser.mk newUid true None]> (auth_users db)) db)
            end.

(** [auth.getUserByEmail(email)] *)
Definition auth_getUserByEmail (email : string) : M string :=
  fun db => match auth_users db !! email with
            | Some a => (inr (AuthUser.uid a), db)
            | None => (inl (AuthError "auth/user-not-found"), db)
            end.

(** [auth.updateUser(user.uid, { password })], for the account of [email]. *)
Definition auth_updatePassword (email pw : string) : M unit :=
  fun db =>
    if bool_decide (String.length pw < 6)%nat
    then (inl (AuthError "auth/invalid-password"), db)
    else match auth_users db !! email with
         | Some a => (inr tt, set_auth_users
                        (<[email:=AuthUser.mk (AuthUser.uid a) (AuthUser.emailVerified a) (Some pw)]>
                           (auth_users db)) db)
         | None => (inl (AuthError "auth/user-not-found"), db)
         end.

(** Lines 199-208 *)
Definition provision_user (newUid email : string) : M string :=
  st_catch (auth_createUser newUid email)
    (fun err => match err with
                | AuthError code =>
                    if String.eqb code "auth/email-already-exists"
                    then auth_getUserByEmail email else st_throw err
                | _ => st_throw err
                end).

(** Lines 211-219: the password update's errors are swallowed. *)
Definition set_password (email : string) (password : option string) : M unit :=
  match str_val password with
  | Some pw => st_catch (auth_updatePassword email pw) (fun _ => st_return tt)
  | None => st_return tt
  end.

Definition verifyOtpHandler (clock : option Z) (newUid : string)
    (req : VerifyOtpRequest) : M string :=
  match str_val (vo_email req), str_val (vo_otp req) with
  | Some email, Some otp =>
      now ← timestamp_now clock;
      otpDoc ← doc_get otps_c email;
      if otp_rejected now otp otpDoc then
        (_ ← record_failure now email;
         st_throw (HttpsError invalid_argument "Invalid or expired OTP."))
      else
        (_ ← doc_delete otps_c email;
         _ ← doc_delete rateLimits_c email;
         _ ← doc_delete failedAttempts_c email;
         uid ← provision_user newUid email;
         _ ← set_password email (vo_password req);
         _ ← doc_set users_c uid (UserProfile.mk uid email true now "student");
         _ ← audit_add (Audit.mk "USER_VERIFIED" email now (Audit.uid uid));
         mret uid)
  | _, _ => st_throw (HttpsError invalid_argument "Email and OTP required.")
  end.

(** ** sendOtp on every branch *)

(** Lines 123-133, the end of a request that passed both checks. *)
Definition sendOtp_finish (now : Z) (email : string) (attempts : Z) (otp : string)
    (mail : MailOutcome) : M string :=
  _ ← sendEmail email otp mail;
  _ ← audit_add (Audit.mk "OTP_SENT" email now (Audit.attempts attempts));
  mret "OTP sent!".

Section SendOtp.
Context (now : Z) (u : Q) (mail : MailOutcome) (ip : option string)
  (email : string) (db : DB).
Hypothesis Hemail : email <> "".
Hypothesis Hdomain : ends_with student_domain email = true.

(** The count this request stores. *)
Local Abbreviation attempts := (rate_attempts (now - hour) (rateLimits db !! email)).
Local Abbreviation send := (sendOtpHandler (Some now) u mail (mkSendOtpRequest (Some email) ip)).

Lemma sendOtp_exhausted :
  MAX_ATTEMPTS_PER_HOUR < attempts ->
  send db = (inl (HttpsError resource_exhausted "Too many attempts. Try again in an hour."), db).
Proof.
  intros H. unfold sendOtpHandler. cbn [so_email].
  rewrite str_val_some, Hdomain by done. handler_unfold. simpl.
  by rewrite bool_decide_eq_true_2.
Qed.

(** The state after the rate-limit write (line 83). *)
Local Abbreviation db1 :=
  (set_rateLimits (<[email:=RateLimit.mk attempts (now + hour)]> (rateLimits db)) db).

Lemma sendOtp_locked :
  ~ MAX_ATTEMPTS_PER_HOUR < attempts ->
  locked now (failedAttempts db !! email) = true ->
  send db = (inl (HttpsError permission_denied
                    "Account locked due to too many failed attempts."), db1).
Proof.
  intros H Hl. unfold sendOtpHandler. cbn [so_email].
  rewrite str_val_some, Hdomain by done. handler_unfold. simpl.
  rewrite bool_decide_eq_false_2 by done. by destruct db; cbn in *; rewrite Hl.
Qed.

(** The challenge stored at line 113. *)
Definition issued (ip : option string) : OtpDoc.t :=
  OtpDoc.mk (generateOTP u) (now + OTP_EXPIRY_MINUTES * minute) now (str_or ip "unknown").

Lemma sendOtp_passes :
  ~ MAX_ATTEMPTS_PER_HOUR < attempts ->
  locked now (failedAttempts db !! email) = false ->
  exists db2, send db = sendOtp_finish now email attempts (generateOTP u) mail db2 /\
    rateLimits db2 = <[email:=RateLimit.mk attempts (now + hour)]> (rateLimits db) /\
    otps db2 = <[email:=issued ip]> (delete email (otps db)) /\
    failedAttempts db2 = failedAttempts db /\ auth_users db2 = auth_users db /\
    users db2 = users db /\ outbox db2 = outbox db.
Proof.
  intros H Hl. unfold sendOtpHandler. cbn [so_email].
  rewrite str_val_some, Hdomain by done. handler_unfold. simpl.
  rewrite bool_decide_eq_false_2 by done.
  destruct db; cbn in *. rewrite Hl. eexists. split; [reflexivity | done].
Qed.

Lemma sendOtp_finish_fails attempts' otp db' :
  sendOtp_finish now email attempts' otp mail db' = (inl (mail_error mail), db').
Proof. unfold sendOtp_finish, sendEmail. handler_unfold. by destruct mail. Qed.

(** A request that passes both checks stores its challenge and its count,
    then fails at the mail step. *)
Lemma sendOtp_stored :
  ~ MAX_ATTEMPTS_PER_HOUR < attempts ->
  locked now (failedAttempts db !! email) = false ->
  exists db', send db = (inl (mail_error mail), db') /\
    rateLimits db' = <[email:=RateLimit.mk attempts (now + hour)]> (rateLimits db) /\
    otps db' = <[email:=issued ip]> (delete email (otps db)) /\
    failedAttempts db' = failedAttempts db /\ auth_users db' = auth_users db /\
    users db' = users db /\ outbox db' = outbox db.
Proof.
  intros H Hl. destruct (sendOtp_passes H Hl) as (db2 & -> & Hdb2).
  rewrite sendOtp_finish_fails. by eexists.
Qed.
End SendOtp.

Lemma rate_attempts_next (m : gmap string RateLimit.t) email c t t' :
  t' < t + 2 * hour ->
  rate_attempts (t' - hour) (<[email:=RateLimit.mk c (t + hour)]> m !! email) = c + 1.
Proof.
  intros H. rewrite lookup_insert_eq. cbn. rewrite bool_decide_eq_true_2; [done |].
  unfold hour in *. lia.
Qed.

(** A counted request on a counter [c] stored by a request at [t]. *)
Lemma sendOtp_counted mail email ip t t' u c db :
  email <> "" -> ends_with student_domain email = true ->
  rateLimits db !! email = Some (RateLimit.mk c (t + hour)) ->
  locked t' (failedAttempts db !! email) = false ->
  t' < t + 2 * hour -> c < MAX_ATTEMPTS_PER_HOUR ->
  exists db', sendOtpHandler (Some t') u mail (mkSendOtpRequest (Some email) ip) db =
    (inl (mail_error mail), db') /\
    rateLimits db' !! email = Some (RateLimit.mk (c + 1) (t' + hour)) /\
    failedAttempts db' = failedAttempts db.
Proof.
  intros He Hd Hr Hl Ht Hc.
  assert (Ha : rate_attempts (t' - hour) (rateLimits db !! email) = c + 1).
  { rewrite Hr. cbn. rewrite bool_decide_eq_true_2; [done | unfold hour in *; lia]. }
  destruct (sendOtp_stored t' u mail ip email db) as (db' & E & R & _ & F & _);
    rewrite ?Ha; [done.. | unfold MAX_ATTEMPTS_PER_HOUR in *; lia | done |].
  exists db'. by rewrite R, Ha, lookup_insert_eq.
Qed.

(** A refused request on such a counter that reached the limit. *)
Lemma sendOtp_counted_exhausted mail email ip t t' u c db :
  email <> "" -> ends_with student_domain email = true ->
  rateLimits db !! email = Some (RateLimit.mk c (t + hour)) ->
  t' < t + 2 * hour -> MAX_ATTEMPTS_PER_HOUR <= c ->
  sendOtpHandler (Some t') u mail (mkSendOtpRequest (Some email) ip) db =
    (inl (HttpsError resource_exhausted "Too many attempts. Try again in an hour."), db).
Proof.
  intros He Hd Hr Ht Hc. apply sendOtp_exhausted; [done.. |].
  rewrite Hr. cbn. rewrite bool_decide_eq_true_2; unfold hour, MAX_ATTEMPTS_PER_HOUR in *; lia.
Qed.

(** C9: the rate limit: three requests for one address, each made less
    than two hours after the previous one, are counted and each fails at
    the mail step, and the fourth is refused with [resource-exhausted].
    The window is two hours, not the specification's one hour: each request
    stores [resetAt = now + 1h] and a later request counts as in the
    window while [resetAt > now - 1h]. *)
Theorem sendOtp_rate_limit mail email ip t1 t2 t3 t4 u1 u2 u3 u4 db :
  email <> "" -> ends_with student_domain email = true ->
  rateLimits db !! email = None -> failedAttempts db !! email = None ->
  t2 < t1 + 2 * hour -> t3 < t2 + 2 * hour -> t4 < t3 + 2 * hour ->
  (st_runs [sendOtpHandler (Some t1) u1 mail (mkSendOtpRequest (Some email) ip);
            sendOtpHandler (Some t2) u2 mail (mkSendOtpRequest (Some email) ip);
            sendOtpHandler (Some t3) u3 mail (mkSendOtpRequest (Some email) ip);
            sendOtpHandler (Some t4) u4 mail (mkSendOtpRequest (Some email) ip)] db).1 =
  [inl (mail_error mail); inl (mail_error mail); inl (mail_error mail);
   inl (HttpsError resource_exhausted "Too many attempts. Try again in an hour.")].
Proof.
  intros He Hd Hr Hf H2 H3 H4.
  destruct (sendOtp_stored t1 u1 mail ip email db) as (db1 & E1 & R1 & _ & F1 & _);
    rewrite ?Hr, ?Hf; [done.. | cbv; lia |].
  rewrite Hr in R1. cbn in R1.
  destruct (sendOtp_counted mail email ip t1 t2 u2 1 db1) as (db2 & E2 & R2 & F2);
    rewrite ?R1, ?F1, ?Hf; [by rewrite ?lookup_insert_eq.. | done |].
  destruct (sendOtp_counted mail email ip t2 t3 u3 2 db2) as (db3 & E3 & R3 & F3);
    rewrite ?F2, ?F1, ?Hf; [done.. | done |].
  pose proof (sendOtp_counted_exhausted mail email ip t3 t4 u4 3 db3 He Hd R3 H4
                ltac:(done)) as E4.
  by rewrite (st_runs_cons _ _ _ _ _ E1), (st_runs_cons _ _ _ _ _ E2),
    (st_runs_cons _ _ _ _ _ E3), (st_runs_cons _ _ _ _ _ E4).
Qed.

(** ** verifyOtp on every branch *)

(** The uid [provision_user] returns: the existing account's, or the new one. *)
Definition account_uid (newUid : string) (a : option AuthUser.t) : string :=
  match a with
  | Some a => AuthUser.uid a
  | None => newUid
  end.

Lemma provision_user_run newUid email db :
  exists db', provision_user newUid email db =
    (inr (account_uid newUid (auth_users db !! email)), db') /\
    fmap AuthUser.uid (auth_users db' !! email) =
      Some (account_uid newUid (auth_users db !! email)) /\
    otps db' = otps db /\ rateLimits db' = rateLimits db /\
    failedAttempts db' = failedAttempts db /\ users db' = users db.
Proof.
  unfold provision_user, auth_createUser, auth_getUserByEmail. handler_unfold.
  destruct (auth_users db !! email) eqn:Ha; simpl; rewrite ?Ha.
  - eexists. split; [reflexivity |]. by rewrite Ha.
  - destruct db; cbn in *. eexists. split; [reflexivity |]. cbn.
    by rewrite lookup_insert_eq.
Qed.

Lemma set_password_run email pw db :
  exists db', set_password email pw db = (inr tt, db') /\
    fmap AuthUser.uid (auth_users db' !! email) = fmap AuthUser.uid (auth_users db !! email) /\
    otps db' = otps db /\ rateLimits db' = rateLimits db /\
    failedAttempts db' = failedAttempts db /\ users db' = users db.
Proof.
  unfold set_password, auth_updatePassword. handler_unfold.
  destruct (str_val pw) as [p|]; [| by eexists].
  destruct (bool_decide _); [by eexists |].
  destruct (auth_users db !! email) eqn:Ha; simpl; [| exists db; by rewrite Ha].
  destruct db; cbn in *. eexists. split; [reflexivity |]. cbn.
  by rewrite lookup_insert_eq.
Qed.

Section VerifyOtp.
Context (now : Z) (newUid email otp : string) (pw : option string) (db : DB).
Hypothesis Hemail : email <> "".
Hypothesis Hotp : otp <> "".

Local Abbreviation verify :=
  (verifyOtpHandler (Some now) newUid (mkVerifyOtpRequest (Some email) (Some otp) pw)).
Local Abbreviation fails := (fail_count (failedAttempts db !! email)).
Local Abbreviation uid := (account_uid newUid (auth_users db !! email)).

Lemma verifyOtp_rejected_run :
  otp_rejected now otp (otps db !! email) = true ->
  exists db', verify db = (inl (HttpsError invalid_argument "Invalid or expired OTP."), db') /\
    failedAttempts db' =
      <[email:=FailedAttempts.mk fails (lock_after now fails)]> (failedAttempts db) /\
    otps db' = otps db /\ rateLimits db' = rateLimits db /\
    auth_users db' = auth_users db /\ users db' = users db.
Proof.
  intros H. unfold verifyOtpHandler. cbn [vo_email vo_otp]. rewrite !str_val_some by done.
  unfold record_failure, timestamp_now. handler_unfold. simpl.
  destruct db; cbn in *. rewrite H. by eexists.
Qed.

Lemma verifyOtp_accepted_run :
  otp_rejected now otp (otps db !! email) = false ->
  exists db', verify db = (inr uid, db') /\
    otps db' = delete email (otps db) /\ rateLimits db' = delete email (rateLimits db) /\
    failedAttempts db' = delete email (failedAttempts db) /\
    users db' !! uid = Some (UserProfile.mk uid email true now "student") /\
    fmap AuthUser.uid (auth_users db' !! email) = Some uid.
Proof.
  intros H. unfold verifyOtpHandler. cbn [vo_email vo_otp]. rewrite !str_val_some by done.
  unfold timestamp_now. handler_unfold. simpl. rewrite H.
  match goal with |- context [provision_user ?n ?e ?d] =>
    destruct (provision_user_run n e d) as (db3 & -> & U3 & O3 & R3 & F3 & _) end.
  match goal with |- context [set_password ?e ?p ?d] =>
    destruct (set_password_run e p d) as (db4 & -> & U4 & O4 & R4 & F4 & _) end.
  eexists. split; [reflexivity |]. cbn in *.
  by rewrite O4, O3, R4, R3, F4, F3, U4, U3, lookup_insert_eq.
Qed.
End VerifyOtp.

Lemma set_password_long email pw db a :
  (6 <= String.length pw)%nat -> auth_users db !! email = Some a ->
  set_password email (Some pw) db =
  (inr tt, set_auth_users (<[email:=AuthUser.mk (AuthUser.uid a) (AuthUser.emailVerified a)
                                      (Some pw)]> (auth_users db)) db).
Proof.
  intros Hl Ha. unfold set_password, auth_updatePassword. destruct pw as [|c pw]; [simpl in Hl; lia |].
  rewrite str_val_some by done. handler_unfold. rewrite bool_decide_eq_false_2 by lia.
  by rewrite Ha.
Qed.

(** An accepted verification with a password Auth takes stores it. *)
Lemma verifyOtp_accepted_password now newUid email otp pw db :
  email <> "" -> otp <> "" -> (6 <= String.length pw)%nat ->
  otp_rejected now otp (otps db !! email) = false ->
  exists db', verifyOtpHandler (Some now) newUid (mkVerifyOtpRequest (Some email) (Some otp) (Some pw)) db =
    (inr (account_uid newUid (auth_users db !! email)), db') /\
    fmap AuthUser.password (auth_users db' !! email) = Some (Some pw).
Proof.
  intros He Ho Hl H. unfold verifyOtpHandler. cbn [vo_email vo_otp vo_password].
  rewrite !str_val_some by done. unfold timestamp_now. handler_unfold. simpl. rewrite H.
  match goal with |- context [provision_user ?n ?e ?d] =>
    destruct (provision_user_run n e d) as (db3 & -> & U3 & _) end.
  destruct (auth_users db3 !! email) as [a|] eqn:Ha; [| done].
  rewrite (set_password_long email pw db3 a Hl Ha).
  eexists. split; [reflexivity |]. cbn. by rewrite lookup_insert_eq.
Qed.

(** The calls of a client that retries [verifyOtp] with [(time, code)]. *)
Definition verify_calls (newUid email : string) (pw : option string)
    (tries : list (Z * string)) : list (M string) :=
  map (fun p => verifyOtpHandler (Some p.1) newUid (mkVerifyOtpRequest (Some email) (Some p.2) pw))
    tries.

Lemma verify_calls_cons newUid email pw p tries :
  verify_calls newUid email pw (p :: tries) =
  verifyOtpHandler (Some p.1) newUid (mkVerifyOtpRequest (Some email) (Some p.2) pw)
    :: verify_calls newUid email pw tries.
Proof. reflexivity. Qed.

Definition rejected_try (o : option OtpDoc.t) (p : Z * string) : Prop :=
  p.2 <> "" /\ otp_rejected p.1 p.2 o = true.

Lemma default_last_cons {A} (t t' : A) l :
  default t (last (t' :: l)) = default t' (last l).
Proof.
  revert t t'. induction l as [|y l IH]; intros t t'; [done |].
  change (last (t' :: y :: l)) with (last (y :: l)). by rewrite !IH.
Qed.

(** Consecutive failed verifications: each is refused, the challenge and the
    rate limit are untouched, and the counter grows by one per try. *)
Lemma verify_failures newUid email pw tries t code db c :
  email <> "" ->
  fail_count (failedAttempts db !! email) = c + 1 ->
  Forall (rejected_try (otps db !! email)) ((t, code) :: tries) ->
  let r := st_runs (verify_calls newUid email pw ((t, code) :: tries)) db in
  r.1 = replicate (S (length tries)) (inl (HttpsError invalid_argument "Invalid or expired OTP.")) /\
  otps r.2 = otps db /\ rateLimits r.2 = rateLimits db /\
  failedAttempts r.2 !! email =
    Some (FailedAttempts.mk (c + 1 + Z.of_nat (length tries))
            (lock_after (default t (last tries.*1)) (c + 1 + Z.of_nat (length tries)))).
Proof.
  intros He. revert t code db c.
  induction tries as [|[t' code'] tries IH]; intros t code db c Hc Hall;
    apply Forall_cons in Hall as [[Hcode Hrej] Hall];
    destruct (verifyOtp_rejected_run t newUid email code pw db He Hcode Hrej)
      as (db1 & E1 & F1 & O1 & R1 & _); rewrite Hc in F1;
    rewrite verify_calls_cons, (st_runs_cons_eq _ _ _ _ _ E1).
  - cbn [fst snd st_runs verify_calls map]. rewrite F1, lookup_insert_eq, O1, R1.
    simpl. by rewrite Z.add_0_r.
  - rewrite <- O1 in Hall.
    destruct (IH t' code' db1 (c + 1)) as (Hr & Ho & Hrl & Hf);
      [by rewrite F1, lookup_insert_eq | done |].
    simpl in *. rewrite Hr, Ho, Hrl, Hf, O1, R1.
    split_and!; [done.. |]. rewrite (default_last_cons t t').
    by replace (c + 1 + Z.of_nat (S (length tries))) with (c + 1 + 1 + Z.of_nat (length tries))
      by lia.
Qed.

(** ** The generated code *)

Lemma pretty_N_go_nonempty x s : s <> "" -> pretty_N_go x s <> "".
Proof.
  revert s. induction x as [x IH] using (well_founded_induction N.lt_wf_0).
  intros s Hs. destruct (decide (x = 0%N)) as [->|Hx]; [by rewrite pretty_N_go_0 |].
  rewrite pretty_N_go_step by lia. apply IH; [apply N.div_lt; lia | done].
Qed.

Lemma pretty_N_nonempty (x : N) : pretty x <> "".
Proof.
  unfold pretty, pretty_N. case_decide; [done |].
  rewrite pretty_N_go_step by lia. by apply pretty_N_go_nonempty.
Qed.

Lemma generateOTP_nonempty u : generateOTP u <> "".
Proof. apply pretty_N_nonempty. Qed.

(** A number with [k + 1] decimal digits prints as [k + 1] characters. *)
Lemma pretty_N_go_length k : forall x s,
  (10 ^ N.of_nat k <= x < 10 ^ N.of_nat (S k))%N ->
  String.length (pretty_N_go x s) = (S k + String.length s)%nat.
Proof.
  induction k as [|k IH]; intros x s [Hlo Hhi];
    (assert (Hx : (0 < x)%N) by (eapply N.lt_le_trans; [|exact Hlo];
                                  apply N.neq_0_lt_0, N.pow_nonzero; lia));
    rewrite pretty_N_go_step by exact Hx.
  - rewrite N.div_small by done. rewrite pretty_N_go_0. done.
  - rewrite Nat2N.inj_succ, N.pow_succ_r' in Hlo, Hhi.
    rewrite IH; [simpl; lia |]. split.
    + apply N.div_le_lower_bound; [lia | exact Hlo].
    + apply N.Div0.div_lt_upper_bound. exact Hhi.
Qed.

(** The value [Math.floor(100000 + u * 900000)] for [0 <= u < 1]. *)
Lemma generateOTP_value_range u :
  (0 <= u < 1)%Q -> 100000 <= Qfloor (100000 + u * 900000)%Q <= 999999.
Proof.
  intros [H0 H1]. split.
  - apply Z.le_trans with (Qfloor (inject_Z 100000)); [by rewrite Qfloor_Z |].
    apply Qfloor_resp_le. unfold inject_Z. lra.
  - assert (Hlt : (inject_Z (Qfloor (100000 + u * 900000)%Q) < inject_Z 1000000)%Q).
    { eapply Qle_lt_trans; [apply Qfloor_le |]. unfold inject_Z. lra. }
    rewrite <- Zlt_Qlt in Hlt. lia.
Qed.

(** ** A request followed by the verification of the mailed code *)

Lemma account_uid_of newUid (a : option AuthUser.t) uid :
  fmap AuthUser.uid a = Some uid -> account_uid newUid a = uid.
Proof. destruct a; simpl; congruence. Qed.

Lemma issued_accepted t u ip t' :
  t' <= t + OTP_EXPIRY_MINUTES * minute ->
  otp_rejected t' (generateOTP u) (Some (issued t u ip)) = false.
Proof.
  intros H. simpl. rewrite String.eqb_refl. simpl.
  apply bool_decide_eq_false_2. lia.
Qed.

Lemma send_then_verify mail email ip u t t' newUid pw db :
  email <> "" -> ends_with student_domain email = true ->
  ~ MAX_ATTEMPTS_PER_HOUR < rate_attempts (t - hour) (rateLimits db !! email) ->
  locked t (failedAttempts db !! email) = false ->
  t' <= t + OTP_EXPIRY_MINUTES * minute ->
  exists db1 db2,
    sendOtpHandler (Some t) u mail (mkSendOtpRequest (Some email) ip) db =
      (inl (mail_error mail), db1) /\
    verifyOtpHandler (Some t') newUid
      (mkVerifyOtpRequest (Some email) (Some (generateOTP u)) pw) db1 =
      (inr (account_uid newUid (auth_users db !! email)), db2) /\
    otps db2 !! email = None /\ rateLimits db2 !! email = None /\
    failedAttempts db2 !! email = None /\
    fmap AuthUser.uid (auth_users db2 !! email) =
      Some (account_uid newUid (auth_users db !! email)).
Proof.
  intros He Hd Hr Hl Ht.
  destruct (sendOtp_stored t u mail ip email db) as (db1 & E1 & _ & O1 & _ & A1 & _);
    [done.. |].
  destruct (verifyOtp_accepted_run t' newUid email (generateOTP u) pw db1)
    as (db2 & E2 & O2 & R2 & F2 & _ & U2);
    [done | apply generateOTP_nonempty | rewrite O1, lookup_insert_eq; by apply issued_accepted |].
  rewrite A1 in E2, U2. exists db1, db2. split_and!; [done | done | ..];
    by rewrite ?O2, ?R2, ?F2, ?lookup_delete_eq.
Qed.

(** ** Properties of the gate *)

(** C10: consecutive failed verifications from a clean record: each one
    fails with [invalid-argument], the challenge is kept, and after [n]
    failures the record counts [n] and is locked (for 30 minutes from the
    last failure) exactly when [n >= 5]. *)
Theorem verifyOtp_lockout newUid email pw tries t code db :
  email <> "" -> failedAttempts db !! email = None ->
  Forall (rejected_try (otps db !! email)) ((t, code) :: tries) ->
  let n := Z.of_nat (S (length tries)) in
  let r := st_runs (verify_calls newUid email pw ((t, code) :: tries)) db in
  r.1 = replicate (S (length tries)) (inl (HttpsError invalid_argument "Invalid or expired OTP.")) /\
  otps r.2 = otps db /\
  failedAttempts r.2 !! email =
    Some (FailedAttempts.mk n (if bool_decide (5 <= n)
                               then Some (default t (last tries.*1) + LOCKOUT_MINUTES * minute)
                               else None)).
Proof.
  intros He Hf Hall.
  destruct (verify_failures newUid email pw tries t code db 0 He) as (Hr & Ho & _ & Hfa);
    [by rewrite Hf | done |].
  split_and!; [done | done |]. rewrite Hfa. unfold lock_after.
  by replace (0 + 1 + Z.of_nat (length tries)) with (Z.of_nat (S (length tries))) by lia.
Qed.

(** C11: what a lockout blocks: while [lockedUntil] is in the future, a
    new code is refused with [permission-denied] (the request still counts
    against the rate limit), but [verifyOtp] never reads the lockout, so
    the code already issued is still accepted, and its success clears the
    lockout.  The specification says the attempt after a lockout fails. *)
Theorem otp_lockout_scope now u mail ip newUid pw email db f l o :
  email <> "" -> ends_with student_domain email = true ->
  failedAttempts db !! email = Some f -> FailedAttempts.lockedUntil f = Some l -> now < l ->
  ~ MAX_ATTEMPTS_PER_HOUR < rate_attempts (now - hour) (rateLimits db !! email) ->
  otps db !! email = Some o -> OtpDoc.otp o <> "" -> now <= OtpDoc.expiresAt o ->
  (exists db', sendOtpHandler (Some now) u mail (mkSendOtpRequest (Some email) ip) db =
     (inl (HttpsError permission_denied "Account locked due to too many failed attempts."), db') /\
     rateLimits db' !! email =
       Some (RateLimit.mk (rate_attempts (now - hour) (rateLimits db !! email)) (now + hour))) /\
  (exists db', verifyOtpHandler (Some now) newUid
                 (mkVerifyOtpRequest (Some email) (Some (OtpDoc.otp o)) pw) db =
     (inr (account_uid newUid (auth_users db !! email)), db') /\
     failedAttempts db' !! email = None).
Proof.
  intros He Hd Hf Hl Hlt Hr Ho Hc Hexp. split.
  - assert (Hlk : locked now (failedAttempts db !! email) = true)
      by (rewrite Hf; destruct f; simpl in *; subst; by apply bool_decide_eq_true_2).
    rewrite (sendOtp_locked now u mail ip email db He Hd Hr Hlk).
    eexists. split; [done |]. simpl. by rewrite lookup_insert_eq.
  - destruct (verifyOtp_accepted_run now newUid email (OtpDoc.otp o) pw db)
      as (db' & E & _ & _ & F & _); [done | done | |].
    + rewrite Ho. simpl. rewrite String.eqb_refl. simpl. apply bool_decide_eq_false_2. lia.
    + exists db'. by rewrite E, F, lookup_delete_eq.
Qed.

(** C12: spec section 8, OTP round trip, as far as the code allows it.  A
    request that passes the checks stores its challenge and then fails at
    the mail step, so the code is never mailed; [verifyOtp] with the
    stored code within the five minutes still returns the account's uid
    (the existing account's, or the new one), and replaying the same code
    afterwards fails with [invalid-argument]. *)
Theorem otp_round_trip mail email ip u t t' t'' newUid pw db :
  email <> "" -> ends_with student_domain email = true ->
  ~ MAX_ATTEMPTS_PER_HOUR < rate_attempts (t - hour) (rateLimits db !! email) ->
  locked t (failedAttempts db !! email) = false ->
  t' <= t + OTP_EXPIRY_MINUTES * minute ->
  (st_runs [sendOtpHandler (Some t) u mail (mkSendOtpRequest (Some email) ip);
            verifyOtpHandler (Some t') newUid (mkVerifyOtpRequest (Some email) (Some (generateOTP u)) pw);
            verifyOtpHandler (Some t'') newUid (mkVerifyOtpRequest (Some email) (Some (generateOTP u)) pw)]
           db).1 =
  [inl (mail_error mail); inr (account_uid newUid (auth_users db !! email));
   inl (HttpsError invalid_argument "Invalid or expired OTP.")].
Proof.
  intros He Hd Hr Hl Ht.
  destruct (send_then_verify mail email ip u t t' newUid pw db) as (db1 & db2 & E1 & E2 & O2 & _);
    [done.. |].
  destruct (verifyOtp_rejected_run t'' newUid email (generateOTP u) pw db2)
    as (db3 & E3 & _); [done | apply generateOTP_nonempty | by rewrite O2 |].
  by rewrite (st_runs_cons _ _ _ _ _ E1), (st_runs_cons _ _ _ _ _ E2),
    (st_runs_cons _ _ _ _ _ E3).
Qed.

(** spec section 8, the account id is stable: after a first
    request and verification, a second request and verification for the
    same address (with whatever uid Auth would give a new account) return
    the same uid. *)
Theorem otp_stable_account mail email ip u1 u2 t1 t1' t2 t2' uid1 uid2 pw db :
  email <> "" -> ends_with student_domain email = true ->
  ~ MAX_ATTEMPTS_PER_HOUR < rate_attempts (t1 - hour) (rateLimits db !! email) ->
  locked t1 (failedAttempts db !! email) = false ->
  t1' <= t1 + OTP_EXPIRY_MINUTES * minute -> t2' <= t2 + OTP_EXPIRY_MINUTES * minute ->
  (st_runs [sendOtpHandler (Some t1) u1 mail (mkSendOtpRequest (Some email) ip);
            verifyOtpHandler (Some t1') uid1 (mkVerifyOtpRequest (Some email) (Some (generateOTP u1)) pw);
            sendOtpHandler (Some t2) u2 mail (mkSendOtpRequest (Some email) ip);
            verifyOtpHandler (Some t2') uid2 (mkVerifyOtpRequest (Some email) (Some (generateOTP u2)) pw)]
           db).1 =
  [inl (mail_error mail); inr (account_uid uid1 (auth_users db !! email));
   inl (mail_error mail); inr (account_uid uid1 (auth_users db !! email))].
Proof.
  intros He Hd Hr Hl Ht1 Ht2.
  destruct (send_then_verify mail email ip u1 t1 t1' uid1 pw db)
    as (db1 & db2 & E1 & E2 & _ & R2 & F2 & U2); [done.. |].
  destruct (send_then_verify mail email ip u2 t2 t2' uid2 pw db2)
    as (db3 & db4 & E3 & E4 & _); rewrite ?R2, ?F2;
    [done | done | unfold MAX_ATTEMPTS_PER_HOUR; simpl; lia | done | done |].
  rewrite (account_uid_of _ _ _ U2) in E4.
  by rewrite (st_runs_cons _ _ _ _ _ E1), (st_runs_cons _ _ _ _ _ E2),
    (st_runs_cons _ _ _ _ _ E3), (st_runs_cons _ _ _ _ _ E4).
Qed.

(** [generateOTP] makes a six-digit code: for [0 <= Math.random() < 1]
    the value lies in [100000, 999999] and its decimal string has six
    characters. *)
Theorem generateOTP_six_digits u :
  (0 <= u < 1)%Q ->
  100000 <= Qfloor (100000 + u * 900000)%Q <= 999999 /\
  String.length (generateOTP u) = 6%nat.
Proof.
  intros Hu. pose proof (generateOTP_value_range u Hu) as Hv. split; [done |].
  unfold generateOTP, pretty, pretty_N. rewrite decide_False by lia.
  rewrite (pretty_N_go_length 5); [done |].
  change (100000 <= Z.to_N (Qfloor (100000 + u * 900000)%Q) < 1000000)%N. lia.
Qed.

(** the expiry bound is inclusive: the stored code is accepted at
    [now = expiresAt] and refused one millisecond later
    ([expiresAt < now], line 154). *)
Theorem verifyOtp_expiry_boundary newUid email pw o db :
  email <> "" -> otps db !! email = Some o -> OtpDoc.otp o <> "" ->
  (exists db', verifyOtpHandler (Some (OtpDoc.expiresAt o)) newUid
                 (mkVerifyOtpRequest (Some email) (Some (OtpDoc.otp o)) pw) db =
     (inr (account_uid newUid (auth_users db !! email)), db')) /\
  (exists db', verifyOtpHandler (Some (OtpDoc.expiresAt o + 1)) newUid
                 (mkVerifyOtpRequest (Some email) (Some (OtpDoc.otp o)) pw) db =
     (inl (HttpsError invalid_argument "Invalid or expired OTP."), db')).
Proof.
  intros He Ho Hc. split.
  - destruct (verifyOtp_accepted_run (OtpDoc.expiresAt o) newUid email (OtpDoc.otp o) pw db)
      as (db' & E & _); [done | done | | by exists db'].
    rewrite Ho. simpl. rewrite String.eqb_refl. simpl. apply bool_decide_eq_false_2. lia.
  - destruct (verifyOtp_rejected_run (OtpDoc.expiresAt o + 1) newUid email (OtpDoc.otp o) pw db)
      as (db' & E & _); [done | done | | by exists db'].
    rewrite Ho. simpl. rewrite String.eqb_refl. simpl. apply bool_decide_eq_true_2. lia.
Qed.

(** input validation: [sendOtp] without an address of the student
    domain, and [verifyOtp] without an address or a code, fail with
    [invalid-argument] and write nothing. *)
Theorem otp_request_validation clock u mail ip e c pw newUid db :
  (forall s, str_val e = Some s -> ends_with student_domain s = false) ->
  sendOtpHandler clock u mail (mkSendOtpRequest e ip) db =
    (inl (HttpsError invalid_argument "Invalid student email."), db) /\
  (str_val e = None \/ str_val c = None ->
   verifyOtpHandler clock newUid (mkVerifyOtpRequest e c pw) db =
     (inl (HttpsError invalid_argument "Email and OTP required."), db)).
Proof.
  intros Hs. split.
  - unfold sendOtpHandler. simpl. destruct (str_val e) as [s|] eqn:E; [| done].
    by rewrite (Hs s eq_refl).
  - unfold verifyOtpHandler. simpl. by intros [-> | ->]; [| destruct (str_val e)].
Qed.

(** The handler fails on every input, clock, draw, mail set-up and
    database -- at a check, or, once the challenge is stored, at
    [sendEmail] -- so it never answers "OTP sent!" nor writes the
    [OTP_SENT] audit entry. *)
Lemma sendOtpHandler_fails clock u mail req db :
  exists e db', sendOtpHandler clock u mail req db = (inl e, db') /\
    auditLogs db' = auditLogs db /\ auth_users db' = auth_users db /\
    users db' = users db /\ outbox db' = outbox db.
Proof.
  unfold sendOtpHandler, timestamp_now, sendEmail.
  destruct (str_val (so_email req)); [destruct (ends_with _ _), clock, mail |];
    handler_unfold; repeat case_match; destruct db; eexists _, _; (split; [reflexivity | done]).
Qed.

(** C36: [db.Timestamp] is not a property of a Firestore instance, so when
    it is undefined both handlers throw a [TypeError] right after their
    input check, before any read or write. *)
Theorem otp_timestamp_undefined u mail ip email c pw newUid db :
  email <> "" -> ends_with student_domain email = true -> c <> "" ->
  sendOtpHandler None u mail (mkSendOtpRequest (Some email) ip) db =
    (inl (JsError "Cannot read properties of undefined (reading 'now')"), db) /\
  verifyOtpHandler None newUid (mkVerifyOtpRequest (Some email) (Some c) pw) db =
    (inl (JsError "Cannot read properties of undefined (reading 'now')"), db).
Proof.
  intros He Hd Hc. unfold sendOtpHandler, verifyOtpHandler. cbn [so_email vo_email vo_otp].
  rewrite !str_val_some, Hd by done. done.
Qed.

(** ** Witnesses *)

Definition otp_email : string := "ada@students.unilorin.edu.ng".

(** A challenge issued at time 0, and a lockout until minute 30. *)
Definition otp_challenge : OtpDoc.t := OtpDoc.mk "123456" (5 * minute) 0 "unknown".
Definition locked_db : DB :=
  set_failedAttempts {[otp_email := FailedAttempts.mk 5 (Some (30 * minute))]}
    (set_otps {[otp_email := otp_challenge]} empty_db).

Ltac otp_side :=
  first [ done | reflexivity
        | unfold hour, minute, OTP_EXPIRY_MINUTES, MAX_ATTEMPTS_PER_HOUR in *; simpl; lia ].

(** Three requests at time 0 and a fourth 90 minutes later. *)
Lemma sendOtp_rate_limit_witness :
  (st_runs [sendOtpHandler (Some 0) 0 mail_sent (mkSendOtpRequest (Some otp_email) None);
            sendOtpHandler (Some 0) 0 mail_sent (mkSendOtpRequest (Some otp_email) None);
            sendOtpHandler (Some 0) 0 mail_sent (mkSendOtpRequest (Some otp_email) None);
            sendOtpHandler (Some (90 * minute)) 0 mail_sent (mkSendOtpRequest (Some otp_email) None)]
           empty_db).1 =
  [inl (mail_error mail_sent); inl (mail_error mail_sent); inl (mail_error mail_sent);
   inl (HttpsError resource_exhausted "Too many attempts. Try again in an hour.")].
Proof. apply sendOtp_rate_limit; otp_side. Defined.

Lemma verifyOtp_lockout_witness :
  let r := st_runs (verify_calls "u1" otp_email None
             [(0, "000000"); (1, "000001"); (2, "000002"); (3, "000003"); (4, "000004")])
             empty_db in
  failedAttempts r.2 !! otp_email = Some (FailedAttempts.mk 5 (Some (4 + 30 * minute))).
Proof.
  exact (proj2 (proj2 (verifyOtp_lockout "u1" otp_email None
    [(1, "000001"); (2, "000002"); (3, "000003"); (4, "000004")] 0 "000000" empty_db
    ltac:(done) ltac:(reflexivity)
    ltac:(repeat (constructor; [split; [done | reflexivity] |]); constructor)))).
Defined.

Lemma otp_lockout_scope_witness :
  (exists db', sendOtpHandler (Some minute) 0 mail_sent (mkSendOtpRequest (Some otp_email) None)
                 locked_db =
     (inl (HttpsError permission_denied "Account locked due to too many failed attempts."), db') /\
     rateLimits db' !! otp_email =
       Some (RateLimit.mk (rate_attempts (minute - hour) (rateLimits locked_db !! otp_email))
               (minute + hour))) /\
  (exists db', verifyOtpHandler (Some minute) "u1"
                 (mkVerifyOtpRequest (Some otp_email) (Some "123456") None) locked_db =
     (inr (account_uid "u1" (auth_users locked_db !! otp_email)), db') /\
     failedAttempts db' !! otp_email = None).
Proof.
  apply (otp_lockout_scope minute 0 mail_sent None "u1" None otp_email locked_db
           (FailedAttempts.mk 5 (Some (30 * minute))) (30 * minute) otp_challenge); otp_side.
Defined.

Lemma otp_round_trip_witness :
  (st_runs [sendOtpHandler (Some 0) 0 mail_sent (mkSendOtpRequest (Some otp_email) None);
            verifyOtpHandler (Some minute) "u1"
              (mkVerifyOtpRequest (Some otp_email) (Some (generateOTP 0)) (Some "secret1"));
            verifyOtpHandler (Some (2 * minute)) "u1"
              (mkVerifyOtpRequest (Some otp_email) (Some (generateOTP 0)) (Some "secret1"))]
           empty_db).1 =
  [inl (mail_error mail_sent); inr "u1"; inl (HttpsError invalid_argument "Invalid or expired OTP.")].
Proof. apply otp_round_trip; otp_side. Defined.

Lemma otp_stable_account_witness :
  (st_runs [sendOtpHandler (Some 0) 0 mail_sent (mkSendOtpRequest (Some otp_email) None);
            verifyOtpHandler (Some minute) "u1"
              (mkVerifyOtpRequest (Some otp_email) (Some (generateOTP 0)) None);
            sendOtpHandler (Some hour) (1 # 2) mail_sent (mkSendOtpRequest (Some otp_email) None);
            verifyOtpHandler (Some (hour + minute)) "u2"
              (mkVerifyOtpRequest (Some otp_email) (Some (generateOTP (1 # 2))) None)]
           empty_db).1 =
  [inl (mail_error mail_sent); inr "u1"; inl (mail_error mail_sent); inr "u1"].
Proof. apply otp_stable_account; otp_side. Defined.

Lemma generateOTP_six_digits_witness :
  String.length (generateOTP (1 # 2)) = 6%nat /\ generateOTP (1 # 2) = "550000".
Proof.
  split; [| reflexivity].
  apply (generateOTP_six_digits (1 # 2)). unfold Qle, Qlt. simpl. lia.
Defined.

Lemma verifyOtp_expiry_boundary_witness :
  exists db', verifyOtpHandler (Some (5 * minute + 1)) "u1"
                (mkVerifyOtpRequest (Some otp_email) (Some "123456") None) locked_db =
    (inl (HttpsError invalid_argument "Invalid or expired OTP."), db').
Proof.
  apply (verifyOtp_expiry_boundary "u1" otp_email None otp_challenge locked_db); otp_side.
Defined.

Lemma otp_request_validation_witness :
  sendOtpHandler (Some 0) 0 mail_sent (mkSendOtpRequest (Some "ada@gmail.com") None) empty_db =
    (inl (HttpsError invalid_argument "Invalid student email."), empty_db).
Proof.
  apply (otp_request_validation (Some 0) 0 mail_sent None (Some "ada@gmail.com") None None "u1").
  intros s Hs. injection Hs as <-. reflexivity.
Defined.

Lemma otp_timestamp_undefined_witness :
  sendOtpHandler None 0 mail_sent (mkSendOtpRequest (Some otp_email) None) empty_db =
    (inl (JsError "Cannot read properties of undefined (reading 'now')"), empty_db).
Proof.
  apply (otp_timestamp_undefined 0 mail_sent None otp_email "123456" None "u1"); otp_side.
Defined.
