(* ===== verification/Schema.v ===== *)
(** * Schema: the documents of the OTP gate are well formed

    The data model of the specification (section 3) constrains the three
    collections of the OTP gate: a challenge in [otps] holds a six-digit
    code and expires five minutes after it was created; a record of
    [rateLimits] counts between one and [MAX_ATTEMPTS_PER_HOUR] requests;
    a record of [failedAttempts] counts at least one failure and has a
    [lockedUntil] only from the fifth failure on.  [gate_wf] is that
    schema; both handlers of otptriggers.js keep it on every path, errors
    included, since Firestore keeps the writes made before a throw. *)

From S2P Require Import Prelude Store Otp.
From stdpp Require Import pretty.
From Stdlib Require Import QArith_base Qround.
Local Close Scope Q_scope.
Local Open Scope Z_scope.

(** ** The schema *)

Definition is_digit (c : Ascii.ascii) : bool :=
  bool_decide (48 <= Ascii.nat_of_ascii c <= 57)%nat.

Fixpoint all_digits (s : string) : bool :=
  match s with
  | EmptyString => true
  | String c s => is_digit c && all_digits s
  end.

Definition otp_doc_wf (o : OtpDoc.t) : Prop :=
  String.length (OtpDoc.otp o) = 6%nat /\ all_digits (OtpDoc.otp o) = true /\
  OtpDoc.expiresAt o = OtpDoc.createdAt o + OTP_EXPIRY_MINUTES * minute.

Definition rate_wf (r : RateLimit.t) : Prop :=
  1 <= RateLimit.count r <= MAX_ATTEMPTS_PER_HOUR.

Definition failed_wf (f : FailedAttempts.t) : Prop :=
  1 <= FailedAttempts.count f /\
  (is_Some (FailedAttempts.lockedUntil f) -> 5 <= FailedAttempts.count f).

Definition gate_wf (db : DB) : Prop :=
  map_Forall (fun _ => otp_doc_wf) (otps db) /\
  map_Forall (fun _ => rate_wf) (rateLimits db) /\
  map_Forall (fun _ => failed_wf) (failedAttempts db).

(** ** The generated code is six digits *)

Lemma pretty_N_char_digit x : is_digit (pretty_N_char x) = true.
Proof. unfold pretty_N_char. by repeat case_match. Qed.

Lemma pretty_N_go_digits x s : all_digits s = true -> all_digits (pretty_N_go x s) = true.
Proof.
  revert s. induction x as [x IH] using (well_founded_induction N.lt_wf_0).
  intros s Hs. destruct (decide (x = 0%N)) as [->|Hx]; [by rewrite pretty_N_go_0 |].
  rewrite pretty_N_go_step by lia. apply IH; [apply N.div_lt; lia |].
  cbn. by rewrite pretty_N_char_digit, Hs.
Qed.

Lemma generateOTP_wf u now ip :
  (0 <= u < 1)%Q ->
  otp_doc_wf (OtpDoc.mk (generateOTP u) (now + OTP_EXPIRY_MINUTES * minute) now ip).
Proof.
  intros Hu. pose proof (generateOTP_value_range u Hu) as Hv. split_and!; cbn; [| | done].
  - unfold generateOTP, pretty, pretty_N. rewrite decide_False by lia.
    rewrite (pretty_N_go_length 5); [done |].
    change (100000 <= Z.to_N (Qfloor (100000 + u * 900000)%Q) < 1000000)%N. lia.
  - unfold generateOTP, pretty, pretty_N. rewrite decide_False by lia.
    by apply pretty_N_go_digits.
Qed.

(** ** Framing: what the handlers leave alone *)

Lemma gate_wf_ext db db' :
  otps db' = otps db -> rateLimits db' = rateLimits db ->
  failedAttempts db' = failedAttempts db -> gate_wf db -> gate_wf db'.
Proof. unfold gate_wf. by intros -> -> ->. Qed.

Lemma sendOtp_finish_frame now email attempts otp mail db :
  otps (snd (sendOtp_finish now email attempts otp mail db)) = otps db /\
  rateLimits (snd (sendOtp_finish now email attempts otp mail db)) = rateLimits db /\
  failedAttempts (snd (sendOtp_finish now email attempts otp mail db)) = failedAttempts db.
Proof. unfold sendOtp_finish, sendEmail. handler_unfold. by destruct mail, db. Qed.

Lemma rate_attempts_wf hourAgo email (m : gmap string RateLimit.t) :
  map_Forall (fun _ => rate_wf) m -> 1 <= rate_attempts hourAgo (m !! email).
Proof.
  intros Hm. unfold rate_attempts. destruct (m !! email) as [r|] eqn:Hr; [| lia].
  specialize (Hm _ _ Hr). unfold rate_wf in Hm. case_bool_decide; lia.
Qed.

Lemma fail_count_wf email (m : gmap string FailedAttempts.t) :
  map_Forall (fun _ => failed_wf) m -> 1 <= fail_count (m !! email).
Proof.
  intros Hm. unfold fail_count. destruct (m !! email) as [f|] eqn:Hf; [| lia].
  specialize (Hm _ _ Hf). destruct Hm. lia.
Qed.

Lemma lock_after_wf now fails : 1 <= fails -> failed_wf (FailedAttempts.mk fails (lock_after now fails)).
Proof.
  intros H. split; [done |]. cbn. unfold lock_after. case_bool_decide; [done |].
  by intros [? ?].
Qed.

Lemma str_val_some_inv o s : str_val o = Some s -> o = Some s /\ s <> "".
Proof.
  destruct o as [s'|]; cbn; [| done].
  destruct (String.eqb_spec s' ""); [done |]. intros [= ->]. done.
Qed.

(** ** Both handlers keep the schema *)

Lemma sendOtp_gate_wf clock u mail req db :
  (0 <= u < 1)%Q -> gate_wf db -> gate_wf (snd (sendOtpHandler clock u mail req db)).
Proof.
  intros Hu Hwf. destruct req as [e ip].
  destruct (str_val e) as [email|] eqn:He;
    [| unfold sendOtpHandler; cbn [so_email]; by rewrite He].
  destruct (str_val_some_inv _ _ He) as [-> Hne].
  destruct (ends_with student_domain email) eqn:Hd;
    [| unfold sendOtpHandler; cbn [so_email]; by rewrite He, Hd].
  destruct clock as [now|]; [| unfold sendOtpHandler; cbn [so_email]; by rewrite He, Hd].
  destruct (decide (MAX_ATTEMPTS_PER_HOUR < rate_attempts (now - hour) (rateLimits db !! email)))
    as [Hx|Hx]; [by rewrite (sendOtp_exhausted now u mail ip email db Hne Hd Hx) |].
  destruct Hwf as (Ho & Hr & Hf).
  pose proof (rate_attempts_wf (now - hour) email _ Hr) as Hpos.
  destruct (locked now (failedAttempts db !! email)) eqn:Hl.
  - rewrite (sendOtp_locked now u mail ip email db Hne Hd Hx Hl).
    split_and!; cbn; [done | apply map_Forall_insert_2; [unfold rate_wf; cbn; lia | done] | done].
  - destruct (sendOtp_passes now u mail ip email db Hne Hd Hx Hl) as (db2 & -> & R2 & O2 & F2 & _).
    destruct (sendOtp_finish_frame now email (rate_attempts (now - hour) (rateLimits db !! email))
                (generateOTP u) mail db2) as (O3 & R3 & F3).
    apply (gate_wf_ext db2); [done.. |].
    unfold gate_wf. rewrite O2, R2, F2. split_and!; [| apply map_Forall_insert_2; [unfold rate_wf; cbn; lia | done] | done].
    apply map_Forall_insert_2; [by apply generateOTP_wf | by apply map_Forall_delete].
Qed.

Lemma verifyOtp_gate_wf clock newUid req db :
  gate_wf db -> gate_wf (snd (verifyOtpHandler clock newUid req db)).
Proof.
  intros Hwf. destruct req as [e o pw].
  destruct (str_val e) as [email|] eqn:He, (str_val o) as [otp|] eqn:Ho;
    try (unfold verifyOtpHandler; cbn [vo_email vo_otp]; rewrite ?He, ?Ho; exact Hwf).
  destruct (str_val_some_inv _ _ He) as [-> Hne], (str_val_some_inv _ _ Ho) as [-> Hno].
  destruct clock as [now|];
    [| unfold verifyOtpHandler; cbn [vo_email vo_otp]; by rewrite He, Ho].
  destruct Hwf as (Hot & Hr & Hf).
  destruct (otp_rejected now otp (otps db !! email)) eqn:Hrej.
  - destruct (verifyOtp_rejected_run now newUid email otp pw db Hne Hno Hrej)
      as (db' & -> & F & O & R & _).
    split_and!; cbn; rewrite ?F, ?O, ?R; [done | done |].
    apply map_Forall_insert_2; [apply lock_after_wf, fail_count_wf, Hf | done].
  - destruct (verifyOtp_accepted_run now newUid email otp pw db Hne Hno Hrej)
      as (db' & -> & O & R & F & _).
    split_and!; cbn; rewrite ?F, ?O, ?R; by apply map_Forall_delete.
Qed.

(** ** Property *)

(** C22: the data model's schema of the OTP gate holds of every database
    the gate's handlers produce from one where it holds: challenges are
    six decimal digits and expire five minutes after their creation, the
    stored request count lies in [1, 3] (a request over the limit is
    refused before the write), and [lockedUntil] is set only on records
    that count five failures or more.  Requires [0 <= Math.random() < 1]. *)
Theorem otp_gate_schema clock u mail sreq newUid vreq db :
  (0 <= u < 1)%Q -> gate_wf db ->
  gate_wf (snd (sendOtpHandler clock u mail sreq db)) /\
  gate_wf (snd (verifyOtpHandler clock newUid vreq db)).
Proof.
  intros Hu Hwf. split; [by apply sendOtp_gate_wf | by apply verifyOtp_gate_wf].
Qed.

(** ** Witness: a first request on an empty database *)

Lemma empty_gate_wf : gate_wf empty_db.
Proof. split_and!; apply map_Forall_empty. Qed.

Lemma otp_gate_schema_witness :
  (0 <= 0 < 1)%Q /\
  gate_wf (snd (sendOtpHandler (Some 0) 0%Q mail_sent
                  (mkSendOtpRequest (Some "ada@students.unilorin.edu.ng") None) empty_db)).
Proof.
  assert (Hu : (0 <= 0 < 1)%Q) by (unfold Qle, Qlt; cbn; lia).
  split; [exact Hu |].
  exact (proj1 (otp_gate_schema (Some 0) 0%Q mail_sent
                  (mkSendOtpRequest (Some "ada@students.unilorin.edu.ng") None) ""
                  (mkVerifyOtpRequest None None None) empty_db Hu empty_gate_wf)).
Defined.
