(* ===== verification/Races.v ===== *)
(** * Races: handlers that read a snapshot and write after it

    Cloud Functions run concurrently and Firestore does not serialise
    them: [assignNearestResponder] (index.js lines 57-90) reads the active
    responders and writes [busy] to the chosen one later, and
    [markInactiveResponders] (lines 355-398) reads the active responders
    and writes [inactive] later, deciding staleness from its snapshot.
    Each handler is split here at that suspension point into a read
    phase and a write phase; [assign_phases] and [sweep_phases] prove that
    running the phases back to back is the handler of the sequential
    model.  [interleave] runs two threads of phases under a schedule.

    The theorems: two assignments run one after the other never choose the
    same responder, while two assignments whose reads both precede their
    writes choose the same one whenever their snapshots agree (the
    double assignment of the specification's section 9); a heartbeat that
    lands between the sweep's read and its write is overwritten, leaving a
    responder with a fresh heartbeat inactive. *)

From S2P Require Import Prelude Geo Store Registry Assigner Liveness.
From Stdlib Require Import QArith_base.
Local Close Scope Q_scope.
Local Open Scope Z_scope.

(** ** Two threads under a schedule *)

Section Interleave.
Context {T U : Type} (step1 : T -> DB -> T * DB) (step2 : U -> DB -> U * DB).

(** [true] lets the first thread take its next step, [false] the second. *)
Fixpoint interleave (sched : list bool) (t : T) (u : U) (db : DB) : T * U * DB :=
  match sched with
  | [] => (t, u, db)
  | true :: s => let '(t', db') := step1 t db in interleave s t' u db'
  | false :: s => let '(u', db') := step2 u db in interleave s t u' db'
  end.
End Interleave.

(** ** [assignNearestResponder] in two phases *)

Section AssignPhases.
Context `{Metric D}.

(** Lines 58-80: the choice taken from the snapshot. *)
Definition assign_read (eloc : Location) (db : DB) : option (string * Responder.t) :=
  let respondersSnap := active_docs (responders db) in
  if bool_decide (respondersSnap = []) then None
  else nearest_scan (loc_pos eloc) respondersSnap.

(** Lines 82-89: the write of the choice. *)
Definition assign_write (reportId : string) (choice : option (string * Responder.t)) :
    M (option string) :=
  match choice with
  | Some (id, _) => _ ← doc_update responders_c id (set_busy reportId); mret (Some id)
  | None => mret None
  end.

Inductive assign_thread :=
| AReady (eloc : Location) (reportId : string)
| ARead (reportId : string) (choice : option (string * Responder.t))
| ADone (res : Error + option string).

Definition assign_step (t : assign_thread) (db : DB) : assign_thread * DB :=
  match t with
  | AReady eloc reportId => (ARead reportId (assign_read eloc db), db)
  | ARead reportId choice => let '(r, db') := assign_write reportId choice db in (ADone r, db')
  | ADone r => (ADone r, db)
  end.

Definition assign_race (sched : list bool) (eloc1 : Location) (rep1 : string)
    (eloc2 : Location) (rep2 : string) (db : DB) :=
  interleave assign_step assign_step sched (AReady eloc1 rep1) (AReady eloc2 rep2) db.

End AssignPhases.

(** ** [markInactiveResponders] in two phases, and the heartbeat *)

(** Lines 362-365: the snapshot of the active responders. *)
Definition sweep_read (db : DB) : list (string * Responder.t) :=
  active_docs (responders db).

(** Lines 368-397: the loop over the snapshot, inside the handler's catch. *)
Definition sweep_write (now : Z) (docs : list (string * Responder.t)) : M Z :=
  st_catch (sweep_docs now (now - heartbeatTimeout) 0 docs)
    (fun _ => st_throw (JsError "functions is not defined")).

Inductive sweep_thread :=
| SReady (now : Z)
| SRead (now : Z) (docs : list (string * Responder.t))
| SDone (res : Error + Z).

Definition sweep_step (t : sweep_thread) (db : DB) : sweep_thread * DB :=
  match t with
  | SReady now => (SRead now (sweep_read db), db)
  | SRead now docs => let '(r, db') := sweep_write now docs db in (SDone r, db')
  | SDone r => (SDone r, db)
  end.

(** A heartbeat call is one step: its read and its write are adjacent. *)
Inductive heartbeat_thread :=
| HReady (now : Z) (req : HeartbeatRequest)
| HDone (res : Error + unit).

Definition heartbeat_step (t : heartbeat_thread) (db : DB) : heartbeat_thread * DB :=
  match t with
  | HReady now req => let '(r, db') := updateResponderHeartbeat now req db in (HDone r, db')
  | HDone r => (HDone r, db)
  end.

(** ** The phases compose to the handlers *)

Section AssignProofs.
Context `{Metric D}.

Lemma assign_phases eloc reportId db :
  assignNearestResponder eloc reportId db = assign_write reportId (assign_read eloc db) db.
Proof.
  unfold assignNearestResponder, assign_read. handler_unfold. cbn [st_get].
  case_bool_decide; [done |]. by destruct (nearest_scan _ _) as [[id r]|].
Qed.

Lemma assign_read_in eloc db id r :
  assign_read eloc db = Some (id, r) ->
  responders db !! id = Some r /\ Responder.status r = Responder.active.
Proof.
  unfold assign_read. case_bool_decide; [done |].
  intros Hs. apply nearest_scan_in, elem_of_active_docs in Hs. done.
Qed.

(** The write uses the document as it is now, not the snapshot's copy [r0]. *)
Lemma assign_write_some reportId db id r0 r :
  responders db !! id = Some r ->
  assign_write reportId (Some (id, r0)) db =
  (inr (Some id), set_responders (<[id:=set_busy reportId r]> (responders db)) db).
Proof. intros Hr. unfold assign_write. handler_unfold. by rewrite Hr. Qed.

Lemma assign_write_none reportId db : assign_write reportId None db = (inr None, db).
Proof. reflexivity. Qed.

(** A responder the first assignment made busy is not in the second's snapshot. *)
Lemma assign_read_after_busy eloc reportId db id r :
  responders db !! id = Some r ->
  forall r', assign_read eloc (set_responders (<[id:=set_busy reportId r]> (responders db)) db)
             <> Some (id, r').
Proof.
  intros Hr r' Hs. apply assign_read_in in Hs as [Hl Hact]. simpl in Hl.
  rewrite lookup_insert_eq in Hl. injection Hl as <-. done.
Qed.

End AssignProofs.

(** ** The sweep's write on a registry that changed since its read *)

Lemma sweep_phases now db :
  markInactiveResponders now db = sweep_write now (sweep_read db) db.
Proof. reflexivity. Qed.

(** Each stale entry of the snapshot is demoted from the responder's
    current document, whatever the snapshot held. *)
Definition sweep_effect (now cutoff : Z) (docs : list (string * Responder.t))
    (m : gmap string Responder.t) : gmap string Responder.t :=
  foldl (fun m p => if is_stale cutoff p.2 then alter (set_inactive now) p.1 m else m) m docs.

Lemma sweep_docs_current now cutoff docs : forall count db,
  Forall (fun p => is_Some (responders db !! p.1)) docs ->
  exists c, sweep_docs now cutoff count docs db =
    (inr c, set_responders (sweep_effect now cutoff docs (responders db)) db).
Proof.
  induction docs as [|[id r] docs IH]; intros count db Hall; simpl.
  - exists count. by destruct db.
  - apply Forall_cons in Hall as [[v Hv] Hall]. unfold sweep_doc. simpl.
    destruct (is_stale cutoff r).
    + handler_unfold. rewrite Hv.
      destruct (IH (count + 1) (set_responders (<[id:=set_inactive now v]> (responders db)) db))
        as [c Hc].
      { eapply Forall_impl; [exact Hall |]. intros p Hp. simpl.
        rewrite <- (alter_lookup_Some (set_inactive now) _ _ _ Hv).
        by apply lookup_alter_is_Some. }
      exists c. rewrite Hc. simpl. by rewrite (alter_lookup_Some _ _ _ _ Hv).
    + handler_unfold. apply IH, Hall.
Qed.

Lemma sweep_effect_notin now cutoff docs : forall m i,
  i ∉ docs.*1 -> sweep_effect now cutoff docs m !! i = m !! i.
Proof.
  induction docs as [|[id r] docs IH]; intros m i Hi; [done |].
  simpl in *. apply not_elem_of_cons in Hi as [Hne Hi].
  rewrite IH by done. case_match; [by rewrite lookup_alter_ne | done].
Qed.

Lemma sweep_effect_in now cutoff docs : forall m i r,
  NoDup docs.*1 -> (i, r) ∈ docs ->
  sweep_effect now cutoff docs m !! i =
    if is_stale cutoff r then set_inactive now <$> m !! i else m !! i.
Proof.
  induction docs as [|[id r0] docs IH]; intros m i r Hnd Hin; [set_solver |].
  simpl in *. apply NoDup_cons in Hnd as [Hnot Hnd].
  apply elem_of_cons in Hin as [Heq | Hin].
  - injection Heq as -> ->. rewrite sweep_effect_notin by done.
    case_match; [by rewrite lookup_alter_eq | done].
  - assert (i <> id) by (intros ->; apply Hnot, (list_elem_of_fmap_2 fst _ (_, r) Hin)).
    rewrite (IH _ _ r Hnd Hin). destruct (is_stale cutoff r0); [by rewrite lookup_alter_ne | done].
Qed.

(** ** Schedules *)

Lemma interleave_swap {T U} (step1 : T -> DB -> T * DB) (step2 : U -> DB -> U * DB) s :
  forall t u db,
  interleave step2 step1 (map negb s) u t db =
  let '(t', u', db') := interleave step1 step2 s t u db in (u', t', db').
Proof.
  induction s as [|[] s IH]; intros t u db; simpl; [done | |].
  - destruct (step1 t db). apply IH.
  - destruct (step2 u db). apply IH.
Qed.

(** Both threads returned the same responder. *)
Definition double_assigned (t u : assign_thread) : Prop :=
  exists id, t = ADone (inr (Some id)) /\ u = ADone (inr (Some id)).

Section AssignRaces.
Context `{Metric D}.

Lemma serial_no_double eloc1 rep1 eloc2 rep2 db :
  let '(t, u, _) := assign_race [true; true; false; false] eloc1 rep1 eloc2 rep2 db in
  ~ double_assigned t u.
Proof.
  unfold assign_race. cbn [interleave assign_step].
  destruct (assign_read eloc1 db) as [[id r]|] eqn:E1;
    [| rewrite assign_write_none; cbn [interleave assign_step];
       destruct (assign_write rep2 _ _); intros (x & Hx & _); discriminate].
  destruct (assign_read_in _ _ _ _ E1) as [Hr _].
  rewrite (assign_write_some rep1 db id r r Hr). cbn [interleave assign_step].
  destruct (assign_read eloc2 _) as [[id2 r2]|] eqn:E2;
    [| rewrite assign_write_none; intros (x & _ & Hx); discriminate].
  destruct (assign_read_in _ _ _ _ E2) as [Hr2 _].
  rewrite (assign_write_some _ _ _ _ _ Hr2).
  intros (x & Hx1 & Hx2). injection Hx1 as <-. injection Hx2 as ->.
  exact (assign_read_after_busy eloc2 rep1 db id r Hr r2 E2).
Qed.

(** two assignments run one after the other, in either order, never
    return the same responder: the first one's [busy] write takes the
    responder out of the second one's snapshot. *)
Theorem assign_serial_distinct sched eloc1 rep1 eloc2 rep2 db :
  sched = [true; true; false; false] \/ sched = [false; false; true; true] ->
  let '(t, u, _) := assign_race sched eloc1 rep1 eloc2 rep2 db in ~ double_assigned t u.
Proof.
  intros [-> | ->]; [apply serial_no_double |].
  pose proof (serial_no_double eloc2 rep2 eloc1 rep1 db) as Hs. unfold assign_race in *.
  change [false; false; true; true] with (map negb [true; true; false; false]).
  rewrite interleave_swap. destruct (interleave _ _ _ _ _ db) as [[t u] db'].
  intros (x & Hu & Ht). apply Hs. by exists x.
Qed.

(** C3: specification section 9, double assignment: when both reads run
    before either write and both snapshots choose the same responder, both
    calls return it; the responder ends busy with the second report only,
    while the first report's alert also names it. *)
Theorem assign_race_double eloc1 rep1 eloc2 rep2 db id r r' :
  assign_read eloc1 db = Some (id, r) -> assign_read eloc2 db = Some (id, r') ->
  exists db', assign_race [true; false; true; false] eloc1 rep1 eloc2 rep2 db =
    (ADone (inr (Some id)), ADone (inr (Some id)), db') /\
    responders db' !! id = Some (set_busy rep2 (set_busy rep1 r)).
Proof.
  intros E1 E2. destruct (assign_read_in _ _ _ _ E1) as [Hr _].
  unfold assign_race. cbn [interleave assign_step]. rewrite E1, E2.
  rewrite (assign_write_some rep1 db id r r Hr). cbn [interleave assign_step].
  rewrite (assign_write_some rep2 _ id r' (set_busy rep1 r)) by (simpl; apply lookup_insert_eq).
  eexists. split; [reflexivity |]. simpl. by rewrite lookup_insert_eq.
Qed.
End AssignRaces.

(** ** The sweep against a heartbeat *)

(** The sweep's write on a registry with the same documents as its
    snapshot's registry, possibly changed. *)
Lemma sweep_write_current now db db1 :
  (forall id, is_Some (responders db !! id) -> is_Some (responders db1 !! id)) ->
  exists c, sweep_write now (sweep_read db) db1 =
    (inr c, set_responders (sweep_effect now (now - heartbeatTimeout) (sweep_read db)
                              (responders db1)) db1).
Proof.
  intros Hkeys. destruct (sweep_docs_current now (now - heartbeatTimeout) (sweep_read db) 0 db1)
    as [c Hc].
  - apply Forall_forall. intros [id r] Hin. simpl. apply Hkeys.
    apply elem_of_active_docs in Hin as [Hr _]. by rewrite Hr.
  - exists c. unfold sweep_write, st_catch. by rewrite Hc.
Qed.

(** The sweep's effect on one responder of its snapshot. *)
Lemma sweep_effect_snapshot now db m uid r :
  responders db !! uid = Some r -> Responder.status r = Responder.active ->
  sweep_effect now (now - heartbeatTimeout) (sweep_read db) m !! uid =
    if is_stale (now - heartbeatTimeout) r then set_inactive now <$> m !! uid else m !! uid.
Proof.
  intros Hr Hact. apply sweep_effect_in; [apply active_docs_NoDup |].
  by apply elem_of_active_docs.
Qed.

Lemma heartbeat_keys now uid loc db r :
  responders db !! uid = Some r ->
  forall id, is_Some (responders db !! id) ->
  is_Some (<[uid:=heartbeat_update now loc r]> (responders db) !! id).
Proof.
  intros Hr id Hid. destruct (decide (uid = id)) as [<-|Hne];
    [by rewrite lookup_insert_eq | by rewrite lookup_insert_ne].
Qed.

(** C28: a heartbeat that lands between the sweep's read and its write is
    lost: the sweep demotes the responder from its stale snapshot, so the
    responder ends [inactive] with the fresh heartbeat recorded, out of
    the Assigner's pool.  Run the other way round (heartbeat, then the
    sweep), the responder stays active. *)
Theorem sweep_loses_heartbeat now now' uid loc db r :
  uid <> "" -> responders db !! uid = Some r -> Responder.status r = Responder.active ->
  is_stale (now - heartbeatTimeout) r = true -> now - heartbeatTimeout <= now' ->
  (exists c db', interleave sweep_step heartbeat_step [true; false; true]
      (SReady now) (HReady now' (mkHeartbeatRequest (Some uid) loc)) db =
      (SDone (inr c), HDone (inr tt), db') /\
    exists r', responders db' !! uid = Some r' /\
      Responder.status r' = Responder.inactive /\ Responder.lastHeartbeat r' = Some now') /\
  (exists c db', interleave sweep_step heartbeat_step [false; true; true]
      (SReady now) (HReady now' (mkHeartbeatRequest (Some uid) loc)) db =
      (SDone (inr c), HDone (inr tt), db') /\
    exists r', responders db' !! uid = Some r' /\
      Responder.status r' = Responder.active /\ Responder.lastHeartbeat r' = Some now').
Proof.
  intros Huid Hr Hact Hstale Hnow.
  pose proof (updateResponderHeartbeat_ok now' uid loc db r Huid Hr) as Hhb. split.
  - cbn [interleave sweep_step heartbeat_step]. rewrite Hhb.
    destruct (sweep_write_current now db
                (set_responders (<[uid:=heartbeat_update now' loc r]> (responders db)) db)
                (heartbeat_keys now' uid loc db r Hr)) as [c Hc].
    cbn [interleave sweep_step]. rewrite Hc. do 2 eexists. split; [reflexivity |].
    eexists. simpl. rewrite (sweep_effect_snapshot _ _ _ _ _ Hr Hact), Hstale, lookup_insert_eq.
    by split.
  - cbn [interleave sweep_step heartbeat_step]. rewrite Hhb. cbn [interleave sweep_step].
    remember (set_responders (<[uid:=heartbeat_update now' loc r]> (responders db)) db) as db1.
    assert (Hr1 : responders db1 !! uid = Some (heartbeat_update now' loc r))
      by (subst db1; simpl; apply lookup_insert_eq).
    destruct (sweep_write_current now db1 db1 (fun _ H => H)) as [c Hc]. rewrite Hc.
    do 2 eexists. split; [reflexivity |]. eexists. cbn [responders set_responders].
    rewrite (sweep_effect_snapshot _ _ _ _ _ Hr1 eq_refl), Hr1.
    unfold is_stale, last_seen. simpl. rewrite (proj2 (Z.ltb_ge _ _) Hnow). by split.
Qed.

(** ** Witnesses: two reports at the same place; a responder four minutes
    silent whose heartbeat arrives during the sweep *)

Definition race_r1 : Responder.t := scenario_responder (Some (mkLatLng 0%Q 5%Q)).

Lemma assign_serial_distinct_witness :
  let '(t, u, _) := @assign_race _ grid_metric [false; false; true; true]
                      scenario_report_location "rep1" scenario_report_location "rep2"
                      scenario_db in
  ~ double_assigned t u.
Proof.
  apply (@assign_serial_distinct _ grid_metric). by right.
Defined.

Lemma assign_race_double_witness :
  exists db', @assign_race _ grid_metric [true; false; true; false]
                scenario_report_location "rep1" scenario_report_location "rep2" scenario_db =
    (ADone (inr (Some "r1")), ADone (inr (Some "r1")), db') /\
    responders db' !! "r1" = Some (set_busy "rep2" (set_busy "rep1" race_r1)).
Proof.
  apply (@assign_race_double _ grid_metric _ _ _ _ _ "r1" race_r1 race_r1);
    vm_compute; reflexivity.
Defined.

Lemma sweep_loses_heartbeat_witness :
  exists c db', interleave sweep_step heartbeat_step [true; false; true]
      (SReady 1000000) (HReady 1000000 (mkHeartbeatRequest (Some "r1") None)) liveness_db =
      (SDone (inr c), HDone (inr tt), db') /\
    exists r', responders db' !! "r1" = Some r' /\
      Responder.status r' = Responder.inactive /\ Responder.lastHeartbeat r' = Some 1000000.
Proof.
  apply (sweep_loses_heartbeat 1000000 1000000 "r1" None liveness_db
           (liveness_responder (1000000 - 240000)));
    [done | reflexivity | reflexivity | reflexivity | unfold heartbeatTimeout; lia].
Defined.
