(* ===== verification/Callable.v ===== *)
(** * Callable: the [onCall] exports of index.js and the client's [reportEmergency]

    Every handler of index.js is exported through Firebase's [onCall]
    (lines 96-115, 116-118, 275-276, 307-308).  [onCall] hands the client
    the code and message of an [HttpsError] the handler throws, and
    replaces any other error by [internal] with the message ["INTERNAL"].
    The OTP handlers throw [HttpsError]s; the handlers of index.js catch
    their errors and rethrow them as plain [Error]s ([rethrow]), so their
    clients only ever see ["INTERNAL"].

    [reportEmergency] (utils/reportemergency.js) is the client of
    [createEmergencyReport]: it checks the same three required fields,
    fills the same defaults and calls the export.  Its check coincides
    with the server's, so the server's validation error is unreachable
    through it, and its defaults make the push message and the medical
    sync agree with the stored report. *)

From S2P Require Import Prelude Geo Store Registry Assigner Intake Lifecycle Otp.
From Stdlib Require Import QArith_base.
Local Close Scope Q_scope.

(** ** [onCall] *)

(** What the client of a callable function receives on an error. *)
Definition onCall {A} (m : M A) : M A :=
  st_catch m (fun e => match e with
                       | HttpsError c msg => st_throw (HttpsError c msg)
                       | _ => st_throw (HttpsError internal "INTERNAL")
                       end).

(** [exports.sendOtp = onCall(..., (request) => loadHandlers().sendOtp(request))] *)
Definition sendOtp_call (clock : option Z) (u : Q) (mail : MailOutcome)
    (req : SendOtpRequest) : M string :=
  onCall (sendOtpHandler clock u mail req).

Definition verifyOtp_call (clock : option Z) (newUid : string) (req : VerifyOtpRequest) :
    M string :=
  onCall (verifyOtpHandler clock newUid req).

Definition createEmergencyReport_call `{Metric D} (now : Z) (reportId : string)
    (req : EmergencyRequest) : M string :=
  onCall (createEmergencyReport now reportId req).

Definition completeEmergency_call (now : Z) (req : CompleteRequest) : M unit :=
  onCall (completeEmergency now req).

Definition updateResponderHeartbeat_call (now : Z) (req : HeartbeatRequest) : M unit :=
  onCall (updateResponderHeartbeat now req).

(** ** [reportEmergency] (utils/reportemergency.js lines 12-41) *)

Definition requiredFields : list string := ["type"; "location"; "createdByUID"].

(** [!!reportData[key]] for the required keys. *)
Definition field_present (req : EmergencyRequest) (key : string) : bool :=
  if String.eqb key "type" then truthy_str (req_type req)
  else if String.eqb key "location" then bool_decide (is_Some (req_location req))
  else if String.eqb key "createdByUID" then truthy_str (req_createdByUID req)
  else false.

(** [requiredFields.filter((key) => !reportData[key])] *)
Definition missing_fields (req : EmergencyRequest) : list string :=
  List.filter (fun k => negb (field_present req k)) requiredFields.

(** [{ details: "", urgency: "medium", ..., ...reportData }]: a field the
    caller gives overrides the default.  (A key present with the value
    [undefined] would override it too; such a key is written [None] here,
    like an absent one.) *)
Definition prepareReport (req : EmergencyRequest) : EmergencyRequest :=
  mkEmergencyRequest (req_type req) (req_location req)
    (Some (default "" (req_details req))) (Some (default "medium" (req_urgency req)))
    (Some (default "chat" (req_contactMethod req))) (Some (default [] (req_additionalInfo req)))
    (req_createdByUID req) (Some (default "ANON" (req_displayCode req))) (req_notes req).

Definition reportEmergency `{Metric D} (now : Z) (reportId : string)
    (req : EmergencyRequest) : M string :=
  match missing_fields req with
  | [] => createEmergencyReport_call now reportId (prepareReport req)
  | missing => st_throw (JsError ("Missing required fields: " +:+ String.concat ", " missing))
  end.

(** ** Lemmas *)

Lemma onCall_ok {A} (m : M A) db a db' :
  m db = (inr a, db') -> onCall m db = (inr a, db').
Proof. intros H. unfold onCall, st_catch. by rewrite H. Qed.

Lemma onCall_plain_error {A} (m : M A) db msg db' :
  m db = (inl (JsError msg), db') ->
  onCall m db = (inl (HttpsError internal "INTERNAL"), db').
Proof. intros H. unfold onCall, st_catch. by rewrite H. Qed.

Lemma onCall_https_error {A} (m : M A) db c msg db' :
  m db = (inl (HttpsError c msg), db') -> onCall m db = (inl (HttpsError c msg), db').
Proof. intros H. unfold onCall, st_catch. by rewrite H. Qed.

Lemma onCall_error {A} (m : M A) db e db' :
  m db = (inl e, db') -> exists e', onCall m db = (inl e', db').
Proof. intros H. unfold onCall, st_catch. rewrite H. destruct e; by eexists. Qed.

(** Every call of the [sendOtp] export fails, and leaves the audit log,
    the accounts, the profiles and the push outbox as they were. *)
Lemma sendOtp_call_fails clock u mail req db :
  exists e db', sendOtp_call clock u mail req db = (inl e, db') /\
    auditLogs db' = auditLogs db /\ auth_users db' = auth_users db /\
    users db' = users db /\ outbox db' = outbox db.
Proof.
  destruct (sendOtpHandler_fails clock u mail req db) as (e & db' & H & Hf).
  destruct (onCall_error _ _ _ _ H) as [e' He']. by exists e', db'.
Qed.

Lemma truthy_str_spec o : truthy_str o = true <-> is_Some (str_val o).
Proof. unfold truthy_str. by rewrite bool_decide_eq_true. Qed.

(** The client's check is the server's [!type || !location || !createdByUID]. *)
Lemma missing_fields_nil req :
  missing_fields req = [] <->
  is_Some (str_val (req_type req)) /\ is_Some (req_location req) /\
  is_Some (str_val (req_createdByUID req)).
Proof.
  unfold missing_fields, requiredFields, field_present. simpl.
  destruct (truthy_str (req_type req)) eqn:Ht, (req_location req),
    (truthy_str (req_createdByUID req)) eqn:Hc; simpl;
    rewrite <- ?truthy_str_spec, ?Ht, ?Hc; split; intros; naive_solver.
Qed.

(** ** Properties *)

Section Client.
Context `{Metric D}.

(** C25: the client either refuses a report locally, naming the missing
    required fields in order and calling nothing, or calls
    [createEmergencyReport], which then always succeeds with the report's
    id: the server's own validation error cannot be reached through it. *)
Theorem reportEmergency_total now reportId req db :
  (missing_fields req <> [] /\
   reportEmergency now reportId req db =
     (inl (JsError ("Missing required fields: " +:+ String.concat ", " (missing_fields req))), db)) \/
  (missing_fields req = [] /\
   exists db', reportEmergency now reportId req db = (inr reportId, db')).
Proof.
  destruct (missing_fields req) as [|k ks] eqn:Hm.
  - right. split; [done |].
    destruct (proj1 (missing_fields_nil req) Hm) as ([t Ht] & [l Hl] & [c Hc]).
    destruct (createEmergencyReport_valid now reportId (prepareReport req) t l c db Ht Hl Hc)
      as [db' Hrun].
    exists db'. unfold reportEmergency. rewrite Hm. by apply onCall_ok.
  - left. split; [done |]. unfold reportEmergency. by rewrite Hm.
Qed.

(** C31: what a client sees of a refused request: [createEmergencyReport]
    rethrows its validation error as a plain [Error], so the client gets
    [internal] with the message ["INTERNAL"]; [sendOtp] throws an
    [HttpsError], which reaches the client with its code and message.  The
    specification says validation errors are surfaced verbatim. *)
Theorem onCall_masks_errors now reportId req clock u mail e ip db :
  (str_val (req_type req) = None \/ req_location req = None \/
   str_val (req_createdByUID req) = None) ->
  (forall s, str_val e = Some s -> ends_with student_domain s = false) ->
  createEmergencyReport_call now reportId req db =
    (inl (HttpsError internal "INTERNAL"), db) /\
  sendOtp_call clock u mail (mkSendOtpRequest e ip) db =
    (inl (HttpsError invalid_argument "Invalid student email."), db).
Proof.
  intros Hreq He. split.
  - apply (onCall_plain_error _ _ "Missing required emergency fields."),
      createEmergencyReport_invalid, Hreq.
  - apply onCall_https_error, (otp_request_validation clock u mail ip e None None "" db He).
Qed.
End Client.

(** C7: the [sendOtp] export never serves a request: every call, on every
    input, clock, random draw, mail set-up and database, answers with an
    error and leaves the audit log, the accounts, the profiles and the
    push outbox as they were.  A request that passes the domain, rate and
    lockout checks with the mail service configured stores its new
    challenge and answers [internal]/["INTERNAL"]: [sendEmail] reads
    [sender] outside the block that declared it, and [onCall] masks the
    [ReferenceError].  The specification has the code mailed. *)
Theorem sendOtp_never_served clock u mail req db :
  (exists e db', sendOtp_call clock u mail req db = (inl e, db') /\
     auditLogs db' = auditLogs db /\ auth_users db' = auth_users db /\
     users db' = users db /\ outbox db' = outbox db) /\
  (forall now email ip, clock = Some now -> req = mkSendOtpRequest (Some email) ip ->
     email <> "" -> ends_with student_domain email = true ->
     ~ (MAX_ATTEMPTS_PER_HOUR < rate_attempts (now - hour) (rateLimits db !! email))%Z ->
     locked now (failedAttempts db !! email) = false -> mail <> mail_config_missing ->
     exists db', sendOtp_call clock u mail req db = (inl (HttpsError internal "INTERNAL"), db') /\
       otps db' !! email = Some (issued now u ip)).
Proof.
  split; [apply sendOtp_call_fails |].
  intros now email ip -> -> He Hd Hr Hl Hm.
  destruct (sendOtp_stored now u mail ip email db He Hd Hr Hl) as (db' & E & _ & O & _).
  exists db'. rewrite O, lookup_insert_eq. split; [| done].
  apply (onCall_plain_error _ _ "sender is not defined"). by destruct mail.
Qed.

(** the client's defaults change nothing in the stored report or
    alert, but they fix the two copies that disagree on the server: with
    no urgency the push message says "medium priority", and with no
    contact method the medical sync says "chat" like the stored report. *)
Theorem reportEmergency_defaults now reportId type location createdByUID assigned req :
  newReport now type location createdByUID (prepareReport req) =
    newReport now type location createdByUID req /\
  newAlert now reportId type location createdByUID (prepareReport req) assigned =
    newAlert now reportId type location createdByUID req assigned /\
  (req_urgency req = None ->
   push_body type (prepareReport req) location =
     to_upper type +:+ " - medium priority at " +:+ str_or (readableAddress location) "Nearby") /\
  (req_contactMethod req = None ->
   contact_method (medicalSyncData reportId location createdByUID (prepareReport req)) =
     Report.contactMethod (newReport now type location createdByUID req)).
Proof.
  unfold newReport, newAlert, prepareReport, push_body, medicalSyncData, str_or. cbn.
  destruct req as [t l d u c a cr dc n]; cbn.
  split_and!; [| | by intros -> | by intros ->];
    f_equal; by destruct d as [[]|], u as [[]|], c as [[]|], a, dc as [[]|].
Qed.

(** ** Witness: an untyped report, and a Gmail address *)

Lemma sendOtp_never_served_witness :
  exists db', sendOtp_call (Some 0%Z) 0%Q mail_sent (mkSendOtpRequest (Some otp_email) None)
                empty_db = (inl (HttpsError internal "INTERNAL"), db') /\
    otps db' !! otp_email = Some (issued 0 0 None).
Proof.
  apply (proj2 (sendOtp_never_served (Some 0%Z) 0%Q mail_sent
                  (mkSendOtpRequest (Some otp_email) None) empty_db) 0%Z otp_email None);
    [reflexivity.. | vm_compute; discriminate | reflexivity | cbv; discriminate
    | reflexivity | discriminate].
Defined.

Lemma onCall_masks_errors_witness :
  @createEmergencyReport_call Z grid_metric 1000 "rep0" untyped_request scenario_db =
    (inl (HttpsError internal "INTERNAL"), scenario_db) /\
  sendOtp_call (Some 0%Z) 0%Q mail_sent (mkSendOtpRequest (Some "ada@gmail.com") None) scenario_db =
    (inl (HttpsError invalid_argument "Invalid student email."), scenario_db).
Proof.
  apply (@onCall_masks_errors Z grid_metric); [by left |].
  intros s Hs. injection Hs as <-. reflexivity.
Defined.
