(* ===== verification/Dashboard.v ===== *)
(** * Dashboard: the responder's screens (Screens/Responders/dashboard.js, incomingalert.js)

    The dashboard is a client state machine: its React state and refs
    ([isActive], the two interval handles, [lastLocation], the screen
    shown) form [Dash], and each callback the runtime fires is an event
    handled by [dash_step]: the on/off toggle ([toggleActive] with
    [startLiveLocationTracking], [startHeartbeat], [sendExpoPushToken] and
    [stopLiveLocationTracking]), a tick of the 60 s location interval, a
    tick of the 30 s heartbeat interval (which calls the server's
    [updateResponderHeartbeat] export), a snapshot of the pending-alert
    listener (which resets the navigation to the incoming-alert screen and
    shows a local notification), and the unmount cleanup; [dash_view] is
    the status bar and the toggle's label.  Firestore writes go through the [M] monad of Store; the
    signed-in uid and the device's answers (location permission, push
    token, position fix) are arguments.  The platform is a phone (not the
    web build).

    The incoming-alert list ([alerts_snapshot], incomingalert.js lines
    65-95) appends the documents a snapshot reports as added and never
    removes one. *)

From S2P Require Import Prelude Geo Store Registry Lifecycle Liveness Callable.
From Stdlib Require Import Reals Lra QArith_base.
Local Close Scope Q_scope.
Local Close Scope R_scope.
Local Open Scope Z_scope.

(** ** State and events *)

(** The route the dashboard shows.  [IncomingEmergency] carries the
    route's [params]: [alertId] and [alertData], the alert document's
    data with the object's own [id] property ([None]: [data()] has none). *)
Inductive Screen :=
| OnDashboard
| IncomingEmergency (alertId : string) (alertData : option string * Alert.t).

Record Dash := mkDash {
  isActive : bool;
  locationTimer : bool;   (** [locationInterval.current] is set *)
  heartbeatTimer : bool;  (** [heartbeatInterval.current] is set *)
  lastLocation : option LatLng;
  screen : Screen;
  notified : list (string * string)   (** local notifications shown (title, body) *)
}.

Definition dash_init : Dash := mkDash false false false None OnDashboard [].

Inductive DashEvent :=
| Toggle (now : Z) (permission : bool) (token : option string)
| LocationTick (pos : LatLng)
| HeartbeatTick (now : Z)
| AlertsSnapshot
| Unmount.   (** the cleanup effect (lines 204-209) clears both intervals *)

Definition set_isActive b '(mkDash _ lt ht ll sc nt) := mkDash b lt ht ll sc nt.
Definition set_locationTimer b '(mkDash a _ ht ll sc nt) := mkDash a b ht ll sc nt.
Definition set_heartbeatTimer b '(mkDash a lt _ ll sc nt) := mkDash a lt b ll sc nt.
Definition set_lastLocation l '(mkDash a lt ht _ sc nt) := mkDash a lt ht l sc nt.
Definition set_screen s '(mkDash a lt ht ll _ nt) := mkDash a lt ht ll s nt.
Definition notify n '(mkDash a lt ht ll sc nt) := mkDash a lt ht ll sc (nt ++ [n]).

(** ** The callbacks (dashboard.js) *)

Section Callbacks.
Variable uid : option string.  (** [auth.currentUser?.uid] *)

(** [sendExpoPushToken] (lines 37-59); its errors are caught. *)
Definition sendExpoPushToken (token : option string) : M unit :=
  st_catch
    (match str_val uid, str_val token with
     | Some u, Some t => doc_update responders_c u (set_push_token t)
     | _, _ => st_return tt
     end)
    (fun _ => st_return tt).

(** [startHeartbeat] (lines 64-86): the interval is set when signed in. *)
Definition startHeartbeat (d : Dash) : Dash :=
  if truthy_str uid then set_heartbeatTimer true d else d.

(** [startLiveLocationTracking] (lines 108-152): without the permission
    it only shows an alert; the interval starts after the awaited
    [status: "active"] write, and a failed write skips it. *)
Definition startLiveLocationTracking (now : Z) (permission : bool) (d : Dash) : M Dash :=
  if negb permission then mret d
  else match str_val uid with
       | None => mret d
       | Some u => st_catch (_ ← doc_update responders_c u (set_active now);
                             mret (set_locationTimer true d))
                            (fun _ => mret d)
       end.

(** [stopLiveLocationTracking] (lines 154-171) *)
Definition stopLiveLocationTracking (now : Z) (d : Dash) : M Dash :=
  match str_val uid with
  | None => mret d
  | Some u =>
      let d' := set_heartbeatTimer false (set_locationTimer false d) in
      st_catch (_ ← doc_update responders_c u (set_inactive now); mret d')
               (fun _ => mret d')
  end.

(** [toggleActive] (lines 176-200).  The final [updateDoc] is awaited
    without a catch: when it fails the promise rejects, and the state set
    before it stays. *)
Definition toggleActive (now : Z) (permission : bool) (token : option string)
    (d : Dash) : M Dash :=
  match str_val uid with
  | None => mret d
  | Some u =>
      if negb (isActive d) then
        d1 ← startLiveLocationTracking now permission (set_isActive true d);
        let d2 := startHeartbeat d1 in
        _ ← sendExpoPushToken token;
        _ ← st_catch (doc_update responders_c u (set_active now)) (fun _ => st_return tt);
        mret d2
      else
        d1 ← stopLiveLocationTracking now (set_isActive false d);
        _ ← st_catch (doc_update responders_c u (set_inactive now)) (fun _ => st_return tt);
        mret d1
  end.

(** The screen's own copy of the haversine distance (lines 90-102), on
    [{lat, lng}] objects. *)
Definition dash_getDistance (loc1 loc2 : LatLng) : R :=
  let dLat := toRad (Q2R (lat loc2) - Q2R (lat loc1)) in
  let dLon := toRad (Q2R (lng loc2) - Q2R (lng loc1)) in
  let a := (sin (dLat / 2) ^ 2 +
            cos (toRad (Q2R (lat loc1))) * cos (toRad (Q2R (lat loc2))) * sin (dLon / 2) ^ 2)%R in
  let c := (2 * atan2 (sqrt a) (sqrt (1 - a)))%R in
  (6371000 * c)%R.

(** The 60 s location callback (lines 127-148): the fix replaces
    [lastLocation] when there is none or it moved more than 15 m. *)
Definition locationTick (pos : LatLng) (d : Dash) : Dash :=
  if locationTimer d then
    match lastLocation d with
    | Some last => if Rltb 15 (dash_getDistance last pos) then set_lastLocation (Some pos) d else d
    | None => set_lastLocation (Some pos) d
    end
  else d.

(** [lastLocation.current?.lat && lastLocation.current?.lng ? {...} : null] *)
Definition heartbeat_location (d : Dash) : option LatLng :=
  match lastLocation d with
  | Some l => if q_truthy (lat l) && q_truthy (lng l) then Some l else None
  | None => None
  end.

(** The 30 s heartbeat callback (lines 73-85); its errors are caught. *)
Definition heartbeatTick (now : Z) (d : Dash) : M unit :=
  if heartbeatTimer d then
    st_catch (updateResponderHeartbeat_call now
                (mkHeartbeatRequest uid (heartbeat_location d)))
             (fun _ => st_return tt)
  else st_return tt.

(** The pending alerts of [uid], in the listener's (document id) order. *)
Definition pending_alerts (u : string) (db : DB) : list (string * Alert.t) :=
  sort_by_id (filter (fun p => Alert.assignedResponder p.2 = Some u /\
                               Alert.status p.2 = Alert.pending)
                (map_to_list (responders_alerts db))).

(** The local notification of lines 238-249:
    [`${data.type || "Emergency"} - ${data.location?.readableAddress || "Nearby"}`]. *)
Definition alert_notification (a : Alert.t) : string * string :=
  ("New Emergency Alert",
   str_or (Some (Alert.type a)) "Emergency" +:+ " - " +:+
   str_or (readableAddress (Alert.location a)) "Nearby").

(** The listener (lines 215-259), subscribed while signed in and active:
    a non-empty snapshot resets the navigation to the first alert, with
    [{alertId: data.emergencyId || alertDoc.id, alertData: data}], and
    shows a local notification (the platform is not the web). *)
Definition alertsSnapshot (d : Dash) : M Dash :=
  db ← st_get;
  match str_val uid with
  | Some u =>
      if isActive d then
        match pending_alerts u db with
        | (id, a) :: _ =>
            mret (notify (alert_notification a)
                    (set_screen (IncomingEmergency (str_or (Alert.emergencyId a) id) (None, a)) d))
        | [] => mret d
        end
      else mret d
  | None => mret d
  end.

Definition dash_step (ev : DashEvent) (d : Dash) : M Dash :=
  match ev with
  | Toggle now permission token => toggleActive now permission token d
  | LocationTick pos => mret (locationTick pos d)
  | HeartbeatTick now => _ ← heartbeatTick now d; mret d
  | AlertsSnapshot => alertsSnapshot d
  | Unmount => mret (set_heartbeatTimer false (set_locationTimer false d))
  end.

End Callbacks.

(** The status bar and the toggle button (lines 272-293). *)
Record DashView := mkDashView {
  dotActive : bool;      (** the dot is green *)
  statusText : string;
  toggleText : string
}.

Definition dash_view (d : Dash) : DashView :=
  mkDashView (isActive d) (if isActive d then "Active" else "Inactive")
    (if isActive d then "On Duty" else "Go Active").

(** ** The incoming-alert list (incomingalert.js lines 65-95) *)

(** The list shown and the ids of the listener's last snapshot. *)
Record AlertList := mkAlertList {
  shown : list (string * Alert.t);
  last_ids : list string
}.

(** [snapshot.docChanges()] of type ["added"] are appended; the other
    changes are ignored. *)
Definition alerts_snapshot (u : string) (l : AlertList) : M AlertList :=
  db ← st_get;
  let docs := pending_alerts u db in
  mret (mkAlertList (shown l ++ filter (fun p => p.1 ∉ last_ids l) docs) docs.*1).

(** ** Lemmas *)

(** The two copies of the haversine formula agree. *)
Lemma dash_getDistance_distance p q : dash_getDistance p q = distance p q.
Proof. reflexivity. Qed.

Lemma heartbeatTick_run u now d db r :
  u <> "" -> heartbeatTimer d = true -> responders db !! u = Some r ->
  heartbeatTick (Some u) now d db =
  (inr tt, set_responders (<[u:=heartbeat_update now (heartbeat_location d) r]>
                             (responders db)) db).
Proof.
  intros Hu Ht Hr. unfold heartbeatTick, updateResponderHeartbeat_call. rewrite Ht.
  unfold st_catch. by rewrite (onCall_ok _ _ _ _ (updateResponderHeartbeat_ok _ _ _ _ _ Hu Hr)).
Qed.

(** A responder whose heartbeat is at [t] survives a sweep at [now] when
    [now - 3 min <= t]. *)
Lemma demote_recent now t r :
  Responder.lastHeartbeat r = Some t -> now - heartbeatTimeout <= t ->
  demote now (now - heartbeatTimeout) r = r.
Proof.
  intros Ht Hle. unfold demote, is_stale, last_seen. rewrite Ht.
  rewrite (proj2 (Z.ltb_ge _ _) Hle), andb_false_r. done.
Qed.

(** The listener's callback on a non-empty snapshot: the route reset to
    the first pending alert, and its local notification. *)
Lemma alertsSnapshot_pending u d db id a rest :
  u <> "" -> isActive d = true -> pending_alerts u db = (id, a) :: rest ->
  alertsSnapshot (Some u) d db =
    (inr (notify (alert_notification a)
            (set_screen (IncomingEmergency (str_or (Alert.emergencyId a) id) (None, a)) d)), db).
Proof.
  intros Hu Ha Hp. unfold alertsSnapshot. handler_unfold.
  rewrite str_val_some by done. unfold st_get. cbn beta iota. by rewrite Ha, Hp.
Qed.

Lemma screen_notify_set_screen n sc d : screen (notify n (set_screen sc d)) = sc.
Proof. by destruct d. Qed.

Lemma pending_alerts_lookup u db id a :
  (id, a) ∈ pending_alerts u db ->
  responders_alerts db !! id = Some a /\ Alert.assignedResponder a = Some u /\
  Alert.status a = Alert.pending.
Proof.
  unfold pending_alerts. rewrite sort_by_id_perm.
  intros [[Hu Hs] Hin%elem_of_map_to_list]%list_elem_of_filter. done.
Qed.

Lemma alerts_snapshot_ensures u l : st_ensures (fun _ => True) (alerts_snapshot u l).
Proof. intros db. by eexists _, _. Qed.

Lemma alerts_snapshot_shown u l db :
  exists added, alerts_snapshot u l db = (inr (mkAlertList (shown l ++ added)
                                                 (pending_alerts u db).*1), db).
Proof. eexists. reflexivity. Qed.

(** ** Properties *)

(** C13: liveness of a signed-in dashboard: after a heartbeat tick at [t]
    (the interval fires every 30 s), a sweep at any [now <= t + 3 min]
    finds the responder active with its heartbeat at [t]; so as long as
    the calls get through, five heartbeats in a row may be lost before
    the sweep demotes the responder. *)
Theorem dashboard_heartbeat_liveness u t now d db r :
  u <> "" -> heartbeatTimer d = true -> responders db !! u = Some r ->
  now - heartbeatTimeout <= t ->
  let db1 := st_state (dash_step (Some u) (HeartbeatTick t) d) db in
  exists r', responders (st_state (markInactiveResponders now) db1) !! u = Some r' /\
    Responder.status r' = Responder.active /\ Responder.lastHeartbeat r' = Some t.
Proof.
  intros Hu Ht Hr Hle. unfold st_state, dash_step, mbind, st_mbind, st_bind.
  rewrite (heartbeatTick_run u t d db r Hu Ht Hr). cbn [snd].
  rewrite markInactiveResponders_state. simpl. rewrite lookup_fmap, lookup_insert_eq.
  exists (heartbeat_update t (heartbeat_location d) r). split; [| done].
  simpl. f_equal. by apply (demote_recent now t).
Qed.

(** the location a heartbeat carries is never more than 15 m from the
    last position fix: after a tick of the location interval, the stored
    [lastLocation] is the fix itself or within 15 m of it. *)
Theorem dashboard_location_within_15m pos d :
  locationTimer d = true ->
  exists l, lastLocation (locationTick pos d) = Some l /\ (distance l pos <= 15)%R.
Proof.
  intros Ht. unfold locationTick. rewrite Ht.
  destruct d as [a lt ht [last|] sc nt]; cbn [lastLocation]; rewrite ?dash_getDistance_distance.
  - destruct (Rltb 15 (distance last pos)) eqn:Hd; simpl.
    + exists pos. split; [done |]. rewrite distance_same. lra.
    + exists last. split; [done |].
      apply Rnot_lt_le. intros H. apply Rltb_spec in H. congruence.
  - exists pos. split; [done |]. rewrite distance_same. lra.
Qed.

(** C29: going on duty without the location permission still makes the
    responder active: the dashboard shows "Location Required" and starts
    no location interval, but it starts the heartbeat and writes
    [status: "active"], so the Assigner can choose the responder by the
    [currentLocation] left from an earlier session.  The screen reads
    "Active" and "On Duty", although the dialog said the permission is
    needed to go Active. *)
Theorem dashboard_permission_denied_active u now d db r :
  u <> "" -> isActive d = false -> responders db !! u = Some r ->
  exists db', dash_step (Some u) (Toggle now false None) d db =
    (inr (set_heartbeatTimer true (set_isActive true d)), db') /\
    responders db' !! u = Some (set_active now r) /\
    Responder.status (set_active now r) = Responder.active /\
    Responder.currentLocation (set_active now r) = Responder.currentLocation r /\
    locationTimer (set_heartbeatTimer true (set_isActive true d)) = locationTimer d /\
    dash_view (set_heartbeatTimer true (set_isActive true d)) = mkDashView true "Active" "On Duty".
Proof.
  intros Hu Ha Hr. unfold dash_step, toggleActive. rewrite str_val_some, Ha by done.
  unfold startLiveLocationTracking, startHeartbeat, sendExpoPushToken, truthy_str.
  rewrite str_val_some by done. rewrite bool_decide_eq_true_2 by done.
  handler_unfold. cbn. rewrite Hr. eexists. split; [reflexivity |].
  simpl. rewrite lookup_insert_eq. by destruct d.
Qed.

(** C37: the incoming-alert list keeps what it once showed: an alert
    shown as pending that the responder then accepts stays in the list,
    still pending, after the next snapshot, while its document says
    accepted. *)
Theorem alert_list_keeps_accepted u now id a r l db :
  (id, a) ∈ shown l -> Alert.status a = Alert.pending ->
  responders_alerts db !! id = Some a -> responders db !! u = Some r ->
  exists l' db',
    st_runs [_ ← handleAccept now u id; mret l; alerts_snapshot u l] db = ([inr l; inr l'], db') /\
    (id, a) ∈ shown l' /\
    fmap Alert.status (responders_alerts db' !! id) = Some Alert.accepted.
Proof.
  intros Hin Hp Ha Hr.
  assert (E1 : (_ ← handleAccept now u id; mret l) db =
               (inr l, set_responders (<[u:=busy_with id r]> (responders db))
                         (set_responders_alerts
                            (<[id:=accept_update now u a]> (responders_alerts db)) db))).
  { unfold mbind, st_mbind, st_bind. by rewrite (handleAccept_run now u id db a r Ha Hr). }
  destruct (alerts_snapshot_shown u l
              (set_responders (<[u:=busy_with id r]> (responders db))
                 (set_responders_alerts (<[id:=accept_update now u a]> (responders_alerts db)) db)))
    as [added E2].
  do 2 eexists. split.
  - rewrite (st_runs_cons_eq _ _ _ _ _ E1), (st_runs_cons_eq _ _ _ _ _ E2). reflexivity.
  - split; [apply elem_of_app; by left |]. simpl. by rewrite lookup_insert_eq.
Qed.

(** ** Witnesses: a responder that was last on duty at the origin *)

Definition dash_responder : Responder.t :=
  Responder.mk Responder.inactive (Some (Responder.mkCurrent (mkLatLng 8%Q 4%Q) 0)) None
    (Some 0) (Some 0) (Some 0) None None.

Definition dash_db : DB := set_responders {["resp1" := dash_responder]} empty_db.

Definition dash_on : Dash := mkDash true true true (Some (mkLatLng 8%Q 4%Q)) OnDashboard [].

Lemma dashboard_heartbeat_liveness_witness :
  let db1 := st_state (dash_step (Some "resp1") (HeartbeatTick 100000) dash_on) dash_db in
  exists r', responders (st_state (markInactiveResponders 200000) db1) !! "resp1" = Some r' /\
    Responder.status r' = Responder.active /\ Responder.lastHeartbeat r' = Some 100000.
Proof.
  apply (dashboard_heartbeat_liveness "resp1" 100000 200000 dash_on dash_db dash_responder);
    [done | reflexivity | reflexivity | unfold heartbeatTimeout; lia].
Defined.

Lemma dashboard_location_within_15m_witness :
  exists l, lastLocation (locationTick (mkLatLng 8%Q 5%Q) dash_on) = Some l /\
    (distance l (mkLatLng 8%Q 5%Q) <= 15)%R.
Proof. apply dashboard_location_within_15m. reflexivity. Defined.

Lemma dashboard_permission_denied_active_witness :
  exists db', dash_step (Some "resp1") (Toggle 5000 false None) dash_init dash_db =
    (inr (set_heartbeatTimer true (set_isActive true dash_init)), db') /\
    responders db' !! "resp1" = Some (set_active 5000 dash_responder) /\
    Responder.status (set_active 5000 dash_responder) = Responder.active /\
    Responder.currentLocation (set_active 5000 dash_responder) =
      Responder.currentLocation dash_responder /\
    dash_view (set_heartbeatTimer true (set_isActive true dash_init)) =
      mkDashView true "Active" "On Duty".
Proof.
  destruct (dashboard_permission_denied_active "resp1" 5000 dash_init dash_db dash_responder)
    as (db' & E & R & S & L & _ & V); [done | reflexivity | reflexivity |].
  exists db'. split_and!; [exact E | exact R | exact S | exact L | exact V].
Defined.

Lemma alert_list_keeps_accepted_witness :
  exists l' db',
    st_runs [_ ← handleAccept 2000 "r1" "rep1"; mret (mkAlertList [("rep1", scenario_alert)] ["rep1"]);
             alerts_snapshot "r1" (mkAlertList [("rep1", scenario_alert)] ["rep1"])] lifecycle_db =
      ([inr (mkAlertList [("rep1", scenario_alert)] ["rep1"]); inr l'], db') /\
    ("rep1", scenario_alert) ∈ shown l' /\
    fmap Alert.status (responders_alerts db' !! "rep1") = Some Alert.accepted.
Proof.
  apply (alert_list_keeps_accepted "r1" 2000 "rep1" scenario_alert scenario_busy);
    [by left | reflexivity | reflexivity | reflexivity].
Defined.
