(* ===== verification/Incoming.v ===== *)
(** * Incoming: the incoming-alert screen (Screens/Responders/incomingalert.js)

    The screen runs in one of two modes.  Opened with [alertData] or an
    [alertId] in its route parameters (lines 34-63) it shows that single
    alert, fetched from [responders_alerts] when only the id is given;
    otherwise it lists the signed-in responder's pending alerts through
    the listener of [Dashboard.alerts_snapshot] (lines 66-95).  Its Accept
    and Decline buttons run [Lifecycle.handleAccept] and
    [Lifecycle.handleDecline] on the id of the alert shown, then show a
    dialog, navigate, clear [processingId] and leave single mode
    (lines 97-141).  [renderAlert], [headerSubtitle] and [render_body]
    are what the screen draws (lines 149-275), with the host's date and
    number formatting as parameters.

    [Screen] is the component's state with the dialogs it raised and the
    navigation it requested.  The signed-in uid is a string here: the
    screen is reached only from the dashboard of a signed-in responder.
    The alert the dashboard passes in as [alertData] has no [id]; the
    theorems show what that does to the buttons and what the screen shows
    for the documents the deployed handler writes. *)

From S2P Require Import Prelude Store Registry Intake Lifecycle Dashboard.

Module Incoming.

(** [route.params]; the object passed as [alertData] may lack an [id]. *)
Record Params := mkParams {
  p_alertId : option string;
  p_alertData : option (option string * Alert.t)
}.

Inductive Nav := AlertDetails (alertId : string) | GoBack.

Record Screen := mkScreen {
  alerts : list (string * Alert.t);
  singleAlert : option (option string * Alert.t);
  loading : bool;
  processingId : option (option string);
  navs : list Nav;
  dialogs : list (string * string)
}.

Definition screen_init : Screen := mkScreen [] None true None [] [].

Definition set_single (x : option (option string * Alert.t)) (s : Screen) : Screen :=
  mkScreen (alerts s) x (loading s) (processingId s) (navs s) (dialogs s).
Definition set_loading (b : bool) (s : Screen) : Screen :=
  mkScreen (alerts s) (singleAlert s) b (processingId s) (navs s) (dialogs s).
Definition set_processing (x : option (option string)) (s : Screen) : Screen :=
  mkScreen (alerts s) (singleAlert s) (loading s) x (navs s) (dialogs s).
Definition navigate (n : Nav) (s : Screen) : Screen :=
  mkScreen (alerts s) (singleAlert s) (loading s) (processingId s) (navs s ++ [n]) (dialogs s).
Definition show (title msg : string) (s : Screen) : Screen :=
  mkScreen (alerts s) (singleAlert s) (loading s) (processingId s) (navs s)
    (dialogs s ++ [(title, msg)]).

(** The first effect (lines 34-63).  [getDoc] of a missing document
    resolves with [exists() = false]; its network errors are not
    modelled. *)
Definition load_params (p : Params) (s : Screen) : M Screen :=
  match p_alertData p with
  | Some data => mret (set_loading false (set_single (Some data) s))
  | None =>
      match str_val (p_alertId p) with
      | Some id =>
          snap ← doc_get alerts_c id;
          match snap with
          | Some a => mret (set_loading false (set_single (Some (Some id, a)) (set_loading true s)))
          | None => mret (set_loading false (navigate GoBack (show "Error" "Alert not found."
                                                              (set_loading true s))))
          end
      | None => mret s
      end
  end.

(** The second effect (line 67): the list listener is subscribed only
    without a single alert and with a signed-in user. *)
Definition list_subscribed (uid : option string) (s : Screen) : bool :=
  negb (bool_decide (is_Some (singleAlert s))) && truthy_str uid.

(** The [finally] of both handlers. *)
Definition finish (s : Screen) : Screen :=
  let s := set_processing None s in
  if bool_decide (is_Some (singleAlert s)) then set_single None s else s.

(** [handleAccept(alert.id)] (lines 97-122).  Without an id,
    [doc(db, "responders_alerts", undefined)] throws inside the [try]. *)
Definition screen_accept (now : Z) (uid : string) (id : option string) (s : Screen) :
    M Screen :=
  let s := set_processing (Some id) s in
  ok ← (match id with
        | Some i => handleAccept now uid i
        | None => mret false
        end : M bool);
  mret (finish (match id, ok with
                | Some i, true => navigate (AlertDetails i)
                                    (show "Accepted" "Emergency accepted. En route." s)
                | _, _ => show "Error" "Failed to accept alert." s
                end)).

(** [handleDecline(alert.id)] (lines 124-141) *)
Definition screen_decline (now : Z) (id : option string) (s : Screen) : M Screen :=
  let s := set_processing (Some id) s in
  ok ← (match id with
        | Some i => handleDecline now i
        | None => mret false
        end : M bool);
  mret (finish (if (ok : bool) then navigate GoBack
                             (show "Declined" "Alert declined. Returning to dashboard." s)
                else show "Error" "Failed to decline alert." s)).

(** Pressing Accept on the alert of single mode ([renderAlert(singleAlert)]). *)
Definition accept_shown (now : Z) (uid : string) (s : Screen) : M Screen :=
  match singleAlert s with
  | Some (id, _) => screen_accept now uid id s
  | None => mret s
  end.

(** Pressing Decline on the alert of single mode. *)
Definition decline_shown (now : Z) (s : Screen) : M Screen :=
  match singleAlert s with
  | Some (id, _) => screen_decline now id s
  | None => mret s
  end.

(** The [route.params] of the dashboard's navigation (dashboard.js
    lines 227-233) as this screen reads them. *)
Definition params_of (sc : Dashboard.Screen) : option Params :=
  match sc with
  | IncomingEmergency alertId alertData => Some (mkParams (Some alertId) (Some alertData))
  | OnDashboard => None
  end.

(** [handleCall] (lines 143-147): a dialog, no call. *)
Definition handleCall (s : Screen) : Screen :=
  show "Call" "Calling dispatcher... (Integrate tel: link)" s.

(** ** What the screen shows (lines 149-275) *)

(** [additionalInfo.<key>], a field of a free-form object. *)
Fixpoint info_get (k : string) (i : Info) : option string :=
  match i with
  | [] => None
  | (k', v) :: i' => if String.eqb k' k then Some v else info_get k i'
  end.

(** One alert as [renderAlert] draws it. *)
Record AlertView := mkAlertView {
  v_title : string;
  v_location : string;
  v_time : string;
  v_details : string;
  v_extra : list (string * string);   (** the additional-information block *)
  v_disabled : bool                   (** Accept and Decline are disabled *)
}.

(** What the screen's body shows (lines 262-272). *)
Inductive Body :=
| Spinner
| SingleAlertView (v : AlertView)
| AlertListView (vs : list AlertView)
| NoAlertsText.

Section Render.
(** [toDate().toLocaleString()] and the decimal text of a coordinate in a
    template string: the host's formatting, not code of this repository. *)
Variable localeString : Z -> string.
Variable number_text : QArith_base.Q -> string.

(** [alert.location?.readableAddress || `Lat: ${lat}, Lng: ${lng}` || "N/A"] *)
Definition location_text (l : Location) : string :=
  let coords := "Lat: " +:+ number_text (loc_lat l) +:+ ", Lng: " +:+ number_text (loc_lng l) in
  match str_val (readableAddress l) with
  | Some addr => addr
  | None => if String.eqb coords "" then "N/A" else coords
  end.

(** [renderAlert(alert)] (lines 149-237).  [additionalInfo] is an object
    (an empty one when the report had none), so its block is always drawn. *)
Definition renderAlert (processing : option (option string)) (x : option string * Alert.t) :
    AlertView :=
  let '(id, a) := x in
  let info := Alert.additionalInfo a in
  mkAlertView (str_or (Some (Alert.type a)) "Emergency")
    (location_text (Alert.location a))
    (match Alert.createdAt a with Some t => localeString t | None => "N/A" end)
    (str_or (Some (Alert.details a)) "N/A")
    [("Attacker Gender", str_or (info_get "attackerGender" info) "N/A");
     ("Clothing", str_or (info_get "clothing" info) "N/A");
     ("Weapon Visible", str_or (info_get "weaponVisible" info) "N/A");
     ("Urgency", str_or (Some (Alert.urgency a)) "N/A")]
    (bool_decide (processing = Some id)).

(** The header's subtitle (lines 253-259); [alerts] is the list the list
    listener keeps ([Dashboard.alerts_snapshot]). *)
Definition headerSubtitle (s : Screen) (alerts : list (string * Alert.t)) : string :=
  if bool_decide (is_Some (singleAlert s)) then "New alert assigned to you"
  else if bool_decide (alerts <> []) then "You have new alerts"
  else "Waiting for new emergency alerts...".

(** The body (lines 262-272): the list's entries carry their document id. *)
Definition render_body (s : Screen) (alerts : list (string * Alert.t)) : Body :=
  if loading s then Spinner
  else match singleAlert s with
       | Some x => SingleAlertView (renderAlert (processingId s) x)
       | None =>
           match alerts with
           | [] => NoAlertsText
           | _ => AlertListView (map (fun p => renderAlert (processingId s) (Some p.1, p.2)) alerts)
           end
       end.
End Render.

(** ** Lemmas *)

Lemma load_params_data p data :
  p_alertData p = Some data ->
  forall db, load_params p screen_init db =
    (inr (mkScreen [] (Some data) false None [] []), db).
Proof. intros Hd db. unfold load_params. by rewrite Hd. Qed.

Lemma load_params_found id a db :
  id <> "" -> responders_alerts db !! id = Some a ->
  load_params (mkParams (Some id) None) screen_init db =
    (inr (mkScreen [] (Some (Some id, a)) false None [] []), db).
Proof. intros Hid Ha. unfold load_params. cbn [p_alertData p_alertId]. rewrite str_val_some by done. handler_unfold. by rewrite Ha. Qed.

Lemma load_params_missing id db :
  id <> "" -> responders_alerts db !! id = None ->
  load_params (mkParams (Some id) None) screen_init db =
    (inr (mkScreen [] None false None [GoBack] [("Error", "Alert not found.")]), db).
Proof. intros Hid Ha. unfold load_params. cbn [p_alertData p_alertId]. rewrite str_val_some by done. handler_unfold. by rewrite Ha. Qed.

(** None of the screen's handlers rejects. *)
Lemma load_params_ensures p s : st_ensures (fun _ => True) (load_params p s).
Proof.
  unfold load_params. intros db.
  destruct (p_alertData p); [by eexists _, _ |].
  destruct (str_val (p_alertId p)); [| by eexists _, _].
  handler_unfold. destruct (responders_alerts db !! _); by eexists _, _.
Qed.

Lemma screen_accept_ensures now u id s : st_ensures (fun _ => True) (screen_accept now u id s).
Proof.
  unfold screen_accept. apply (st_ensures_bind _ (fun _ => True));
    [destruct id; [apply client_try_ensures | by apply st_ensures_return] |].
  intros. by apply st_ensures_return.
Qed.

Lemma screen_decline_ensures now id s : st_ensures (fun _ => True) (screen_decline now id s).
Proof.
  unfold screen_decline. apply (st_ensures_bind _ (fun _ => True));
    [destruct id; [apply client_try_ensures | by apply st_ensures_return] |].
  intros. by apply st_ensures_return.
Qed.

Lemma accept_shown_ensures now u s : st_ensures (fun _ => True) (accept_shown now u s).
Proof.
  unfold accept_shown. destruct (singleAlert s) as [[id ?]|];
    [apply screen_accept_ensures | by apply st_ensures_return].
Qed.

Lemma decline_shown_ensures now s : st_ensures (fun _ => True) (decline_shown now s).
Proof.
  unfold decline_shown. destruct (singleAlert s) as [[id ?]|];
    [apply screen_decline_ensures | by apply st_ensures_return].
Qed.

(** Single mode on an alert passed without an id: both buttons fail. *)
Lemma accept_shown_no_id now u a s db :
  singleAlert s = Some (None, a) ->
  accept_shown now u s db =
    (inr (finish (show "Error" "Failed to accept alert." (set_processing (Some None) s))), db).
Proof. intros H. unfold accept_shown. by rewrite H. Qed.

Lemma decline_shown_no_id now a s db :
  singleAlert s = Some (None, a) ->
  decline_shown now s db =
    (inr (finish (show "Error" "Failed to decline alert." (set_processing (Some None) s))), db).
Proof. intros H. unfold decline_shown. by rewrite H. Qed.

Lemma str_val_str_or_empty o : str_val (Some (str_or o "")) = str_val o.
Proof.
  destruct o as [x|]; [| done]. unfold str_or. cbn.
  destruct (String.eqb x "") eqn:E; cbn; [done | by rewrite E].
Qed.

(** ** Properties *)

(** C17: the single-alert mode shows whatever alert its id names, and
    accepting it checks neither the alert's [assignedResponder] nor its
    status: a responder opened on an alert the Assigner gave to another
    responder, who is busy with it, takes it over.  The alert keeps
    [assignedResponder] but now has the second responder as
    [responderUID], and both responders are busy with the same emergency,
    which the specification's assignment rules out.  An id with no
    document shows "Alert not found." and goes back. *)
Theorem single_alert_takeover now u1 u2 id a r1 r2 db :
  id <> "" -> responders_alerts db !! id = Some a -> Alert.assignedResponder a = Some u1 ->
  u1 <> u2 -> responders db !! u1 = Some r1 -> Responder.assignedEmergency r1 = Some id ->
  responders db !! u2 = Some r2 ->
  exists s db',
    (s0 ← load_params (mkParams (Some id) None) screen_init; accept_shown now u2 s0) db =
      (inr s, db') /\
    navs s = [AlertDetails id] /\ singleAlert s = None /\
    responders_alerts db' !! id = Some (accept_update now u2 a) /\
    Alert.assignedResponder (accept_update now u2 a) = Some u1 /\
    Alert.responderUID (accept_update now u2 a) = Some u2 /\
    fmap Responder.assignedEmergency (responders db' !! u1) = Some (Some id) /\
    fmap Responder.assignedEmergency (responders db' !! u2) = Some (Some id).
Proof.
  intros Hid Ha Hu1 Hne Hr1 He1 Hr2.
  unfold mbind, st_mbind, st_bind. rewrite (load_params_found id a db Hid Ha).
  unfold accept_shown, screen_accept. cbn [singleAlert].
  unfold mbind, st_mbind, st_bind. rewrite (handleAccept_run now u2 id db a r2 Ha Hr2).
  do 2 eexists. split; [reflexivity |]. cbn.
  rewrite lookup_insert_eq, lookup_insert_eq, lookup_insert_ne by done.
  rewrite Hr1. cbn. by rewrite He1.
Qed.

(** C18: the dashboard and this screen do not fit together.  When the
    dashboard's listener sees a pending alert it opens this screen with
    the document's data as [alertData], and that data has no [id]
    property; single mode then calls [handleAccept(alert.id)] and
    [handleDecline(alert.id)] with [undefined], whose [doc()] throws.  So
    the responder's first Accept or Decline on the alert shown fails: it
    shows the error dialog, requests no navigation and leaves the
    database, the pending alert included, as it was.  The [finally] then
    drops single mode, which is what lets the list listener take over. *)
Theorem dashboard_alert_unanswerable now u d db id a rest :
  u <> "" -> isActive d = true -> pending_alerts u db = (id, a) :: rest ->
  exists d', alertsSnapshot (Some u) d db = (inr d', db) /\
    screen d' = IncomingEmergency (str_or (Alert.emergencyId a) id) (None, a) /\
    forall p, params_of (screen d') = Some p ->
      (s ← load_params p screen_init; accept_shown now u s) db =
        (inr (mkScreen [] None false None [] [("Error", "Failed to accept alert.")]), db) /\
      (s ← load_params p screen_init; decline_shown now s) db =
        (inr (mkScreen [] None false None [] [("Error", "Failed to decline alert.")]), db).
Proof.
  intros Hu Ha Hp. rewrite (alertsSnapshot_pending u d db id a rest Hu Ha Hp).
  eexists. split; [reflexivity |].
  rewrite screen_notify_set_screen. split; [done |]. intros p [= <-].
  split; unfold mbind, st_mbind, st_bind;
    rewrite (load_params_data _ (None, a)) by done;
    [apply (accept_shown_no_id _ _ a) | apply (decline_shown_no_id _ a)]; done.
Qed.

(** C21: what the incoming-alert screen shows for an alert the deployed
    [createEmergencyReport] wrote.  The document has [routedAt] but no
    [createdAt], which is what the screen reads, so the time is always
    "N/A".  The location is the report's readable address or, without
    one, its coordinates; the "N/A" fallback of that line is never
    reached.  The additional-information block is always drawn, with
    "N/A" for each field the report left out.  Accept and Decline are
    enabled unless this very alert is being processed. *)
Theorem deployed_alert_rendering localeString number_text now reportId type location
    createdByUID req assigned processing id :
  let v := renderAlert localeString number_text processing
             (id, newAlert now reportId type location createdByUID req assigned) in
  v_time v = "N/A" /\
  v_location v = (match str_val (readableAddress location) with
                  | Some addr => addr
                  | None => "Lat: " +:+ number_text (loc_lat location) +:+
                            ", Lng: " +:+ number_text (loc_lng location)
                  end) /\
  map fst (v_extra v) = ["Attacker Gender"; "Clothing"; "Weapon Visible"; "Urgency"] /\
  v_disabled v = bool_decide (processing = Some id).
Proof.
  cbn [renderAlert newAlert v_time v_location v_extra v_disabled Alert.createdAt Alert.location].
  split_and!; [done | | done | done].
  unfold location_text. cbn [readableAddress loc_lat loc_lng]. rewrite str_val_str_or_empty.
  by destruct (str_val (readableAddress location)).
Qed.

(** ** Witness: responder "r2" opened on the alert of busy responder "r1" *)

Definition takeover_db : DB :=
  set_responders (<["r2" := Responder.mk Responder.active None None (Some 900%Z) (Some 900%Z)
                              None None None]> (responders lifecycle_db)) lifecycle_db.

Lemma single_alert_takeover_witness :
  exists s db',
    (s0 ← load_params (mkParams (Some "rep1") None) screen_init; accept_shown 2000%Z "r2" s0)
      takeover_db = (inr s, db') /\
    fmap Responder.assignedEmergency (responders db' !! "r1") = Some (Some "rep1") /\
    fmap Responder.assignedEmergency (responders db' !! "r2") = Some (Some "rep1").
Proof.
  destruct (single_alert_takeover 2000%Z "r1" "r2" "rep1" scenario_alert scenario_busy
              (Responder.mk Responder.active None None (Some 900%Z) (Some 900%Z) None None None)
              takeover_db)
    as (s & db' & Hrun & _ & _ & _ & _ & _ & H1 & H2); try reflexivity; try done.
  exists s, db'. split_and!; [exact Hrun | exact H1 | exact H2].
Defined.

(** Responder "r1" on duty, with the pending alert "rep1" of [lifecycle_db]. *)
Lemma dashboard_alert_unanswerable_witness :
  pending_alerts "r1" lifecycle_db = [("rep1", scenario_alert)] /\
  exists d', alertsSnapshot (Some "r1") dash_on lifecycle_db = (inr d', lifecycle_db) /\
    screen d' = IncomingEmergency "rep1" (None, scenario_alert).
Proof.
  assert (Hp : pending_alerts "r1" lifecycle_db = [("rep1", scenario_alert)]) by reflexivity.
  split; [exact Hp |].
  destruct (dashboard_alert_unanswerable 3000%Z "r1" dash_on lifecycle_db "rep1"
              scenario_alert [] ltac:(done) eq_refl Hp) as (d' & E & S & _).
  exists d'. split; [exact E | exact S].
Defined.

End Incoming.
