(* ===== verification/Signup.v ===== *)
(** * Signup: the student sign-up screen (Screens/Students/signup.js)

    [handleSendOtp] (lines 29-57) and [handleVerifyAndSignup] (lines
    60-107) are the clients of the OTP gate: they check the form, call the
    [sendOtp] and [verifyOtp] exports and turn the outcome into a dialog.
    The screen's state is [SignupState]; the form's fields are arguments.
    A session is a list of presses of the two buttons ([SignupEvent],
    [signup_run]); Send is disabled once a code was sent
    ([send_enabled]), the code field takes input only then
    ([entered_form]), and [otp_controls] is what the code field and the
    button show.  As [sendOtp] never succeeds, no session creates an
    account.

    A callable error reaches the Firebase client SDK with the code
    ["functions/" ^ code] ([client_code]).  The send handler compares
    [err.code] with the bare codes ["internal"], ["permission-denied"] and
    ["unavailable"], and the verify handler with Auth codes that
    [verifyOtp] never returns, so both always show their generic message. *)

From S2P Require Import Prelude Store Otp Callable.
From Stdlib Require Import QArith_base.
Local Close Scope Q_scope.

(** ** [String.prototype.trim] on ASCII white space *)

Definition is_ws (c : Ascii.ascii) : bool :=
  match Ascii.nat_of_ascii c with
  | 9 | 10 | 11 | 12 | 13 | 32 => true
  | _ => false
  end.

Fixpoint trim_left (s : string) : string :=
  match s with
  | String c s' => if is_ws c then trim_left s' else s
  | EmptyString => EmptyString
  end.

Fixpoint string_rev (s : string) : string :=
  match s with
  | String c s' => string_rev s' +:+ String c EmptyString
  | EmptyString => EmptyString
  end.

Definition trim (s : string) : string := string_rev (trim_left (string_rev (trim_left s))).

(** ** The screen *)

Record SignupForm := mkSignupForm {
  sf_matric : string;
  sf_email : string;
  sf_otp : string;
  sf_password : string;
  sf_checked : bool     (** the Terms & Conditions box *)
}.

Record SignupState := mkSignupState {
  otpSent : bool;
  dialog : option (string * string);  (** the last [Alert.alert(title, message)] *)
  offersLogin : bool                   (** the dialog's OK navigates to Login *)
}.

Definition show (title msg : string) (st : SignupState) : SignupState :=
  mkSignupState (otpSent st) (Some (title, msg)) false.

Definition https_code_str (c : HttpsCode) : string :=
  match c with
  | invalid_argument => "invalid-argument"
  | resource_exhausted => "resource-exhausted"
  | permission_denied => "permission-denied"
  | internal => "internal"
  end.

(** [err.code] of a failed callable in the client SDK. *)
Definition client_code (e : Error) : string :=
  match e with
  | HttpsError c _ => "functions/" +:+ https_code_str c
  | _ => "functions/internal"
  end.

(** Lines 47-52 *)
Definition send_error_message (code : string) : string :=
  let msg := "Failed to send OTP. Check your connection and try again." in
  let msg := if String.eqb code "unavailable" then "Service unavailable. Try later." else msg in
  let msg := if String.eqb code "internal" then "Server error. Contact support." else msg in
  if String.eqb code "permission-denied"
  then "Invalid email domain. Use @students.unilorin.edu.ng." else msg.

(** Lines 95-102 *)
Definition signup_error_message (code : string) : string :=
  let msg := "Signup failed. Try again." in
  let msg := if String.eqb code "auth/email-already-in-use" then "Email already registered." else msg in
  let msg := if String.eqb code "auth/weak-password"
             then "Password must be at least 6 characters." else msg in
  let msg := if String.eqb code "auth/invalid-email" then "Invalid email format." else msg in
  if String.eqb code "functions/unavailable" then "Service unavailable. Check connection." else msg.

(** Run a call and keep its outcome, as [try { await ... } catch (err)]. *)
Definition attempt {A} (m : M A) : M (Error + A) :=
  st_catch (a ← m; mret (inr a)) (fun e => mret (inl e)).

Definition handleSendOtp (clock : option Z) (u : Q) (mail : MailOutcome)
    (form : SignupForm) (st : SignupState) : M SignupState :=
  let email := trim (sf_email form) in
  if String.eqb email "" then mret (show "Error" "Enter your email first." st)
  else
    r ← attempt (sendOtp_call clock u mail (mkSendOtpRequest (Some email) None));
    match r with
    | inr _ => mret (mkSignupState true (Some ("✅ OTP Sent", "Check your email inbox for the code.")) false)
    | inl err => mret (show "Error" (send_error_message (client_code err)) st)
    end.

Definition handleVerifyAndSignup (clock : option Z) (newUid : string)
    (form : SignupForm) (st : SignupState) : M SignupState :=
  if String.eqb (trim (sf_matric form)) "" || String.eqb (trim (sf_email form)) "" ||
     String.eqb (sf_password form) "" || String.eqb (trim (sf_otp form)) ""
  then mret (show "Error" "Fill in all fields." st)
  else if negb (sf_checked form)
  then mret (show "Error" "You must agree to Terms & Conditions." st)
  else if bool_decide (String.length (sf_password form) < 6)%nat
  then mret (show "Error" "Password must be at least 6 characters." st)
  else
    r ← attempt (verifyOtp_call clock newUid
                   (mkVerifyOtpRequest (Some (trim (sf_email form))) (Some (trim (sf_otp form)))
                      (Some (sf_password form))));
    match r with
    | inr _ => mret (mkSignupState (otpSent st)
                       (Some ("🎉 Success", "Account created & verified! You can now log in.")) true)
    | inl err => mret (show "Error" (signup_error_message (client_code err)) st)
    end.

(** The two buttons (lines 154-161 and 208-212).  Each handler runs to
    its [finally] before the next press is handled, so [loading] is false
    at every press: Send is enabled exactly while [otpSent] is false, and
    nothing in the screen ever sets [otpSent] back to false. *)
Inductive SignupEvent :=
| PressSend (clock : option Z) (u : Q) (mail : MailOutcome) (form : SignupForm)
| PressSignup (clock : option Z) (newUid : string) (form : SignupForm).

(** [disabled={loading || otpSent}] (line 160) *)
Definition send_enabled (loading : bool) (st : SignupState) : bool :=
  negb (loading || otpSent st).

(** The form as it stands at a press.  The code field is
    [editable={otpSent}] (line 144) and [otp] starts as "" (line 22):
    until a code was sent nothing can be typed into it. *)
Definition entered_form (st : SignupState) (form : SignupForm) : SignupForm :=
  if otpSent st then form
  else mkSignupForm (sf_matric form) (sf_email form) "" (sf_password form) (sf_checked form).

Definition signup_step (ev : SignupEvent) (st : SignupState) : M SignupState :=
  match ev with
  | PressSend clock u mail form =>
      if send_enabled false st then handleSendOtp clock u mail form st else mret st
  | PressSignup clock newUid form => handleVerifyAndSignup clock newUid (entered_form st form) st
  end.

(** The screen's initial state (lines 22-26): no code sent, no dialog. *)
Definition signup_init : SignupState := mkSignupState false None false.

(** A session on the screen: the presses in order, each on the state and
    database the previous one left. *)
Fixpoint signup_run (evs : list SignupEvent) (st : SignupState) : M SignupState :=
  match evs with
  | [] => mret st
  | ev :: evs' => st' ← signup_step ev st; signup_run evs' st'
  end.

(** The code field and the Send button (lines 136-173). *)
Record OtpControls := mkOtpControls {
  otpEditable : bool;     (** [editable={otpSent}] *)
  sendDisabled : bool;    (** [disabled={loading || otpSent}] *)
  sendLabel : string
}.

Definition otp_controls (loading : bool) (st : SignupState) : OtpControls :=
  mkOtpControls (otpSent st) (negb (send_enabled loading st))
    (if loading then "Sending..." else if otpSent st then "Sent" else "Send").

(** The Sign Up button (lines 207-223). *)
Definition signup_button (loading : bool) : bool * string :=
  (loading, if loading then "Creating..." else "Sign Up").

(** ** Lemmas *)

Lemma attempt_ok {A} (m : M A) db a db' :
  m db = (inr a, db') -> attempt m db = (inr (inr a), db').
Proof. intros H. unfold attempt, st_catch, mbind, st_mbind, st_bind. by rewrite H. Qed.

Lemma attempt_err {A} (m : M A) db e db' :
  m db = (inl e, db') -> attempt m db = (inr (inl e), db').
Proof. intros H. unfold attempt, st_catch, mbind, st_mbind, st_bind. by rewrite H. Qed.

(** Every error code the SDK reports starts with ["functions/"]. *)
Lemma client_code_prefix e : exists c, client_code e = "functions/" +:+ c /\
  c ∈ ["invalid-argument"; "resource-exhausted"; "permission-denied"; "internal"].
Proof.
  destruct e as [[] msg| | |]; eexists; (split; [reflexivity |]); set_solver.
Qed.

Lemma send_error_message_generic e :
  send_error_message (client_code e) = "Failed to send OTP. Check your connection and try again.".
Proof.
  destruct (client_code_prefix e) as (c & -> & Hc).
  repeat (apply elem_of_cons in Hc as [-> | Hc]; [reflexivity |]). set_solver.
Qed.

Lemma signup_error_message_generic e :
  signup_error_message (client_code e) = "Signup failed. Try again.".
Proof.
  destruct (client_code_prefix e) as (c & -> & Hc).
  repeat (apply elem_of_cons in Hc as [-> | Hc]; [reflexivity |]). set_solver.
Qed.

Definition form_valid (form : SignupForm) : Prop :=
  trim (sf_matric form) <> "" /\ trim (sf_email form) <> "" /\ trim (sf_otp form) <> "" /\
  sf_checked form = true /\ (6 <= String.length (sf_password form))%nat.

Lemma handleVerifyAndSignup_call clock newUid form st db :
  form_valid form ->
  handleVerifyAndSignup clock newUid form st db =
  (r ← attempt (verifyOtp_call clock newUid
                  (mkVerifyOtpRequest (Some (trim (sf_email form))) (Some (trim (sf_otp form)))
                     (Some (sf_password form))));
   match r with
   | inr _ => mret (mkSignupState (otpSent st)
                      (Some ("🎉 Success", "Account created & verified! You can now log in.")) true)
   | inl err => mret (show "Error" (signup_error_message (client_code err)) st)
   end) db.
Proof.
  intros (Hm & He & Ho & Hc & Hl). unfold handleVerifyAndSignup.
  rewrite !(proj2 (String.eqb_neq _ _)) by done.
  destruct (sf_password form) as [|ch pw] eqn:Hp; [simpl in Hl; lia |].
  simpl. rewrite Hc, (proj2 (String.eqb_neq _ _) Ho). simpl in *.
  by rewrite bool_decide_eq_false_2 by lia.
Qed.

(** While no code was sent, a press of Send shows a dialog: [sendOtp]
    fails on every call. *)
Lemma handleSendOtp_unsent clock u mail form st db :
  otpSent st = false ->
  exists st' db', handleSendOtp clock u mail form st db = (inr st', db') /\
    otpSent st' = false /\ offersLogin st' = false /\
    auth_users db' = auth_users db /\ users db' = users db.
Proof.
  intros Hs. unfold handleSendOtp.
  destruct (String.eqb _ ""); [do 2 eexists; split; [reflexivity | cbn; by rewrite Hs] |].
  destruct (sendOtp_call_fails clock u mail (mkSendOtpRequest (Some (trim (sf_email form))) None) db)
    as (e & db' & H & _ & A & U & _).
  unfold mbind, st_mbind, st_bind. rewrite (attempt_err _ _ _ _ H).
  exists (show "Error" (send_error_message (client_code e)) st), db'. cbn. by rewrite Hs.
Qed.

(** While no code was sent, the code field is empty and Sign Up stops at
    "Fill in all fields." without a call. *)
Lemma handleVerify_unsent clock newUid form st db :
  otpSent st = false ->
  handleVerifyAndSignup clock newUid (entered_form st form) st db =
    (inr (show "Error" "Fill in all fields." st), db).
Proof.
  intros Hs. unfold entered_form. rewrite Hs. unfold handleVerifyAndSignup. cbn.
  by rewrite orb_true_r.
Qed.

Lemma signup_run_unsent evs st db :
  otpSent st = false -> offersLogin st = false ->
  exists st' db', signup_run evs st db = (inr st', db') /\
    otpSent st' = false /\ offersLogin st' = false /\
    auth_users db' = auth_users db /\ users db' = users db.
Proof.
  revert st db. induction evs as [|ev evs IH]; intros st db Hs Hl; [by do 2 eexists |].
  cbn [signup_run]. unfold mbind at 1, st_mbind, st_bind.
  destruct ev as [clock u mail form | clock newUid form]; cbn [signup_step].
  - unfold send_enabled. rewrite Hs. cbn.
    destruct (handleSendOtp_unsent clock u mail form st db Hs) as (st1 & db1 & -> & S1 & L1 & A1 & U1).
    destruct (IH st1 db1 S1 L1) as (st' & db' & Hr & S & L & A & U).
    exists st', db'. split_and!; congruence.
  - rewrite (handleVerify_unsent _ _ _ _ _ Hs).
    destruct (IH (show "Error" "Fill in all fields." st) db) as (st' & db' & Hr & S & L & A & U);
      [cbn; by rewrite Hs | done |].
    by exists st', db'.
Qed.

(** ** Properties *)

(** C39: whatever error [sendOtp] or [verifyOtp] returns (a bad domain, the
    rate limit, a lockout, a wrong code), the screen shows its generic
    message: the SDK's codes carry the ["functions/"] prefix that the send
    handler's comparisons lack, and [verifyOtp] returns none of the Auth
    codes the verify handler tests. *)
Theorem signup_error_dialogs clock u mail newUid form st db e db' :
  (trim (sf_email form) <> "" ->
   sendOtp_call clock u mail (mkSendOtpRequest (Some (trim (sf_email form))) None) db =
     (inl e, db') ->
   handleSendOtp clock u mail form st db =
     (inr (show "Error" "Failed to send OTP. Check your connection and try again." st), db')) /\
  (form_valid form ->
   verifyOtp_call clock newUid (mkVerifyOtpRequest (Some (trim (sf_email form)))
                                  (Some (trim (sf_otp form))) (Some (sf_password form))) db =
     (inl e, db') ->
   handleVerifyAndSignup clock newUid form st db =
     (inr (show "Error" "Signup failed. Try again." st), db')).
Proof.
  split.
  - intros He Hcall. unfold handleSendOtp. rewrite (proj2 (String.eqb_neq _ _) He).
    unfold mbind, st_mbind, st_bind. rewrite (attempt_err _ _ _ _ Hcall).
    by rewrite send_error_message_generic.
  - intros Hv Hcall. rewrite (handleVerifyAndSignup_call _ _ _ _ _ Hv).
    unfold mbind, st_mbind, st_bind. rewrite (attempt_err _ _ _ _ Hcall).
    by rewrite signup_error_message_generic.
Qed.

(** a completed form with the code stored for its address, entered
    before it expires, signs the student up: the screen offers the way to
    Login, and the Auth account holds the form's password (the client's
    six-character minimum is Auth's, so the server's swallowed password
    error cannot happen through this screen).  The screen itself never
    reaches such a press: its code field stays empty (see the session theorem below). *)
Theorem signup_sets_password now newUid form st db o :
  form_valid form -> otps db !! trim (sf_email form) = Some o ->
  OtpDoc.otp o = trim (sf_otp form) -> (now <= OtpDoc.expiresAt o)%Z ->
  exists db',
    handleVerifyAndSignup (Some now) newUid form st db =
      (inr (mkSignupState (otpSent st)
              (Some ("🎉 Success", "Account created & verified! You can now log in.")) true), db') /\
    fmap AuthUser.password (auth_users db' !! trim (sf_email form)) = Some (Some (sf_password form)).
Proof.
  intros Hv Ho Hcode Hexp. pose proof Hv as (_ & He & Hotp & _ & Hl).
  destruct (verifyOtp_accepted_password now newUid (trim (sf_email form)) (trim (sf_otp form))
              (sf_password form) db He Hotp Hl) as (db' & Hrun & Hpw).
  { rewrite Ho. simpl. rewrite Hcode, String.eqb_refl. simpl.
    apply bool_decide_eq_false_2. lia. }
  exists db'. split; [| done].
  rewrite (handleVerifyAndSignup_call _ _ _ _ _ Hv).
  unfold mbind, st_mbind, st_bind, verifyOtp_call.
  by rewrite (attempt_ok _ _ _ _ (onCall_ok _ _ _ _ Hrun)).
Qed.

(** C8: the sign-up screen can never create an account.  The code field
    takes input only once [otpSent] is set, and only a served [sendOtp]
    sets it, which never happens; so from the screen's initial state,
    whatever the student types and presses, on every database, [otpSent]
    stays false (the code field stays read-only, Send stays enabled and
    reads "Send"), every Sign Up stops at "Fill in all fields.", no
    dialog offers the way to Login, and no Auth account or profile is
    created. *)
Theorem signup_never_completes evs db :
  exists st' db', signup_run evs signup_init db = (inr st', db') /\
    otp_controls false st' = mkOtpControls false false "Send" /\ offersLogin st' = false /\
    auth_users db' = auth_users db /\ users db' = users db.
Proof.
  destruct (signup_run_unsent evs signup_init db eq_refl eq_refl)
    as (st' & db' & Hr & S & L & A & U).
  exists st', db'. unfold otp_controls, send_enabled. rewrite S. by split_and!.
Qed.

(** ** Witnesses *)

Definition signup_form : SignupForm :=
  mkSignupForm "19/52HA001" " ada@students.unilorin.edu.ng " "123456" "secret1" true.

Definition signup_state : SignupState := mkSignupState true None false.

Lemma signup_error_dialogs_witness :
  handleSendOtp (Some 0%Z) 0%Q mail_sent signup_form signup_state locked_db =
    (inr (show "Error" "Failed to send OTP. Check your connection and try again." signup_state),
     set_rateLimits {[otp_email := RateLimit.mk 1 (0 + hour)]} locked_db).
Proof.
  apply (signup_error_dialogs (Some 0%Z) 0%Q mail_sent "u1" signup_form signup_state locked_db
           (HttpsError permission_denied "Account locked due to too many failed attempts."));
    [done | vm_compute; reflexivity].
Defined.

Lemma signup_sets_password_witness :
  exists db',
    handleVerifyAndSignup (Some 60000%Z) "u1" signup_form signup_state locked_db =
      (inr (mkSignupState true
              (Some ("🎉 Success", "Account created & verified! You can now log in.")) true), db') /\
    fmap AuthUser.password (auth_users db' !! otp_email) = Some (Some "secret1").
Proof.
  apply (signup_sets_password 60000%Z "u1" signup_form signup_state locked_db otp_challenge);
    [| reflexivity | reflexivity | unfold otp_challenge, minute; simpl; lia].
  unfold form_valid. vm_compute. split_and!; try (intros H; discriminate H); try reflexivity.
  repeat constructor.
Defined.
