(* ===== verification/App.v ===== *)
(** * App: the navigator of App.js and the responder's screens composed through it

    App.js registers the application's screens with a stack navigator
    whose initial route is ["Splash"] (lines 82-115) and sets up push
    notifications (lines 36-80).  The responder's screens of this
    repository reach each other only through that navigator: the
    dashboard's alert listener resets the stack to ["IncomingEmergency"]
    with the alert as its params (dashboard.js lines 230-241), its grid
    navigates to ["AlertDetails"], ["ResponderProfile"] and
    ["IncomingEmergency"] (lines 295-320), and the incoming-alert screen
    navigates to ["AlertDetails"] or goes back (incomingalert.js lines 50,
    55, 114, 133).

    [AppState] is the composed state: the navigator's stack, the state of
    the dashboard and of the incoming-alert screen, the list the incoming
    screen's listener keeps, and how many of that screen's navigation
    requests were applied.  A screen is mounted while a route of it is in
    the stack.  Leaving the stack runs the dashboard's cleanup effect
    ([Unmount]: both intervals cleared).  Entering it starts the component
    from its initial state, and the incoming screen then runs its params
    effect.  [app_step] delivers one event to the component it belongs to
    (a button only when its screen is on top, a listener while its screen
    is mounted) and then applies the navigations requested.

    The navigator's actions follow @react-navigation/stack 6, a library
    and not code of this repository:
    - [navigate] to a registered name pushes a route, or goes back to the
      route of that name already in the stack;
    - [reset] replaces the stack, so every route gets a new key;
    - [goBack] pops, and is not handled when only one route is left;
    - an action naming an unregistered route is not handled. *)

From S2P Require Import Prelude Store Registry Lifecycle Dashboard Incoming.

(** ** App.js *)

(** The screen components App.js imports (lines 11-29). *)
Inductive Component :=
| SplashScreen | Welcome | Login | Signup | LoginResponder | SignupResponder
| dashboard | ResponderDashboard | ResetPassword | ForgotPassword | ProfileScreen
| EmergencyDetails | EmergencyTracking | MedicalEmergencyScreen | FireEmergencyScreen
| AlertDetailsScreen | IncomingEmergencyScreen | ResponderProfileScreen | ComingSoon.

#[export] Instance component_eq_dec : EqDecision Component.
Proof. solve_decision. Defined.

(** The [<Stack.Screen name component>] elements (lines 87-114). *)
Definition routes : list (string * Component) :=
  [("Splash", SplashScreen); ("Welcome", Welcome); ("Login", Login); ("Signup", Signup);
   ("LoginResponder", LoginResponder); ("SignupResponder", SignupResponder);
   ("dashboard", dashboard); ("ResponderDashboard", ResponderDashboard);
   ("ResetPassword", ResetPassword); ("ForgotPassword", ForgotPassword);
   ("ProfileScreen", ProfileScreen); ("EmergencyDetails", EmergencyDetails);
   ("EmergencyTracking", EmergencyTracking); ("MedicalEmergency", MedicalEmergencyScreen);
   ("FireEmergency", FireEmergencyScreen); ("AlertDetails", AlertDetailsScreen);
   ("IncomingEmergency", IncomingEmergencyScreen); ("ResponderProfile", ResponderProfileScreen);
   ("ComingSoon", ComingSoon)].

(** [initialRouteName="Splash"] (line 84) *)
Definition initialRouteName : string := "Splash".

Fixpoint lookup_route (name : string) (rs : list (string * Component)) : option Component :=
  match rs with
  | [] => None
  | (n, c) :: rs' => if String.eqb n name then Some c else lookup_route name rs'
  end.

Definition route_component (name : string) : option Component := lookup_route name routes.

(** [Notifications.setNotificationHandler] (lines 36-42): a notification
    received in the foreground is shown with a sound and no badge. *)
Record NotificationBehavior := mkNotificationBehavior {
  shouldShowAlert : bool;
  shouldPlaySound : bool;
  shouldSetBadge : bool
}.

Definition handleNotification : NotificationBehavior := mkNotificationBehavior true true false.

Inductive PermissionStatus := granted | denied | undetermined.

#[export] Instance permission_status_eq_dec : EqDecision PermissionStatus.
Proof. solve_decision. Defined.

(** How [setupNotifications] (lines 46-62) ends; [asked] says whether the
    permission prompt was shown. *)
Inductive SetupOutcome :=
| NotADevice
| NotGranted (asked : bool)
| Granted (asked : bool).

(** [existing] is what [getPermissionsAsync] reports and [answer] what
    [requestPermissionsAsync] would. *)
Definition setupNotifications (isDevice : bool) (existing answer : PermissionStatus) :
    SetupOutcome :=
  if negb isDevice then NotADevice
  else
    let asked := bool_decide (existing <> granted) in
    let finalStatus := if asked then answer else existing in
    if bool_decide (finalStatus <> granted) then NotGranted asked else Granted asked.

(** ** The stack navigator *)

(** [route.params] as the screens of this repository pass them. *)
Inductive RouteParams :=
| NoParams
| IncomingParams (p : Incoming.Params)
| AlertDetailsParams (alertId : string).

Record Route := mkRoute {
  r_name : string;
  r_comp : Component;
  r_params : RouteParams
}.

Inductive NavAction :=
| nav_navigate (name : string) (params : RouteParams)
| nav_reset (name : string) (params : RouteParams)
| nav_goBack.

(** The notification-tap listener (lines 67-75) only logs: it requests no
    navigation, whatever the notification's data and the signed-in user. *)
Definition onNotificationResponse (dataType : option string) (signedIn : bool) :
    list NavAction := [].

(** The routes below the topmost route named [name], if there is one. *)
Fixpoint pop_to (name : string) (st : list Route) : option (list Route) :=
  match st with
  | [] => None
  | r :: st' => if String.eqb (r_name r) name then Some st' else pop_to name st'
  end.

(** The stack after an action; its head is the route on top. *)
Definition stack_apply (a : NavAction) (st : list Route) : list Route :=
  match a with
  | nav_navigate name p =>
      match route_component name with
      | Some c => mkRoute name c p :: default st (pop_to name st)
      | None => st
      end
  | nav_reset name p =>
      match route_component name with
      | Some c => [mkRoute name c p]
      | None => st
      end
  | nav_goBack =>
      match st with
      | _ :: ((_ :: _) as below) => below
      | _ => st
      end
  end.

Definition mounted (c : Component) (st : list Route) : bool :=
  existsb (fun r => bool_decide (r_comp r = c)) st.

Definition on_top (c : Component) (st : list Route) : bool :=
  match st with
  | r :: _ => bool_decide (r_comp r = c)
  | [] => false
  end.

(** [route.params || {}] of the topmost incoming-alert route. *)
Fixpoint incoming_params (st : list Route) : Incoming.Params :=
  match st with
  | [] => Incoming.mkParams None None
  | r :: st' =>
      if bool_decide (r_comp r = IncomingEmergencyScreen) then
        match r_params r with
        | IncomingParams p => p
        | _ => Incoming.mkParams None None
        end
      else incoming_params st'
  end.

Definition is_reset (a : NavAction) : bool :=
  match a with nav_reset _ _ => true | _ => false end.

(** A [navigate] to the incoming-alert screen gives it new [route.params]. *)
Definition renavigates_incoming (a : NavAction) : bool :=
  match a with nav_navigate name _ => String.eqb name "IncomingEmergency" | _ => false end.

(** ** What the responder's screens request *)

(** The dashboard's listener resets the stack (dashboard.js lines 230-241). *)
Definition dashboard_nav (sc : Dashboard.Screen) : option NavAction :=
  match Incoming.params_of sc with
  | Some p => Some (nav_reset "IncomingEmergency" (IncomingParams p))
  | None => None
  end.

(** The dashboard's grid (dashboard.js lines 295-320); Settings has no
    [onPress]. *)
Inductive GridButton := AlertsButton | ProfileButton | HistoryButton | SettingsButton.

Definition grid_nav (b : GridButton) : option NavAction :=
  match b with
  | AlertsButton => Some (nav_navigate "AlertDetails" NoParams)
  | ProfileButton => Some (nav_navigate "ResponderProfile" NoParams)
  | HistoryButton => Some (nav_navigate "IncomingEmergency" NoParams)
  | SettingsButton => None
  end.

(** The incoming-alert screen's [navigation] calls (incomingalert.js
    lines 50, 55, 114 and 133). *)
Definition incoming_nav (n : Incoming.Nav) : NavAction :=
  match n with
  | Incoming.AlertDetails alertId => nav_navigate "AlertDetails" (AlertDetailsParams alertId)
  | Incoming.GoBack => nav_goBack
  end.

(** ** The composed application *)

Record AppState := mkApp {
  stack : list Route;
  dash : Dash;                  (** the dashboard's state *)
  incoming : Incoming.Screen;   (** the incoming-alert screen's state *)
  alertList : AlertList;        (** that screen's list listener *)
  navs_done : nat               (** its navigation requests already applied *)
}.

(** The events of the responder's screens. *)
Inductive AppEvent :=
| DashEv (ev : DashEvent)               (** a callback of the dashboard *)
| GridPress (b : GridButton)            (** a button of the dashboard's grid *)
| AcceptShown (now : Z)                 (** Accept on the single alert *)
| DeclineShown (now : Z)                (** Decline on the single alert *)
| ListSnapshot                          (** the incoming screen's list listener *)
| AcceptListed (now : Z) (id : string)  (** Accept on a listed alert *)
| DeclineListed (now : Z) (id : string).

Section App.
Variable u : string.   (** the signed-in responder, [auth.currentUser.uid] *)

(** Mounting and unmounting after the stack went from [st] to [st'] by [a]. *)
Definition remount (a : NavAction) (st st' : list Route) (app : AppState) : M AppState :=
  d ← (if mounted ResponderDashboard st && (is_reset a || negb (mounted ResponderDashboard st'))
       then dash_step (Some u) Unmount (dash app) else mret (dash app));
  let d := if mounted ResponderDashboard st' && (is_reset a || negb (mounted ResponderDashboard st))
           then dash_init else d in
  let fresh := mounted IncomingEmergencyScreen st' &&
               (is_reset a || negb (mounted IncomingEmergencyScreen st)) in
  s ← (if fresh then Incoming.load_params (incoming_params st') Incoming.screen_init
       else if mounted IncomingEmergencyScreen st' && renavigates_incoming a
       then Incoming.load_params (incoming_params st') (incoming app)
       else mret (incoming app));
  mret (mkApp st' d s (if fresh then mkAlertList [] [] else alertList app)
              (if fresh then 0%nat else navs_done app)).

Fixpoint apply_navs (acts : list NavAction) (app : AppState) : M AppState :=
  match acts with
  | [] => mret app
  | a :: acts' =>
      app' ← remount a (stack app) (stack_apply a (stack app)) app;
      apply_navs acts' app'
  end.

(** The incoming screen's new state: the list listener is subscribed anew
    when single mode ends (the effect on [Incoming.singleAlert], lines 66-95). *)
Definition set_incoming (s' : Incoming.Screen) (app : AppState) : AppState :=
  let l := alertList app in
  mkApp (stack app) (dash app) s'
    (if negb (Incoming.list_subscribed (Some u) (incoming app)) && Incoming.list_subscribed (Some u) s'
     then mkAlertList (shown l) [] else l)
    (navs_done app).

(** The list is rendered: not loading, no single alert, and the alert
    listed (incomingalert.js lines 262-267). *)
Definition listed (id : string) (app : AppState) : bool :=
  negb (Incoming.loading (incoming app)) &&
  negb (bool_decide (is_Some (Incoming.singleAlert (incoming app)))) &&
  bool_decide (id ∈ (shown (alertList app)).*1).

Definition on_incoming (app : AppState) : bool :=
  on_top IncomingEmergencyScreen (stack app) && negb (Incoming.loading (incoming app)).

Definition deliver (ev : AppEvent) (app : AppState) : M AppState :=
  match ev with
  | DashEv dev =>
      if mounted ResponderDashboard (stack app) then
        d' ← dash_step (Some u) dev (dash app);
        let app' := mkApp (stack app) d' (incoming app) (alertList app) (navs_done app) in
        match dashboard_nav (screen d') with
        | Some a => apply_navs [a] app'
        | None => mret app'
        end
      else mret app
  | GridPress b =>
      match on_top ResponderDashboard (stack app), grid_nav b with
      | true, Some a => apply_navs [a] app
      | _, _ => mret app
      end
  | AcceptShown now =>
      if on_incoming app then s' ← Incoming.accept_shown now u (incoming app); mret (set_incoming s' app)
      else mret app
  | DeclineShown now =>
      if on_incoming app then s' ← Incoming.decline_shown now (incoming app); mret (set_incoming s' app)
      else mret app
  | ListSnapshot =>
      if mounted IncomingEmergencyScreen (stack app) && Incoming.list_subscribed (Some u) (incoming app)
      then l' ← alerts_snapshot u (alertList app);
           mret (mkApp (stack app) (dash app) (Incoming.set_loading false (incoming app)) l'
                   (navs_done app))
      else mret app
  | AcceptListed now id =>
      if on_top IncomingEmergencyScreen (stack app) && listed id app
      then s' ← Incoming.screen_accept now u (Some id) (incoming app); mret (set_incoming s' app)
      else mret app
  | DeclineListed now id =>
      if on_top IncomingEmergencyScreen (stack app) && listed id app
      then s' ← Incoming.screen_decline now (Some id) (incoming app); mret (set_incoming s' app)
      else mret app
  end.

(** The incoming screen's navigation requests not yet applied. *)
Definition flush (app : AppState) : M AppState :=
  let ns := Incoming.navs (incoming app) in
  apply_navs (map incoming_nav (drop (navs_done app) ns))
    (mkApp (stack app) (dash app) (incoming app) (alertList app) (length ns)).

Definition app_step (ev : AppEvent) (app : AppState) : M AppState :=
  app' ← deliver ev app; flush app'.

(** A run of the screens; a handler's rejection ends it. *)
Fixpoint app_run (evs : list AppEvent) (app : AppState) : M AppState :=
  match evs with
  | [] => mret app
  | ev :: evs' => app' ← app_step ev app; app_run evs' app'
  end.

End App.

(** ** Lemmas *)

(** The routes of the dashboard's reset. *)
Definition incoming_route (p : Incoming.Params) : Route :=
  mkRoute "IncomingEmergency" IncomingEmergencyScreen (IncomingParams p).

Definition dash_params (id : string) (a : Alert.t) : Incoming.Params :=
  Incoming.mkParams (Some (str_or (Alert.emergencyId a) id)) (Some (None, a)).

Ltac app_unfold :=
  repeat progress (unfold mbind, st_mbind, st_bind, mret, st_mret, st_return; cbn;
                   simpl_bool_decide; rewrite ?truthy_str_some by assumption).

Lemma app_run_step u ev evs app db app1 db1 :
  app_step u ev app db = (inr app1, db1) -> app_run u (ev :: evs) app db = app_run u evs app1 db1.
Proof. intros H. cbn [app_run]. unfold mbind, st_mbind, st_bind. by rewrite H. Qed.

Lemma mounted_cons c r st : mounted c (r :: st) = bool_decide (r_comp r = c) || mounted c st.
Proof. reflexivity. Qed.

Lemma on_top_mounted c st : on_top c st = true -> mounted c st = true.
Proof. destruct st as [|r st]; [done |]. cbn [on_top]. intros H. by rewrite mounted_cons, H. Qed.

(** [pop_to] leaves a suffix of the stack. *)
Lemma mounted_pop_to c n st st' :
  pop_to n st = Some st' -> mounted c st' = true -> mounted c st = true.
Proof.
  revert st'. induction st as [|r st IH]; intros st'; [done |]. cbn [pop_to].
  destruct (String.eqb (r_name r) n).
  - intros [= <-] H. by rewrite mounted_cons, H, orb_true_r.
  - intros E H. by rewrite mounted_cons, (IH st' E H), orb_true_r.
Qed.

Lemma mounted_default_pop_to c n st :
  mounted c (default st (pop_to n st)) = true -> mounted c st = true.
Proof. destruct (pop_to n st) as [st'|] eqn:E; [apply mounted_pop_to with n; exact E | done]. Qed.

(** The incoming screen's navigations never bring the dashboard back. *)
Lemma stack_apply_incoming_nav n st :
  mounted ResponderDashboard st = false ->
  mounted ResponderDashboard (stack_apply (incoming_nav n) st) = false.
Proof.
  intros H. destruct n as [i|]; cbn [incoming_nav stack_apply].
  - assert (Hr : route_component "AlertDetails" = Some AlertDetailsScreen) by reflexivity.
    rewrite Hr, mounted_cons, bool_decide_eq_false_2 by done. cbn [orb].
    destruct (mounted _ (default st _)) eqn:E; [| done].
    apply mounted_default_pop_to in E. congruence.
  - destruct st as [|r [|r' st']]; try done. rewrite mounted_cons in H.
    by apply orb_false_iff in H as [_ H].
Qed.

Lemma Forall_incoming_navs ns :
  Forall (fun a => forall st, mounted ResponderDashboard st = false ->
                              mounted ResponderDashboard (stack_apply a st) = false)
    (map incoming_nav ns).
Proof. induction ns; constructor; auto using stack_apply_incoming_nav. Qed.

Section Steps.
Variable u : string.

Lemma remount_ensures a st st' app :
  st_ensures (fun app' => stack app' = st') (remount u a st st' app).
Proof.
  unfold remount. apply (st_ensures_bind _ (fun _ => True)).
  { destruct (_ && _); [cbn [dash_step] |]; by apply st_ensures_return. }
  intros d _. apply (st_ensures_bind _ (fun _ => True)).
  { destruct (_ && _); [apply Incoming.load_params_ensures |].
    destruct (_ && _); [apply Incoming.load_params_ensures | by apply st_ensures_return]. }
  intros s _. by apply st_ensures_return.
Qed.

Lemma apply_navs_unmounted acts app :
  Forall (fun a => forall st, mounted ResponderDashboard st = false ->
                              mounted ResponderDashboard (stack_apply a st) = false) acts ->
  mounted ResponderDashboard (stack app) = false ->
  st_ensures (fun app' => mounted ResponderDashboard (stack app') = false) (apply_navs u acts app).
Proof.
  intros Hacts. revert app. induction Hacts as [|a acts Ha _ IH]; intros app Hm.
  - by apply st_ensures_return.
  - cbn [apply_navs]. apply (st_ensures_bind _ _ _ _ (remount_ensures _ _ _ _)).
    intros app' Hs. apply IH. rewrite Hs. apply Ha, Hm.
Qed.

(** A handler of the incoming screen that never rejects leaves the stack. *)
Lemma incoming_handler_stack (m : M Incoming.Screen) app :
  st_ensures (fun _ => True) m ->
  st_ensures (fun app' => stack app' = stack app) (s' ← m; mret (set_incoming u s' app)).
Proof.
  intros Hm. apply (st_ensures_bind _ _ _ _ Hm). intros s' _. by apply st_ensures_return.
Qed.

Lemma deliver_unmounted ev app :
  mounted ResponderDashboard (stack app) = false ->
  st_ensures (fun app' => mounted ResponderDashboard (stack app') = false) (deliver u ev app).
Proof.
  intros Hm.
  assert (Hs : forall m : M AppState, st_ensures (fun app' => stack app' = stack app) m ->
                 st_ensures (fun app' => mounted ResponderDashboard (stack app') = false) m).
  { intros m. apply st_ensures_weaken. by intros ? ->. }
  destruct ev as [dev|b|now|now| |now id|now id]; cbn [deliver].
  - rewrite Hm. by apply st_ensures_return.
  - destruct (on_top ResponderDashboard (stack app)) eqn:Ht;
      [apply on_top_mounted in Ht; congruence | by apply st_ensures_return].
  - destruct (on_incoming app); [apply Hs, incoming_handler_stack, Incoming.accept_shown_ensures |
                                   by apply st_ensures_return].
  - destruct (on_incoming app); [apply Hs, incoming_handler_stack, Incoming.decline_shown_ensures |
                                   by apply st_ensures_return].
  - destruct (_ && _); [| by apply st_ensures_return].
    apply (st_ensures_bind _ _ _ _ (alerts_snapshot_ensures _ _)). intros. by apply st_ensures_return.
  - destruct (_ && _); [apply Hs, incoming_handler_stack, Incoming.screen_accept_ensures |
                        by apply st_ensures_return].
  - destruct (_ && _); [apply Hs, incoming_handler_stack, Incoming.screen_decline_ensures |
                        by apply st_ensures_return].
Qed.

Lemma app_step_unmounted ev app :
  mounted ResponderDashboard (stack app) = false ->
  st_ensures (fun app' => mounted ResponderDashboard (stack app') = false) (app_step u ev app).
Proof.
  intros Hm. unfold app_step. apply (st_ensures_bind _ _ _ _ (deliver_unmounted ev app Hm)).
  intros app1 Hm1. unfold flush. apply apply_navs_unmounted; [apply Forall_incoming_navs | done].
Qed.

Section SignedIn.
Hypothesis Hu : u <> "".

Lemma list_subscribed_signed_in s :
  Incoming.list_subscribed (Some u) s = negb (bool_decide (is_Some (Incoming.singleAlert s))).
Proof.
  unfold Incoming.list_subscribed. rewrite truthy_str_some by done. by rewrite andb_true_r.
Qed.

(** The dashboard's listener fires on a pending alert: the stack is reset to
    the incoming screen, which shows the alert in single mode; the
    dashboard is unmounted. *)
Lemma app_reset app db id a rest :
  mounted ResponderDashboard (stack app) = true -> isActive (dash app) = true ->
  pending_alerts u db = (id, a) :: rest ->
  exists d', app_step u (DashEv AlertsSnapshot) app db =
    (inr (mkApp [incoming_route (dash_params id a)] d'
            (Incoming.mkScreen [] (Some (None, a)) false None [] []) (mkAlertList [] []) 0), db).
Proof.
  intros Hm Ha Hp. unfold app_step, deliver. rewrite Hm.
  unfold mbind, st_mbind, st_bind. cbn [dash_step].
  rewrite (alertsSnapshot_pending u (dash app) db id a rest Hu Ha Hp).
  rewrite screen_notify_set_screen. cbn [dashboard_nav Incoming.params_of].
  unfold apply_navs, remount. cbn [stack]. rewrite Hm. app_unfold.
  eexists. reflexivity.
Qed.

Lemma app_accept_shown_fails now p d a db :
  app_step u (AcceptShown now)
    (mkApp [incoming_route p] d (Incoming.mkScreen [] (Some (None, a)) false None [] [])
       (mkAlertList [] []) 0) db =
  (inr (mkApp [incoming_route p] d
          (Incoming.mkScreen [] None false None [] [("Error", "Failed to accept alert.")])
          (mkAlertList [] []) 0), db).
Proof.
  unfold app_step, deliver, set_incoming, on_incoming, incoming_route.
  rewrite !list_subscribed_signed_in. app_unfold. reflexivity.
Qed.

Lemma app_decline_shown_fails now p d a db :
  app_step u (DeclineShown now)
    (mkApp [incoming_route p] d (Incoming.mkScreen [] (Some (None, a)) false None [] [])
       (mkAlertList [] []) 0) db =
  (inr (mkApp [incoming_route p] d
          (Incoming.mkScreen [] None false None [] [("Error", "Failed to decline alert.")])
          (mkAlertList [] []) 0), db).
Proof.
  unfold app_step, deliver, set_incoming, on_incoming, incoming_route.
  rewrite !list_subscribed_signed_in. app_unfold. reflexivity.
Qed.

(** Out of single mode, the list listener's first snapshot lists the
    responder's pending alerts, each with its document id. *)
Lemma app_list_snapshot st d dl db :
  mounted IncomingEmergencyScreen st = true ->
  app_step u ListSnapshot
    (mkApp st d (Incoming.mkScreen [] None false None [] dl) (mkAlertList [] []) 0) db =
  (inr (mkApp st d (Incoming.mkScreen [] None false None [] dl)
          (mkAlertList (pending_alerts u db) (pending_alerts u db).*1) 0), db).
Proof.
  intros Hm. unfold app_step, deliver. cbn [stack incoming]. rewrite Hm, list_subscribed_signed_in.
  unfold alerts_snapshot, st_get. app_unfold. rewrite filter_not_in_nil. reflexivity.
Qed.

Local Opaque handleAccept handleDecline.

Lemma app_accept_listed now p d dl l db id a r :
  id ∈ l.*1 -> responders_alerts db !! id = Some a -> responders db !! u = Some r ->
  app_step u (AcceptListed now id)
    (mkApp [incoming_route p] d (Incoming.mkScreen [] None false None [] dl)
       (mkAlertList l l.*1) 0) db =
  (inr (mkApp [mkRoute "AlertDetails" AlertDetailsScreen (AlertDetailsParams id); incoming_route p] d
          (Incoming.mkScreen [] None false None [Incoming.AlertDetails id]
             (dl ++ [("Accepted", "Emergency accepted. En route.")]))
          (mkAlertList l l.*1) 1),
   set_responders (<[u:=busy_with id r]> (responders db))
     (set_responders_alerts (<[id:=accept_update now u a]> (responders_alerts db)) db)).
Proof.
  intros Hid Ha Hr. unfold app_step, deliver, listed, set_incoming, incoming_route.
  cbn [stack incoming alertList shown]. rewrite (bool_decide_eq_true_2 (id ∈ l.*1)) by done.
  rewrite !list_subscribed_signed_in. app_unfold.
  rewrite (handleAccept_run now u id db a r Ha Hr). app_unfold. reflexivity.
Qed.

(** A successful decline goes back, which the navigator does not handle
    when the incoming screen is the only route. *)
Lemma app_decline_listed now p d dl l db id a :
  id ∈ l.*1 -> responders_alerts db !! id = Some a ->
  app_step u (DeclineListed now id)
    (mkApp [incoming_route p] d (Incoming.mkScreen [] None false None [] dl)
       (mkAlertList l l.*1) 0) db =
  (inr (mkApp [incoming_route p] d
          (Incoming.mkScreen [] None false None [Incoming.GoBack]
             (dl ++ [("Declined", "Alert declined. Returning to dashboard.")]))
          (mkAlertList l l.*1) 1),
   set_responders_alerts (<[id:=decline_update now a]> (responders_alerts db)) db).
Proof.
  intros Hid Ha. unfold app_step, deliver, listed, set_incoming, incoming_route.
  cbn [stack incoming alertList shown]. rewrite (bool_decide_eq_true_2 (id ∈ l.*1)) by done.
  rewrite !list_subscribed_signed_in. app_unfold.
  rewrite (handleDecline_run now id db a Ha). app_unfold. reflexivity.
Qed.
End SignedIn.
End Steps.

(** ** Properties *)

(** C19: the way the dashboard and the incoming-alert screen compose
    through the navigator.  When the dashboard's listener sees a pending
    alert it resets the stack to the incoming screen alone, which unmounts
    the dashboard.  Accept then goes like this: the first press fails
    ("Failed to accept alert.", the database unchanged), since the alert
    was passed without its id; the screen leaves single mode, the list
    listener lists the alert with its id, and Accept on the listed alert
    succeeds and opens AlertDetails.  Decline goes the same way, except
    that the successful decline says "Returning to dashboard." and goes
    back, which the navigator cannot do: the incoming screen stays the
    only route. *)
Theorem dashboard_alert_path u app db id a rest r now1 now2 :
  u <> "" -> mounted ResponderDashboard (stack app) = true -> isActive (dash app) = true ->
  pending_alerts u db = (id, a) :: rest -> responders db !! u = Some r ->
  (exists app',
     app_run u [DashEv AlertsSnapshot; AcceptShown now1; ListSnapshot; AcceptListed now2 id] app db =
       (inr app', set_responders (<[u:=busy_with id r]> (responders db))
                    (set_responders_alerts (<[id:=accept_update now2 u a]> (responders_alerts db)) db)) /\
     stack app' = [mkRoute "AlertDetails" AlertDetailsScreen (AlertDetailsParams id);
                   incoming_route (dash_params id a)] /\
     Incoming.dialogs (incoming app') =
       [("Error", "Failed to accept alert."); ("Accepted", "Emergency accepted. En route.")]) /\
  (exists app',
     app_run u [DashEv AlertsSnapshot; DeclineShown now1; ListSnapshot; DeclineListed now2 id] app db =
       (inr app', set_responders_alerts (<[id:=decline_update now2 a]> (responders_alerts db)) db) /\
     stack app' = [incoming_route (dash_params id a)] /\
     Incoming.dialogs (incoming app') =
       [("Error", "Failed to decline alert."); ("Declined", "Alert declined. Returning to dashboard.")]).
Proof.
  intros Hu Hm Ha Hp Hr.
  assert (Hid : id ∈ (pending_alerts u db).*1) by (rewrite Hp; left).
  assert (Hal : responders_alerts db !! id = Some a).
  { apply (pending_alerts_lookup u). rewrite Hp. left. }
  destruct (app_reset u Hu app db id a rest Hm Ha Hp) as [d' E1].
  split; eexists.
  - rewrite (app_run_step _ _ _ _ _ _ _ E1), (app_run_step _ _ _ _ _ _ _ (app_accept_shown_fails _ Hu _ _ _ _ _)),
      (app_run_step _ _ _ _ _ _ _ (app_list_snapshot _ Hu [incoming_route (dash_params id a)] _ _ _ eq_refl)),
      (app_run_step _ _ _ _ _ _ _ (app_accept_listed _ Hu now2 _ _ _ _ _ id a r Hid Hal Hr)).
    split_and!; reflexivity.
  - rewrite (app_run_step _ _ _ _ _ _ _ E1), (app_run_step _ _ _ _ _ _ _ (app_decline_shown_fails _ Hu _ _ _ _ _)),
      (app_run_step _ _ _ _ _ _ _ (app_list_snapshot _ Hu [incoming_route (dash_params id a)] _ _ _ eq_refl)),
      (app_run_step _ _ _ _ _ _ _ (app_decline_listed _ Hu now2 _ _ _ _ _ id a Hid Hal)).
    split_and!; reflexivity.
Qed.

(** C20: once the dashboard is off the stack -- as after its listener's
    reset -- no sequence of events of this repository's screens brings it
    back: the incoming screen only navigates to AlertDetails or goes
    back, and the dashboard's buttons and callbacks are not delivered
    while it is unmounted.  Every such run returns (no handler rejects),
    and in the state it ends in the dashboard is still unmounted, so its
    callbacks -- the 30 s heartbeat, the location interval, the alert
    listener -- reach nothing, however the alert was answered. *)
Theorem dashboard_never_remounted u evs app db :
  mounted ResponderDashboard (stack app) = false ->
  exists app' db', app_run u evs app db = (inr app', db') /\
    mounted ResponderDashboard (stack app') = false /\
    forall dev, deliver u (DashEv dev) app' = mret app'.
Proof.
  intros Hm. revert app db Hm. induction evs as [|ev evs IH]; intros app db Hm.
  - exists app, db. split_and!; [done | done |]. intros dev. cbn [deliver]. by rewrite Hm.
  - destruct (app_step_unmounted u ev app Hm db) as (app1 & db1 & E1 & Hm1).
    rewrite (app_run_step _ _ _ _ _ _ _ E1). apply IH, Hm1.
Qed.

(** ** Witnesses: responder "r1" on duty with the pending alert "rep1" *)

Definition app_on_dashboard : AppState :=
  mkApp [mkRoute "ResponderDashboard" ResponderDashboard NoParams] dash_on Incoming.screen_init
    (mkAlertList [] []) 0.

Lemma dashboard_alert_path_witness :
  mounted ResponderDashboard (stack app_on_dashboard) = true /\
  pending_alerts "r1" lifecycle_db = [("rep1", scenario_alert)] /\
  exists app',
    app_run "r1" [DashEv AlertsSnapshot; DeclineShown 3000; ListSnapshot; DeclineListed 3100 "rep1"]
      app_on_dashboard lifecycle_db =
      (inr app', set_responders_alerts (<[ "rep1" := decline_update 3100 scenario_alert]>
                                          (responders_alerts lifecycle_db)) lifecycle_db) /\
    stack app' = [incoming_route (dash_params "rep1" scenario_alert)].
Proof.
  assert (Hm : mounted ResponderDashboard (stack app_on_dashboard) = true) by reflexivity.
  assert (Hp : pending_alerts "r1" lifecycle_db = [("rep1", scenario_alert)]) by reflexivity.
  split_and!; [exact Hm | exact Hp |].
  destruct (dashboard_alert_path "r1" app_on_dashboard lifecycle_db "rep1" scenario_alert []
              scenario_busy 3000 3100 ltac:(done) Hm eq_refl Hp eq_refl)
    as [_ (app' & E & S & _)].
  exists app'. split; [exact E | exact S].
Defined.

(** After the reset and a decline from the list, History and a heartbeat
    tick change nothing. *)
Definition app_after_reset : AppState :=
  mkApp [incoming_route (dash_params "rep1" scenario_alert)] dash_init
    (Incoming.mkScreen [] (Some (None, scenario_alert)) false None [] []) (mkAlertList [] []) 0.

Lemma dashboard_never_remounted_witness :
  mounted ResponderDashboard (stack app_after_reset) = false /\
  exists app' db',
    app_run "r1" [DeclineShown 3000; ListSnapshot; DeclineListed 3100 "rep1";
                  GridPress HistoryButton; DashEv (HeartbeatTick 3200)] app_after_reset lifecycle_db =
      (inr app', db') /\ mounted ResponderDashboard (stack app') = false.
Proof.
  assert (Hm : mounted ResponderDashboard (stack app_after_reset) = false) by reflexivity.
  split; [exact Hm |].
  destruct (dashboard_never_remounted "r1"
              [DeclineShown 3000; ListSnapshot; DeclineListed 3100 "rep1";
               GridPress HistoryButton; DashEv (HeartbeatTick 3200)] app_after_reset lifecycle_db Hm)
    as (app' & db' & E & M & _).
  exists app', db'. split; [exact E | exact M].
Defined.
