(* ===== verification/Legacy.v ===== *)
(** * Legacy: the stale copy of the functions' entry point
      (Screens/Shared/fake index.js)

    The client tree keeps an older [index.js] of the Cloud Functions.  It
    exports the same OTP handlers (loaded lazily, lines 11-18 and 45-63)
    and a [createEmergencyReport] (lines 76-158) that validates and stores
    the report like the deployed one but routes it differently: a security
    report is copied to [responders_alerts] as it is, with no assignment,
    no [emergencyId] and no push message; a medical report is copied to
    the clinic without the post to the administrative back end; and the
    report has no [notes] field.

    The theorems compare it with the deployed handler of [Intake]: a
    caller cannot tell the two apart (same answers, same errors), while a
    security report stored by the copy never reaches any responder's
    incoming-alert listener ([Dashboard.pending_alerts]). *)

From S2P Require Import Prelude Geo Store Registry Assigner Intake Otp Callable Dashboard.
From Stdlib Require Import QArith_base.
Local Close Scope Q_scope.

Module Legacy.

(** [newReport] (lines 101-112): no [notes]. *)
Definition newReport (now : Z) (type : string) (location : Location)
    (createdByUID : string) (req : EmergencyRequest) : Report.t :=
  Report.mk type location (str_or (req_details req) "") None
    (str_or (req_urgency req) "medium") (str_or (req_contactMethod req) "chat")
    (default [] (req_additionalInfo req)) createdByUID
    (str_or (req_displayCode req) "ANON") now Report.pending None.

(** [{...newReport, routedAt: new Date()}] stored in [responders_alerts]
    (lines 120-126): no [emergencyId], no [assignedResponder]; the
    report's [createdAt] comes along. *)
Definition routedAlert (now : Z) (r : Report.t) : Alert.t :=
  Alert.mk None (Report.type r) (Report.details r) (Report.urgency r)
    (Report.createdByUID r) (Report.displayCode r) (Report.location r)
    (Report.additionalInfo r) None Alert.pending now None None None (Some (Report.createdAt r)).

(** Lines 82-157 *)
Definition createEmergencyReport (now : Z) (reportId : string)
    (req : EmergencyRequest) : M string :=
  rethrow
    (match str_val (req_type req), req_location req, str_val (req_createdByUID req) with
     | Some type, Some location, Some createdByUID =>
         let report := newReport now type location createdByUID req in
         _ ← doc_set emergencies_c reportId report;
         _ ← st_when (bool_decide (type = "security"))
               (doc_set alerts_c reportId (routedAlert now report));
         _ ← st_when (bool_decide (type = "medical"))
               (doc_set clinic_c reportId (mkRouted report now));
         _ ← st_when (bool_decide (type = "fire"))
               (doc_set fireDept_c reportId (mkRouted report now));
         mret reportId
     | _, _, _ => st_throw (JsError "Missing required emergency fields.")
     end).

(** The exports (lines 46-63 and 76-158). *)
Definition sendOtp_call (clock : option Z) (u : Q) (mail : MailOutcome)
    (req : SendOtpRequest) : M string :=
  onCall (sendOtpHandler clock u mail req).

Definition verifyOtp_call (clock : option Z) (newUid : string) (req : VerifyOtpRequest) :
    M string :=
  onCall (verifyOtpHandler clock newUid req).

Definition createEmergencyReport_call (now : Z) (reportId : string)
    (req : EmergencyRequest) : M string :=
  onCall (createEmergencyReport now reportId req).

(** ** Lemmas *)

(** What a valid request leaves behind. *)
Definition legacy_state (now : Z) (reportId type : string) (location : Location)
    (createdByUID : string) (req : EmergencyRequest) (db : DB) : DB :=
  let report := newReport now type location createdByUID req in
  let db1 := set_emergencies (<[reportId:=report]> (emergencies db)) db in
  let db2 := if bool_decide (type = "security")
             then set_responders_alerts (<[reportId:=routedAlert now report]>
                                           (responders_alerts db1)) db1
             else db1 in
  let db3 := if bool_decide (type = "medical")
             then set_clinic (<[reportId:=mkRouted report now]> (clinic_emergencies db2)) db2
             else db2 in
  if bool_decide (type = "fire")
  then set_fireDept (<[reportId:=mkRouted report now]> (fireDept_emergencies db3)) db3
  else db3.

Lemma createEmergencyReport_run now reportId req type location createdByUID db :
  str_val (req_type req) = Some type -> req_location req = Some location ->
  str_val (req_createdByUID req) = Some createdByUID ->
  createEmergencyReport now reportId req db =
    (inr reportId, legacy_state now reportId type location createdByUID req db).
Proof.
  intros Ht Hl Hc. unfold createEmergencyReport, legacy_state. rewrite Ht, Hl, Hc.
  handler_unfold. by repeat case_bool_decide.
Qed.

Lemma legacy_invalid now reportId req db :
  str_val (req_type req) = None \/ req_location req = None \/
  str_val (req_createdByUID req) = None ->
  createEmergencyReport now reportId req db =
    (inl (JsError "Missing required emergency fields."), db).
Proof.
  intros Hmiss. unfold createEmergencyReport.
  destruct (str_val (req_type req)), (req_location req),
    (str_val (req_createdByUID req)); try reflexivity.
  exfalso. naive_solver.
Qed.

(** No document of a responder's listener query has the id of an alert
    with no [assignedResponder]. *)
Lemma pending_alerts_unassigned u db reportId a :
  responders_alerts db !! reportId = Some a -> Alert.assignedResponder a = None ->
  reportId ∉ (pending_alerts u db).*1.
Proof.
  intros Ha Hnone Hin. apply list_elem_of_fmap in Hin as [[id a'] [-> Hin]].
  unfold pending_alerts in Hin. rewrite sort_by_id_perm in Hin.
  apply list_elem_of_filter in Hin as [[Hu _] Hin%elem_of_map_to_list]. cbn in *.
  congruence.
Qed.

Lemma onCall_same_result {A} (m m' : M A) db :
  st_result m db = st_result m' db -> st_result (onCall m) db = st_result (onCall m') db.
Proof.
  unfold st_result, onCall, st_catch. destruct (m db) as [[e|a] s1], (m' db) as [[e'|a'] s2];
    cbn; intros; simplify_eq; [destruct e'; reflexivity | reflexivity].
Qed.

(** ** Properties *)

(** C16: the legacy copy stores a valid security report and copies it to
    [responders_alerts] pending but with no [assignedResponder]: the
    registry is untouched, no push message is sent, and the alert is in
    no responder's incoming-alert query, so nobody is ever alerted.  The
    specification has the Assigner choose the nearest active responder. *)
Theorem legacy_security_never_assigned now reportId req location createdByUID db :
  str_val (req_type req) = Some "security" -> req_location req = Some location ->
  str_val (req_createdByUID req) = Some createdByUID ->
  exists db',
    createEmergencyReport now reportId req db = (inr reportId, db') /\
    emergencies db' !! reportId = Some (newReport now "security" location createdByUID req) /\
    responders_alerts db' !! reportId =
      Some (routedAlert now (newReport now "security" location createdByUID req)) /\
    responders db' = responders db /\ outbox db' = outbox db /\
    forall u, reportId ∉ (pending_alerts u db').*1.
Proof.
  intros Ht Hl Hc. eexists. split; [exact (createEmergencyReport_run _ _ _ _ _ _ _ Ht Hl Hc) |].
  unfold legacy_state. simpl_bool_decide. destruct db. cbn.
  rewrite !lookup_insert_eq. split_and!; [done.. |].
  intros u. eapply pending_alerts_unassigned; [cbn; by rewrite lookup_insert_eq | done].
Qed.

(** C32: seen from a caller the legacy copy refines the deployed
    function: on every request and database both answer the same -- the
    report's id for a valid request, [internal]/["INTERNAL"] for an
    invalid one. *)
Theorem legacy_same_response `{Metric D} now reportId req db :
  st_result (createEmergencyReport_call now reportId req) db =
  st_result (Callable.createEmergencyReport_call now reportId req) db.
Proof.
  apply onCall_same_result. unfold st_result.
  destruct (str_val (req_type req)) as [t|] eqn:Ht;
    [destruct (req_location req) as [l|] eqn:Hl;
     [destruct (str_val (req_createdByUID req)) as [c|] eqn:Hc |] |].
  - destruct (createEmergencyReport_valid now reportId req t l c db Ht Hl Hc) as [db' ->].
    by rewrite (createEmergencyReport_run _ _ _ _ _ _ _ Ht Hl Hc).
  - rewrite legacy_invalid, Intake.createEmergencyReport_invalid;
      naive_solver.
  - rewrite legacy_invalid, Intake.createEmergencyReport_invalid;
      naive_solver.
  - rewrite legacy_invalid, Intake.createEmergencyReport_invalid;
      naive_solver.
Qed.

(** ** Witness *)

Lemma legacy_security_never_assigned_witness :
  exists db', createEmergencyReport 1000 "rep9" (sample_request "security") scenario_db =
                (inr "rep9", db') /\ responders db' = responders scenario_db.
Proof.
  destruct (legacy_security_never_assigned 1000 "rep9" (sample_request "security")
              scenario_report_location "student-1" scenario_db)
    as (db' & Hrun & _ & _ & Hr & _); [reflexivity.. |].
  exists db'. split; [exact Hrun | exact Hr].
Defined.

End Legacy.
