(* ===== verification/System.v ===== *)
(** * System: the handlers composed into runs of the whole application

    The specification's invariant "a responder's [assignedEmergency] is set
    iff its status is [busy]" ([Registry.registry_ok]) is a property of the
    whole system: reports (through the deployed function or the legacy
    copy), accepts, declines, completions and sweeps all write the
    registry.  [Op] names one call of a handler with its inputs, [run_op]
    runs it as the code does (callable exports through [onCall]), and a
    run of the system is a sequence of operations, each on the database
    the previous one left ([run_ops]).  The heartbeat and the dashboard's
    toggle are operations too; the theorem shows they are the ones that
    break the invariant. *)

From S2P Require Import Prelude Geo Store Registry Assigner Intake Lifecycle Liveness Callable Dashboard Legacy.
From Stdlib Require Import QArith_base.
Local Close Scope Q_scope.

Inductive Op :=
| ReportOp (now : Z) (reportId : string) (req : EmergencyRequest)
| LegacyReportOp (now : Z) (reportId : string) (req : EmergencyRequest)
| AcceptOp (now : Z) (uid alertId : string)
| DeclineOp (now : Z) (alertId : string)
| CompleteOp (now : Z) (req : CompleteRequest)
| SweepOp (now : Z)
| HeartbeatOp (now : Z) (req : HeartbeatRequest)
| ToggleOp (uid : option string) (now : Z) (permission : bool) (token : option string) (d : Dash).

Section System.
Context `{Metric D}.

Definition run_op (o : Op) : M unit :=
  match o with
  | ReportOp now reportId req => _ ← createEmergencyReport_call now reportId req; mret tt
  | LegacyReportOp now reportId req =>
      _ ← Legacy.createEmergencyReport_call now reportId req; mret tt
  | AcceptOp now uid alertId => _ ← handleAccept now uid alertId; mret tt
  | DeclineOp now alertId => _ ← handleDecline now alertId; mret tt
  | CompleteOp now req => completeEmergency_call now req
  | SweepOp now => _ ← markInactiveResponders now; mret tt
  | HeartbeatOp now req => updateResponderHeartbeat_call now req
  | ToggleOp uid now permission token d => _ ← dash_step uid (Toggle now permission token) d; mret tt
  end.

(** The operations a run goes through, in order; an operation that fails
    leaves its writes and the run goes on. *)
Fixpoint run_ops (ops : list Op) (db : DB) : DB :=
  match ops with
  | [] => db
  | o :: ops' => run_ops ops' (snd (run_op o db))
  end.

(** The operations of the alert lifecycle, the registry's own writers
    excepted. *)
Definition lifecycle_op (o : Op) : bool :=
  match o with
  | HeartbeatOp _ _ | ToggleOp _ _ _ _ _ => false
  | _ => true
  end.

(** ** Lemmas *)

(** An operation that leaves [responders] alone keeps the invariant. *)
Lemma frame_ok {A} (m : M A) :
  (forall db, responders (snd (m db)) = responders db) -> st_preserves registry_ok m.
Proof. intros Hm db Hok. unfold registry_ok in *. by rewrite Hm. Qed.

Lemma doc_set_emergencies_ok id v : st_preserves registry_ok (doc_set emergencies_c id v).
Proof. apply frame_ok. by intros []. Qed.
Lemma doc_set_alerts_ok id v : st_preserves registry_ok (doc_set alerts_c id v).
Proof. apply frame_ok. by intros []. Qed.
Lemma doc_set_clinic_ok id v : st_preserves registry_ok (doc_set clinic_c id v).
Proof. apply frame_ok. by intros []. Qed.
Lemma doc_set_fireDept_ok id v : st_preserves registry_ok (doc_set fireDept_c id v).
Proof. apply frame_ok. by intros []. Qed.

Lemma emit_ok e : st_preserves registry_ok (emit e).
Proof. apply frame_ok. by intros []. Qed.

Lemma notify_assigned_ok reportId type location req assigned :
  st_preserves registry_ok (notify_assigned reportId type location req assigned).
Proof. apply frame_ok. intros db. by rewrite notify_assigned_run. Qed.

Lemma onCall_ok_preserves {A} (m : M A) :
  st_preserves registry_ok m -> st_preserves registry_ok (onCall m).
Proof.
  intros Hm. unfold onCall. apply st_preserves_catch; [done |].
  intros []; apply st_preserves_throw.
Qed.

#[local] Hint Resolve doc_set_emergencies_ok doc_set_alerts_ok doc_set_clinic_ok
  doc_set_fireDept_ok emit_ok notify_assigned_ok
  assignNearestResponder_registry_ok : alertivo.

Local Opaque assignNearestResponder notify_assigned.

Lemma createEmergencyReport_registry_ok now reportId req :
  st_preserves registry_ok (createEmergencyReport now reportId req).
Proof.
  unfold createEmergencyReport, rethrow. apply st_preserves_catch; [| intros; apply st_preserves_throw].
  repeat case_match; st_preserve; auto 6 with alertivo.
Qed.

Lemma legacy_registry_ok now reportId req :
  st_preserves registry_ok (Legacy.createEmergencyReport now reportId req).
Proof.
  unfold Legacy.createEmergencyReport, rethrow.
  apply st_preserves_catch; [| intros; apply st_preserves_throw].
  repeat case_match; st_preserve; auto 6 with alertivo.
Qed.

Lemma bind_ret_ok {A} (m : M A) :
  st_preserves registry_ok m -> st_preserves registry_ok (_ ← m; mret tt).
Proof. intros Hm. apply st_preserves_bind; [done | intros; apply st_preserves_return]. Qed.

Lemma run_op_registry_ok o :
  lifecycle_op o = true -> st_preserves registry_ok (run_op o).
Proof.
  destruct o; cbn; intros Ho; try done.
  - apply bind_ret_ok, onCall_ok_preserves, createEmergencyReport_registry_ok.
  - apply bind_ret_ok, onCall_ok_preserves, legacy_registry_ok.
  - apply bind_ret_ok, (lifecycle_registry_ok now uid alertId (mkCompleteRequest None None)).
  - apply bind_ret_ok, (lifecycle_registry_ok now "" alertId (mkCompleteRequest None None)).
  - apply onCall_ok_preserves, (lifecycle_registry_ok now "" "" req).
  - apply bind_ret_ok, markInactiveResponders_registry_ok.
Qed.

Lemma run_ops_app ops ops' db : run_ops (ops ++ ops') db = run_ops ops' (run_ops ops db).
Proof. revert db. induction ops as [|o ops IH]; intros db; [done | apply IH]. Qed.

Lemma run_ops_registry_ok ops db :
  Forall (fun o => lifecycle_op o = true) ops -> registry_ok db -> registry_ok (run_ops ops db).
Proof.
  intros Hops. revert db. induction Hops as [|o ops Ho _ IH]; intros db Hok; [done |].
  apply IH, (run_op_registry_ok o Ho db Hok).
Qed.

(** A heartbeat of a busy responder that holds its emergency. *)
Lemma heartbeat_breaks_busy now u loc db r :
  u <> "" -> responders db !! u = Some r -> Responder.status r = Responder.busy ->
  is_Some (Responder.assignedEmergency r) ->
  ~ registry_ok (snd (run_op (HeartbeatOp now (mkHeartbeatRequest (Some u) loc)) db)).
Proof.
  intros Hu Hr Hb Ha Hok. cbn [run_op] in Hok.
  unfold updateResponderHeartbeat_call in Hok.
  rewrite (onCall_ok _ _ _ _ (updateResponderHeartbeat_ok now u loc db r Hu Hr)) in Hok.
  cbn in Hok. unfold registry_ok in Hok. cbn in Hok.
  specialize (Hok u _ (lookup_insert_eq _ _ _)). apply Hok in Ha. done.
Qed.

(** ** Property *)

(** C14: "assigned iff busy" (spec section 3) holds along every run of the
    system made of reports (deployed or legacy), accepts, declines,
    completions and sweeps, in any order and whether each call succeeds
    or fails; and one heartbeat of a responder who is busy at the end of
    such a run breaks it, since the heartbeat writes [active] and keeps
    [assignedEmergency]. *)
Theorem system_registry_ok ops db :
  registry_ok db -> Forall (fun o => lifecycle_op o = true) ops ->
  registry_ok (run_ops ops db) /\
  (forall now u loc r, u <> "" -> responders (run_ops ops db) !! u = Some r ->
     Responder.status r = Responder.busy ->
     ~ registry_ok (run_ops (ops ++ [HeartbeatOp now (mkHeartbeatRequest (Some u) loc)]) db)).
Proof.
  intros Hok Hops. pose proof (run_ops_registry_ok ops db Hops Hok) as Hok'.
  split; [done |]. intros now u loc r Hu Hr Hb.
  rewrite run_ops_app. cbn [run_ops].
  apply (heartbeat_breaks_busy now u loc _ r Hu Hr Hb). by apply (Hok' u r Hr).
Qed.

End System.

(** ** Witness: responder "r1" busy with "rep1", a report and a sweep *)

Lemma lifecycle_db_ok : registry_ok lifecycle_db.
Proof.
  apply map_Forall_singleton. unfold assigned_iff_busy. cbn. split; [done | eauto].
Qed.

Lemma system_registry_ok_witness :
  registry_ok lifecycle_db /\
  Forall (fun o => lifecycle_op o = true) [SweepOp 5000; DeclineOp 5100 "rep1"] /\
  registry_ok (@run_ops Z grid_metric [SweepOp 5000; DeclineOp 5100 "rep1"] lifecycle_db).
Proof.
  assert (Hops : Forall (fun o => lifecycle_op o = true) [SweepOp 5000; DeclineOp 5100 "rep1"])
    by (repeat constructor).
  split_and!; [exact lifecycle_db_ok | exact Hops |].
  exact (proj1 (@system_registry_ok Z grid_metric _ lifecycle_db lifecycle_db_ok Hops)).
Defined.
