(* ===== verification/Tracking.v ===== *)
(** * Tracking: the student's emergency tracking screen
      (Screens/Students/Confirmation.js)

    After a report is sent the student sees [EmergencyTracking]: a
    timeline of steps chosen by the report's type (lines 26-40), advanced
    by a chain of 2.5 s timers (lines 48-63), a call button that fetches a
    video-call token for the report and joins the call (lines 66-104), and
    a cancel button (lines 207-212).  The screen reads and writes nothing
    in Firestore: the timeline is a simulation.

    [Screen] is the component's state ([timeline], [stepIndex], [inCall],
    [loadingCall], [hmsInstance]), with the dialogs it raises and the time
    its timers have taken; [render] is what the screen draws from it.  The timer chain is the relation [timer_step];
    [run_timeline] runs it to the end, defined with Equations by
    well-founded recursion on the number of steps left. *)

From S2P Require Import Prelude.
From Equations Require Import Equations.

Module Tracking.

(** A step's [status] string: ["done"], ["current"] or ["pending"]. *)
Inductive step_status := done | current | pending.

#[export] Instance step_status_eq_dec : EqDecision step_status.
Proof. solve_decision. Defined.

Record Step := mkStep { text : string; status : step_status }.

(** [route.params]: [undefined] fields are [None]. *)
Record Params := mkParams {
  p_type : option string;
  p_reportId : option string;
  p_contactMethod : option string
}.

(** [const { type = "security", ..., contactMethod = "both" } = route.params || {}]:
    a destructuring default replaces [undefined] only. *)
Definition param_type (p : Params) : string := default "security" (p_type p).
Definition param_contactMethod (p : Params) : string := default "both" (p_contactMethod p).

(** Lines 26-40 *)
Definition initial_timeline (type : string) : list Step :=
  if String.eqb type "medical" || String.eqb type "fire" then
    [mkStep "Searching nearest responder…" current;
     mkStep "Responder assigned and notified" pending]
  else
    [mkStep "Searching nearest responder…" current;
     mkStep "Responder found: [Name/ID]" pending;
     mkStep "Responder notified" pending;
     mkStep "Responder is on the way" pending].

(** The 100ms SDK instance, kept only as present or not. *)
Inductive HmsInstance := hms_joined.

Record Screen := mkScreen {
  timeline : list Step;
  stepIndex : nat;
  inCall : bool;
  loadingCall : bool;
  hmsInstance : option HmsInstance;
  dialogs : list (string * string);   (** [Alert.alert(title, message)] *)
  elapsed : Z                          (** time spent in the timers, in ms *)
}.

Definition screen_init (p : Params) : Screen :=
  mkScreen (initial_timeline (param_type p)) 0 false false None [] 0.

Definition show (title msg : string) (s : Screen) : Screen :=
  mkScreen (timeline s) (stepIndex s) (inCall s) (loadingCall s) (hmsInstance s)
    (dialogs s ++ [(title, msg)]) (elapsed s).

(** ** The timer chain (lines 48-63) *)

Definition TIMER_MS : Z := 2500.

(** [newSteps[i].status = st]; the callback only runs with [i] in range. *)
Definition set_status (i : nat) (st : step_status) (l : list Step) : list Step :=
  alter (fun x => mkStep (text x) st) i l.

(** The [setTimeline] updater of lines 51-58.  [[...prev]] copies the
    array but not its step objects, so the assignments also change the
    objects of [prev]; [prev] is not read again, so the new array is all
    that matters. *)
Definition advance (i : nat) (l : list Step) : list Step :=
  let l' := set_status i done l in
  if decide (S i < length l') then set_status (S i) current l' else l'.

(** The effect: [if (stepIndex < timeline.length)] a timer is set. *)
Definition timer_pending (s : Screen) : bool :=
  bool_decide (stepIndex s < length (timeline s)).

(** The timer fires: the updater runs and [setStepIndex(stepIndex + 1)]. *)
Definition fire (s : Screen) : Screen :=
  mkScreen (advance (stepIndex s) (timeline s)) (S (stepIndex s)) (inCall s)
    (loadingCall s) (hmsInstance s) (dialogs s) (elapsed s + TIMER_MS).

Inductive timer_step : Screen -> Screen -> Prop :=
| timer_fires s : stepIndex s < length (timeline s) -> timer_step s (fire s).

Lemma length_set_status i st l : length (set_status i st l) = length l.
Proof. apply length_alter. Qed.

Lemma length_advance i l : length (advance i l) = length l.
Proof. unfold advance. case_decide; by rewrite ?length_set_status. Qed.

(** Run the timers until none is pending. *)
Equations? run_timeline (s : Screen) : Screen
  by wf (length (timeline s) - stepIndex s) lt :=
  run_timeline s with decide (stepIndex s < length (timeline s)) => {
    | left _ := run_timeline (fire s);
    | right _ := s }.
Proof. cbn. rewrite length_advance. lia. Qed.

(** ** The call (lines 66-104) *)

(** The outcomes of the calls the code awaits: the token fetch from the
    administrative back end ([Some token] when [res.ok]) and
    [instance.join(config)] ([None] when it resolves, the error's message
    when it rejects). *)
Record CallEnv := mkCallEnv {
  token_response : option string;
  join_error : option string;
  on_join_early : bool   (** [ON_JOIN] is emitted before [join] resolves *)
}.

Definition set_loading (b : bool) (s : Screen) : Screen :=
  mkScreen (timeline s) (stepIndex s) (inCall s) b (hmsInstance s) (dialogs s) (elapsed s).

Definition joined (s : Screen) : Screen :=
  mkScreen (timeline s) (stepIndex s) (inCall s) (loadingCall s) (Some hms_joined)
    (dialogs s) (elapsed s).

(** The [ON_JOIN] listener, once registered. *)
Definition on_join (s : Screen) : Screen :=
  show "Call Started" "Waiting for clinic staff to join..."
    (mkScreen (timeline s) (stepIndex s) true (loadingCall s) (hmsInstance s)
       (dialogs s) (elapsed s)).

(** The [try] block: it throws the message the [catch] shows. *)
Definition call_attempt (env : CallEnv) (s : Screen) : string + Screen :=
  match token_response env with
  | None => inl "Failed to get token"
  | Some _ =>
      match join_error env with
      | Some msg => inl msg
      | None =>
          (* the listener is added after [await instance.join(config)];
             an [ON_JOIN] emitted during the join has no listener yet *)
          let s := if on_join_early env then s else on_join s in
          inr (joined s)
      end
  end.

Definition startCall (p : Params) (env : CallEnv) (s : Screen) : Screen :=
  match str_val (p_reportId p) with
  | None => show "Error" "No emergency ID found" s
  | Some _ =>
      let s := set_loading true s in
      let s := match call_attempt env s with
               | inl msg => show "Call Failed" (str_or (Some msg) "Could not start call") s
               | inr s' => s'
               end in
      set_loading false s
  end.

(** ** The rest of the screen *)

(** Lines 184 and 201: which contact buttons are shown. *)
Definition shows_call (p : Params) : bool :=
  String.eqb (param_contactMethod p) "call" || String.eqb (param_contactMethod p) "both".
Definition shows_chat (p : Params) : bool :=
  String.eqb (param_contactMethod p) "chat" || String.eqb (param_contactMethod p) "both".

(** Lines 115-135 *)
Definition getTitle (p : Params) : string :=
  if String.eqb (param_type p) "medical" then "Medical Emergency Sent"
  else if String.eqb (param_type p) "fire" then "Fire Emergency Sent"
  else "Security Emergency Sent".

Definition getSubtitle (p : Params) : string :=
  if String.eqb (param_type p) "medical" then "We are alerting nearby medical responders."
  else if String.eqb (param_type p) "fire" then "We are alerting nearby fire responders."
  else "We are notifying security responders nearby.".

(** Lines 207-212: the cancel button only shows a dialog. *)
Definition cancelRequest (s : Screen) : Screen :=
  show "Cancelled" "Emergency request cancelled." s.

(** ** What the screen shows (lines 137-214) *)

(** A timeline step's text and classes (lines 152-174). *)
Record StepView := mkStepView {
  sv_text : string;
  sv_done : bool;          (** [styles.done], [styles.dotDone] *)
  sv_current : bool;       (** [styles.current], [styles.dotCurrent] *)
  sv_pendingText : bool    (** [styles.pendingText] *)
}.

Definition step_view (x : Step) : StepView :=
  mkStepView (text x) (bool_decide (status x = done)) (bool_decide (status x = current))
    (bool_decide (status x = pending)).

Inductive CallLabel := CallSpinner | OnCallLabel | StartCallLabel.

(** The call button (lines 184-198). *)
Record CallButton := mkCallButton { cb_disabled : bool; cb_label : CallLabel }.

Record View := mkView {
  view_title : string;
  view_subtitle : string;
  view_steps : list StepView;
  view_call : option CallButton;
  view_chat : bool
}.

Definition render (p : Params) (s : Screen) : View :=
  mkView (getTitle p) (getSubtitle p) (map step_view (timeline s))
    (if shows_call p
     then Some (mkCallButton (loadingCall s || inCall s)
                  (if loadingCall s then CallSpinner
                   else if inCall s then OnCallLabel else StartCallLabel))
     else None)
    (shows_chat p).

(** ** Lemmas *)

(** The status a step has when the timeline is at [i]. *)
Definition expected (i j : nat) : step_status :=
  if decide (j < i) then done else if decide (j = i) then current else pending.

(** The timeline's shape: the steps before [stepIndex] are done, the step
    at [stepIndex] is current, the later ones are pending. *)
Definition shaped (s : Screen) : Prop :=
  (stepIndex s <= length (timeline s))%nat /\
  (forall j x, timeline s !! j = Some x -> status x = expected (stepIndex s) j).

Lemma lookup_set_status i st l j :
  set_status i st l !! j =
    if decide (j = i) then (fun x => mkStep (text x) st) <$> l !! j else l !! j.
Proof.
  unfold set_status. rewrite list_lookup_alter. by repeat case_decide; subst.
Qed.

Lemma lookup_advance i l j x :
  advance i l !! j = Some x ->
  exists y, l !! j = Some y /\ text x = text y /\
    (status x = if decide (j = i) then done
                else if decide (j = S i) then current else status y).
Proof.
  intros Hx. unfold advance in Hx. rewrite length_set_status in Hx.
  destruct (l !! j) as [y|] eqn:Hy.
  - exists y. split; [done |].
    case_decide; rewrite ?lookup_set_status, ?Hy in Hx;
      repeat case_decide; simplify_eq/=; try done; try lia.
    (* the step after the last one does not exist *)
    apply lookup_lt_Some in Hy. lia.
  - exfalso. case_decide; rewrite ?lookup_set_status, ?Hy in Hx;
      repeat case_decide; simplify_eq/=.
Qed.

Lemma fire_shaped s :
  stepIndex s < length (timeline s) -> shaped s -> shaped (fire s).
Proof.
  intros Hlt [_ Hs]. split; cbn; [rewrite length_advance; lia |].
  intros j x Hx. apply lookup_advance in Hx as (y & Hy & _ & ->).
  specialize (Hs j y Hy). unfold expected in *.
  repeat case_decide; subst; try lia; done.
Qed.

Lemma init_shaped p : shaped (screen_init p).
Proof.
  unfold screen_init, initial_timeline. split; cbn; [case_match; cbn; lia |].
  intros j x. case_match;
    destruct j as [|[|[|[|j]]]]; cbn; intros Hx; simplify_eq/=; done.
Qed.

Lemma timer_step_inv s s' : timer_step s s' -> s' = fire s /\ stepIndex s < length (timeline s).
Proof. by inversion 1. Qed.

Lemma timer_nf s : ~ stepIndex s < length (timeline s) -> nf timer_step s.
Proof. intros Hn [s' Hs']. by apply timer_step_inv in Hs' as [_ ?]. Qed.

Lemma run_timeline_fire s :
  stepIndex s < length (timeline s) -> run_timeline s = run_timeline (fire s).
Proof. intros H. simp run_timeline. destruct (decide _); [by simp run_timeline | lia]. Qed.

Lemma run_timeline_stop s :
  ~ stepIndex s < length (timeline s) -> run_timeline s = s.
Proof. intros H. simp run_timeline. destruct (decide _); [lia | by simp run_timeline]. Qed.

Lemma run_timeline_steps s :
  nsteps timer_step (length (timeline s) - stepIndex s) s (run_timeline s) /\
  nf timer_step (run_timeline s).
Proof.
  remember (length (timeline s) - stepIndex s) as n eqn:Hn. revert s Hn.
  induction n as [|n IH]; intros s Hn.
  - rewrite run_timeline_stop by lia. split; [constructor | apply timer_nf; lia].
  - rewrite run_timeline_fire by lia.
    destruct (IH (fire s)) as [Hs Hnf]; [cbn; rewrite length_advance; lia |].
    split; [| done]. econstructor; [constructor; lia | done].
Qed.

Lemma run_timeline_elapsed s :
  elapsed (run_timeline s) =
    (elapsed s + TIMER_MS * Z.of_nat (length (timeline s) - stepIndex s))%Z.
Proof.
  remember (length (timeline s) - stepIndex s) as n eqn:Hn. revert s Hn.
  induction n as [|n IH]; intros s Hn.
  - rewrite run_timeline_stop by lia. lia.
  - rewrite run_timeline_fire by lia.
    rewrite (IH (fire s)); cbn; rewrite ?length_advance; lia.
Qed.

(** [sn] is strong normalisation: every chain of firings is finite. *)
Lemma timer_sn s : sn timer_step s.
Proof.
  remember (length (timeline s) - stepIndex s) as n eqn:Hn. revert s Hn.
  induction n as [n IH] using (well_founded_induction lt_wf). intros s Hn.
  constructor. intros s' Hs'. apply timer_step_inv in Hs' as [-> Hlt].
  eapply IH; [| reflexivity]. cbn. rewrite length_advance. lia.
Qed.

Lemma advance_text i l : map text (advance i l) = map text l.
Proof.
  apply list_eq. intros j. rewrite !list_lookup_fmap.
  destruct (advance i l !! j) as [x|] eqn:Hx.
  - apply lookup_advance in Hx as (y & Hy & Ht & _). rewrite Hy. cbn. by rewrite Ht.
  - rewrite lookup_ge_None, length_advance in Hx. by rewrite (lookup_ge_None_2 l j).
Qed.

Lemma shaped_done s :
  shaped s -> ~ stepIndex s < length (timeline s) ->
  Forall (fun x => status x = done) (timeline s).
Proof.
  intros [Hle Hs] Hn. apply Forall_lookup. intros j x Hx.
  rewrite (Hs j x Hx). apply lookup_lt_Some in Hx. unfold expected.
  rewrite decide_True by lia. done.
Qed.

Lemma count_current_pending l :
  Forall (fun x => status x = pending) l ->
  length (filter (fun v => sv_current v = true) (map step_view l)) = 0.
Proof.
  induction 1 as [|x l Hx _ IH]; [done |]. cbn [map].
  rewrite filter_cons_False; [done |]. unfold step_view. cbn. rewrite Hx. done.
Qed.

(** A shaped timeline highlights one step while a timer is pending and
    none once the chain has stopped. *)
Lemma count_current_shaped i l :
  (forall j x, l !! j = Some x -> status x = expected i j) ->
  length (filter (fun v => sv_current v = true) (map step_view l)) =
    if bool_decide (i < length l) then 1 else 0.
Proof.
  revert i. induction l as [|x l IH]; intros i H; [done |].
  pose proof (H 0 x eq_refl) as Hx. cbn [map length].
  destruct i as [|i].
  - rewrite filter_cons_True by (unfold step_view; cbn; by rewrite Hx).
    cbn [length]. rewrite (bool_decide_eq_true_2 (0 < S (length l))) by lia.
    rewrite count_current_pending; [done |].
    apply Forall_lookup. intros j y Hy. rewrite (H (S j) y Hy). unfold expected.
    by repeat case_decide; try lia.
  - rewrite filter_cons_False by (unfold step_view; cbn; by rewrite Hx).
    rewrite (IH i); [| intros j y Hy; rewrite (H (S j) y Hy); unfold expected;
                         by repeat case_decide; try lia].
    by repeat case_bool_decide; try lia.
Qed.

(** ** Properties *)

(** C23: the tracking screen's timer chain terminates: no infinite
    sequence of firings exists from any state, and the chain stops after
    exactly [timeline.length - stepIndex] firings, 2.5 s apart, in a state
    where no timer is pending. *)
Theorem timeline_terminates s :
  sn timer_step s /\
  nsteps timer_step (length (timeline s) - stepIndex s) s (run_timeline s) /\
  nf timer_step (run_timeline s) /\
  elapsed (run_timeline s) =
    (elapsed s + TIMER_MS * Z.of_nat (length (timeline s) - stepIndex s))%Z.
Proof.
  destruct (run_timeline_steps s) as [Hn Hnf].
  split_and!; [apply timer_sn | done | done | apply run_timeline_elapsed].
Qed.

(** C33: every state the timers reach from the screen's first render has
    the timeline's shape (exactly the steps before [stepIndex] are done,
    the one at [stepIndex] is current), keeps the texts chosen by the
    report's type, and once no timer is pending every step is done --
    including "Responder is on the way" for a security report, which the
    screen shows after 10 s without reading any assignment.  The rendered
    timeline highlights exactly one step while a timer is pending and
    none afterwards. *)
Theorem timeline_reachable_shaped p s :
  rtc timer_step (screen_init p) s ->
  shaped s /\
  map text (timeline s) = map text (initial_timeline (param_type p)) /\
  (nf timer_step s -> Forall (fun x => status x = done) (timeline s)) /\
  length (filter (fun v => sv_current v = true) (view_steps (render p s))) =
    if timer_pending s then 1 else 0.
Proof.
  intros Hr.
  assert (Hs : shaped s /\ map text (timeline s) = map text (initial_timeline (param_type p))).
  { revert s Hr. apply rtc_ind_r; [split; [apply init_shaped | done] |].
    intros s1 s2 _ H12 [Hsh Ht]. apply timer_step_inv in H12 as [-> Hlt].
    split; [by apply fire_shaped | by rewrite <- Ht; apply advance_text]. }
  destruct Hs as [Hsh Ht]. split_and!; [done | done | |].
  - intros Hnf. apply shaped_done; [done |]. intros Hlt. apply Hnf. eexists. by constructor.
  - apply count_current_shaped, Hsh.
Qed.

(** C40: the call button on each of its branches.  With a report id it
    always ends with the spinner off and the timeline untouched; a failed
    token fetch or join shows "Call Failed" with the error's message and
    leaves the screen out of the call; a join that resolves stores the
    instance, but the screen enters the call only if [ON_JOIN] is emitted
    after [join] resolved, because the listener is registered only then. *)
Theorem startCall_outcomes p env s rid :
  str_val (p_reportId p) = Some rid ->
  loadingCall (startCall p env s) = false /\
  timeline (startCall p env s) = timeline s /\
  (token_response env = None ->
     inCall (startCall p env s) = inCall s /\
     hmsInstance (startCall p env s) = hmsInstance s /\
     dialogs (startCall p env s) = dialogs s ++ [("Call Failed", "Failed to get token")]) /\
  (forall t msg, token_response env = Some t -> join_error env = Some msg ->
     inCall (startCall p env s) = inCall s /\
     hmsInstance (startCall p env s) = hmsInstance s /\
     dialogs (startCall p env s) =
       dialogs s ++ [("Call Failed", str_or (Some msg) "Could not start call")]) /\
  (forall t, token_response env = Some t -> join_error env = None ->
     hmsInstance (startCall p env s) = Some hms_joined /\
     inCall (startCall p env s) = (if on_join_early env then inCall s else true)).
Proof.
  intros Hid. unfold startCall, call_attempt. rewrite Hid.
  destruct env as [[t|] [msg|] []]; cbn; split_and!; intros; simplify_eq/=; done.
Qed.

(** ** Witnesses *)

Definition security_params : Params := mkParams (Some "security") (Some "rep1") None.

Lemma timeline_reachable_shaped_witness :
  rtc timer_step (screen_init security_params) (fire (screen_init security_params)) /\
  shaped (fire (screen_init security_params)).
Proof.
  assert (Hr : rtc timer_step (screen_init security_params) (fire (screen_init security_params))).
  { eapply rtc_l; [constructor; cbn; lia | apply rtc_refl]. }
  split; [exact Hr |]. apply (timeline_reachable_shaped security_params _ Hr).
Defined.

Lemma startCall_outcomes_witness :
  str_val (p_reportId security_params) = Some "rep1" /\
  inCall (startCall security_params (mkCallEnv (Some "tok") None true)
            (screen_init security_params)) = false.
Proof.
  split; [reflexivity |].
  destruct (startCall_outcomes security_params (mkCallEnv (Some "tok") None true)
              (screen_init security_params) "rep1" eq_refl) as (_ & _ & _ & _ & Hj).
  exact (proj2 (Hj "tok" eq_refl eq_refl)).
Defined.

End Tracking.
