(* ===== verification/Scripts.v ===== *)
(** * Scripts: the repository's maintenance scripts and the geocoding helper

    - uploadResponders.mjs (lines 22-46) seeds [responders] from
      preload.json: one awaited [setDoc(responders/<id>, responder)] per
      entry, in file order, inside a single [try].  The parsed file is the
      argument [preload]; an entry with no [id] makes [doc()] throw, which
      ends the loop.
    - testotp.js (lines 89-107) posts [{data: {email}}] for one fixed
      address to the deployed [sendOtp] and prints the answer, or the HTTP
      status and body of the callable protocol's error.
    - utils/geocoding.js (lines 11-26) turns the geocoder's answer into an
      address, ["Unknown location"] otherwise. *)

From S2P Require Import Prelude Store Otp Callable.
From Stdlib Require Import QArith_base.
Local Close Scope Q_scope.

(** ** uploadResponders.mjs *)

Definition upload_one (entry : option string * Responder.t) : M unit :=
  match str_val entry.1 with
  | Some id => doc_set responders_c id entry.2
  | None => st_throw (JsError "Invalid document reference")   (* only logged *)
  end.

(** [try { for (const responder of responders) { await setDoc(...) } } catch { log }] *)
Definition uploadResponders (preload : list (option string * Responder.t)) : M unit :=
  st_catch (st_iter upload_one preload) (fun _ => st_return tt).

(** The registry after the entries [es], all with an id, are written. *)
Definition uploaded (es : list (option string * Responder.t)) (m : gmap string Responder.t) :
    gmap string Responder.t :=
  foldl (fun acc e => match str_val e.1 with
                      | Some id => <[id:=e.2]> acc
                      | None => acc
                      end) m es.

(** The entry written last under [id]. *)
Definition last_entry (id : string) (es : list (option string * Responder.t)) :
    option Responder.t :=
  foldl (fun acc e => if bool_decide (str_val e.1 = Some id) then Some e.2 else acc) None es.

(** ** testotp.js *)

Definition testEmail : string := "olanrewajupelumi606@gmail.com".

(** The HTTP status of a callable's [HttpsError] in Firebase's callable
    protocol (the [functions.https] library, not code of this repository). *)
Definition http_status (c : HttpsCode) : Z :=
  match c with
  | invalid_argument => 400
  | resource_exhausted => 429
  | permission_denied => 403
  | internal => 500
  end.

(** What the script prints. *)
Inductive TestOutput :=
| ResponseData (message : string)
| ErrorStatus (status : Z) (message : string).

Definition testSendOtp (clock : option Z) (u : Q) (mail : MailOutcome) : M TestOutput :=
  fun db =>
    match sendOtp_call clock u mail (mkSendOtpRequest (Some testEmail) None) db with
    | (inr msg, db') => (inr (ResponseData msg), db')
    | (inl (HttpsError c msg), db') => (inr (ErrorStatus (http_status c) msg), db')
    | (inl e, db') => (inr (ErrorStatus 500 (error_message e)), db')
    end.

(** ** utils/geocoding.js *)

(** [Geocoder.from(lat, lng)]: the [formatted_address] of each result, or
    a rejection. *)
Inductive GeocodeResponse :=
| geocode_results (results : option (list (option string)))
| geocode_error.

Definition getReadableLocation (resp : GeocodeResponse) : string :=
  match resp with
  | geocode_results (Some (addr :: _)) => str_or addr "Unknown location"
  | _ => "Unknown location"
  end.

(** ** Lemmas *)

Lemma upload_one_ok e db :
  is_Some (str_val e.1) ->
  exists db', upload_one e db = (inr tt, db') /\
    responders db' = match str_val e.1 with
                     | Some id => <[id:=e.2]> (responders db)
                     | None => responders db
                     end /\
    otps db' = otps db /\ responders_alerts db' = responders_alerts db /\
    emergencies db' = emergencies db.
Proof.
  intros [id Hid]. unfold upload_one. rewrite Hid. handler_unfold. destruct db. by eexists.
Qed.

(** Entries with an id: all written, in order. *)
Lemma st_iter_upload es db :
  Forall (fun e => is_Some (str_val e.1)) es ->
  exists db', st_iter upload_one es db = (inr tt, db') /\
    responders db' = uploaded es (responders db) /\
    otps db' = otps db /\ responders_alerts db' = responders_alerts db /\
    emergencies db' = emergencies db.
Proof.
  intros Hall. revert db. induction Hall as [|e es He Hes IH]; intros db; [by eexists |].
  destruct (upload_one_ok e db He) as (db1 & E1 & R1 & O1 & A1 & M1).
  destruct (IH db1) as (db2 & E2 & R2 & O2 & A2 & M2).
  exists db2. cbn. unfold st_bind. rewrite E1, E2. split_and!; try congruence.
  rewrite R2, R1. destruct He as [id Hid]. by rewrite Hid.
Qed.

Lemma st_iter_upload_stop es e es' db :
  str_val e.1 = None ->
  Forall (fun e => is_Some (str_val e.1)) es ->
  exists db', st_iter upload_one (es ++ e :: es') db =
                (inl (JsError "Invalid document reference"), db') /\
    st_iter upload_one es db = (inr tt, db').
Proof.
  intros He Hall. revert db. induction Hall as [|e0 es He0 Hes IH]; intros db.
  - exists db. cbn. unfold st_bind, upload_one. by rewrite He.
  - destruct (upload_one_ok e0 db He0) as (db1 & E1 & _).
    destruct (IH db1) as (db2 & E2 & E2').
    exists db2. cbn. unfold st_bind. by rewrite E1, E2, E2'.
Qed.

Lemma uploaded_lookup es m id :
  uploaded es m !! id = match last_entry id es with
                        | Some r => Some r
                        | None => m !! id
                        end.
Proof.
  induction es as [|e es IH] using rev_ind; [done |].
  unfold uploaded, last_entry in *. rewrite !foldl_app. cbn.
  destruct (str_val e.1) as [i|] eqn:He; case_bool_decide as Hi; simplify_eq/=.
  - by rewrite lookup_insert_eq.
  - rewrite lookup_insert_ne by congruence. apply IH.
  - apply IH.
Qed.

Lemma catch_unit_ok (m : M unit) db :
  fst (st_catch m (fun _ => st_return tt) db) = inr tt.
Proof. unfold st_catch. by destruct (m db) as [[e|[]] db']. Qed.

(** ** Properties *)

(** the seeding script always finishes without an error.  When every
    entry of preload.json has an id, each responder document reads back
    as the last entry with its id (or stays as it was when no entry has
    it), and no other collection changes; when an entry lacks an id, the
    entries before it are written and none after it. *)
Theorem uploadResponders_readback preload db :
  fst (uploadResponders preload db) = inr tt /\
  (Forall (fun e => is_Some (str_val e.1)) preload ->
   (forall id, responders (snd (uploadResponders preload db)) !! id =
                 match last_entry id preload with
                 | Some r => Some r
                 | None => responders db !! id
                 end) /\
   otps (snd (uploadResponders preload db)) = otps db /\
   responders_alerts (snd (uploadResponders preload db)) = responders_alerts db /\
   emergencies (snd (uploadResponders preload db)) = emergencies db) /\
  (forall pre e post, preload = pre ++ e :: post ->
   Forall (fun e => is_Some (str_val e.1)) pre -> str_val e.1 = None ->
   responders (snd (uploadResponders preload db)) = uploaded pre (responders db)).
Proof.
  split_and!; [apply catch_unit_ok | |].
  - intros Hall. destruct (st_iter_upload preload db Hall) as (db' & E & R & O & A & M).
    unfold uploadResponders, st_catch. rewrite E. cbn.
    split_and!; [| done..]. intros id. by rewrite R, uploaded_lookup.
  - intros pre e post -> Hpre He.
    destruct (st_iter_upload_stop pre e post db He Hpre) as (db' & E & E').
    destruct (st_iter_upload pre db Hpre) as (db'' & E'' & R & _).
    rewrite E' in E''. injection E'' as <-.
    unfold uploadResponders, st_catch. by rewrite E.
Qed.

(** testotp.js mails a Gmail address, which the handler refuses: whatever
    the clock, the random draw and the mail service, the script prints
    status 400 with "Invalid student email." and the database is left as
    it was, so the script never exercises the path it is named after. *)
Theorem testSendOtp_rejected clock u mail db :
  testSendOtp clock u mail db = (inr (ErrorStatus 400 "Invalid student email."), db).
Proof. reflexivity. Qed.

(** ** Witness: two entries for "r1"; the later one wins *)

Definition seed_a : Responder.t :=
  Responder.mk Responder.active None None None None None None None.
Definition seed_b : Responder.t :=
  Responder.mk Responder.inactive None None None None None None None.

Lemma uploadResponders_readback_witness :
  Forall (fun e => is_Some (str_val e.1)) [(Some "r1", seed_a); (Some "r1", seed_b)] /\
  responders (snd (uploadResponders [(Some "r1", seed_a); (Some "r1", seed_b)] empty_db))
    !! "r1" = Some seed_b.
Proof.
  assert (Hall : Forall (fun e => is_Some (str_val e.1))
                   [(Some "r1", seed_a); (Some "r1", seed_b)]).
  { repeat constructor; cbn; by eexists. }
  split; [exact Hall |].
  destruct (uploadResponders_readback [(Some "r1", seed_a); (Some "r1", seed_b)] empty_db)
    as (_ & Hr & _).
  destruct (Hr Hall) as (Hid & _). rewrite Hid. reflexivity.
Defined.
