(* ===== verification/Profile.v ===== *)
(** * Profile: the responder profile screen (Screens/Responders/profile.js)

    The screen (Module [Profile]) loads the signed-in responder's document
    [responders/<uid>] once when it mounts ([fetchProfile], lines 47-77),
    lets the responder edit the name, phone, station, responder type and
    picture while in edit mode, and writes the whole form back with
    [updateDoc] when Save is pressed ([saveChanges], lines 96-123); Log
    Out signs out, clears the saved session and replaces the screen by
    Welcome ([handleLogout], lines 130-139).

    A [responders] document holds the registry's fields ([Store]'s
    [Responder.t], in [DB.responders]) and, once this screen has written
    it, the profile's fields ([Doc], in [profiles]); [World] is the
    database with those profile parts, Storage's files, AsyncStorage's
    session and Auth's current user.  The fetch spreads the whole document
    into the screen's [profile] state ([{...profile, ...snap.data()}]), so
    the registry fields read at mount time travel with the form and
    [updateDoc] writes them back ([write_back]).  A nullable field the
    snapshot does not hold is kept; one it holds as [null] is written back
    as [null]: the store reads both as [None], so the fields the snapshot
    holds as [null] are an argument ([nulls]).

    Before any of this, the module does not load: it imports [auth]
    (line 15) and declares [const auth] (line 30), a duplicate
    lexically-declared name, which ECMAScript rejects as an early
    [SyntaxError] ([module_early_error]); the screen's functions are
    modelled as they run once that is fixed.  The picker's answer, the
    upload's download URL, the outcome of [getDoc] and of the logout
    calls are arguments; a save runs to its end before the next press. *)

From S2P Require Import Prelude Geo Store Registry Assigner Intake.
From Stdlib Require Import QArith_base.
Local Close Scope Q_scope.
Local Open Scope Z_scope.

Module Profile.

(** ** The module's top-level declarations *)

(** The names the module declares, in source order: its imports (lines
    1-26), its constants (lines 28-30), the screen (line 32) and the
    styles (line 275). *)
Definition bindings : list string :=
  ["React"; "useEffect"; "useState";
   "View"; "Text"; "TextInput"; "TouchableOpacity"; "ScrollView"; "StyleSheet"; "Alert";
   "Image"; "ActivityIndicator";
   "LinearGradient"; "ImagePicker"; "auth"; "AsyncStorage";
   "getFirestore"; "doc"; "getDoc"; "updateDoc"; "setDoc";
   "getStorage"; "ref"; "uploadBytes"; "getDownloadURL"; "Background"; "app";
   "db"; "storage"; "auth"; "ResponderProfileScreen"; "styles"].

(** The first name declared again later in the list. *)
Fixpoint first_duplicate (l : list string) : option string :=
  match l with
  | [] => None
  | x :: l' => if bool_decide (x ∈ l') then Some x else first_duplicate l'
  end.

(** A module whose lexically-declared names contain a duplicate is a
    [SyntaxError] before any of it runs. *)
Definition module_early_error (names : list string) : option Error :=
  (fun x => JsError ("Identifier '" +:+ x +:+ "' has already been declared"))
    <$> first_duplicate names.

(** ** Documents and the screen's state *)

(** [auth.currentUser] *)
Record CurrentUser := mkCurrentUser {
  cu_uid : string;
  cu_phoneNumber : option string;
  cu_displayName : option string
}.

(** The [profile] state (lines 35-42). *)
Record Fields := mkFields {
  name : string;
  phoneNumber : string;
  station : string;
  responderType : string;
  notifications : bool;
  profileImage : option string
}.

Definition initial_fields : Fields := mkFields "" "" "" "" true None.

(** The profile part of a [responders/<uid>] document. *)
Record Doc := mkDoc {
  fields : Fields;
  doc_uid : option string;
  createdAt : option Z;
  updatedAt : option Z
}.

Record World := mkWorld {
  wdb : DB;                         (** Firestore: the registry part of [responders] *)
  profiles : gmap string Doc;       (** the profile part of [responders] *)
  files : gmap string string;       (** Storage: path to download URL *)
  session : option string;          (** AsyncStorage's [responderData] *)
  authUser : option CurrentUser     (** [auth.currentUser] *)
}.

Definition set_wdb d (w : World) : World :=
  mkWorld d (profiles w) (files w) (session w) (authUser w).
Definition set_profiles m (w : World) : World :=
  mkWorld (wdb w) m (files w) (session w) (authUser w).
Definition set_files m (w : World) : World :=
  mkWorld (wdb w) (profiles w) m (session w) (authUser w).
Definition set_session o (w : World) : World :=
  mkWorld (wdb w) (profiles w) (files w) o (authUser w).
Definition set_authUser o (w : World) : World :=
  mkWorld (wdb w) (profiles w) (files w) (session w) o.
Arguments set_wdb _ _ /.
Arguments set_profiles _ _ /.
Arguments set_files _ _ /.
Arguments set_session _ _ /.
Arguments set_authUser _ _ /.

Abbreviation PM := (ST World Error).

Record Screen := mkScreen {
  isEditing : bool;
  loading : bool;
  profile : Fields;
  carried : option Responder.t;     (** the registry fields spread into [profile] *)
  carried_doc : option Doc;         (** the profile part the fetch read *)
  dialog : option (string * string);
  replacedBy : option string        (** [navigation.replace] *)
}.

Definition initial_screen : Screen := mkScreen false true initial_fields None None None None.

Definition with_profile (p : Fields) (s : Screen) : Screen :=
  mkScreen (isEditing s) (loading s) p (carried s) (carried_doc s) (dialog s) (replacedBy s).
Definition with_editing (b : bool) (s : Screen) : Screen :=
  mkScreen b (loading s) (profile s) (carried s) (carried_doc s) (dialog s) (replacedBy s).
Definition with_dialog (title msg : string) (s : Screen) : Screen :=
  mkScreen (isEditing s) (loading s) (profile s) (carried s) (carried_doc s)
    (Some (title, msg)) (replacedBy s).
Definition loaded (s : Screen) : Screen :=
  mkScreen (isEditing s) false (profile s) (carried s) (carried_doc s) (dialog s) (replacedBy s).

(** ** fetchProfile (lines 47-77) *)

(** [snap.exists()]: the document has registry or profile fields. *)
Definition doc_exists (w : World) (uid : string) : bool :=
  bool_decide (is_Some (responders (wdb w) !! uid) \/ is_Some (profiles w !! uid)).

(** [{...profile, ...snap.data()}] *)
Definition merged (p : Fields) (d : option Doc) : Fields := from_option fields p d.

(** The document written when none exists (lines 58-67). *)
Definition created_doc (now : Z) (u : CurrentUser) : Doc :=
  mkDoc (mkFields (str_or (cu_displayName u) "") (str_or (cu_phoneNumber u) "") ""
           "medical" true None)
    (Some (cu_uid u)) (Some now) None.

Definition fetchProfile (now : Z) (fetch_ok : bool) (s : Screen) : PM Screen :=
  w ← st_get;
  match authUser w with
  | None => mret s
  | Some u =>
      let uid := cu_uid u in
      s' ← st_catch
             (if negb fetch_ok then st_throw (JsError "getDoc failed")
              else if doc_exists w uid then
                mret (mkScreen (isEditing s) (loading s)
                        (merged (profile s) (profiles w !! uid))
                        (responders (wdb w) !! uid) (profiles w !! uid)
                        (dialog s) (replacedBy s))
              else
                (_ ← st_modify (set_profiles (<[uid:=created_doc now u]> (profiles w)));
                 mret s))
             (fun _ => mret (with_dialog "Error" "Failed to load profile" s));
      mret (loaded s')
  end.

(** ** pickImage and the form's inputs (lines 80-93, 182-247) *)

Definition pickImage (picked : option string) (s : Screen) : Screen :=
  if negb (isEditing s) then s
  else match picked with
       | Some uri => with_profile (mkFields (name (profile s)) (phoneNumber (profile s))
                      (station (profile s)) (responderType (profile s))
                      (notifications (profile s)) (Some uri)) s
       | None => s
       end.

(** A [TextInput] with [editable={isEditing}], or a type button with
    [disabled={!isEditing}]: the change [f] applies only in edit mode. *)
Definition edit (f : Fields -> Fields) (s : Screen) : Screen :=
  if isEditing s then with_profile (f (profile s)) s else s.

Definition set_name (t : string) (p : Fields) : Fields :=
  mkFields t (phoneNumber p) (station p) (responderType p) (notifications p) (profileImage p).
Definition set_phone (t : string) (p : Fields) : Fields :=
  mkFields (name p) t (station p) (responderType p) (notifications p) (profileImage p).
Definition set_station (t : string) (p : Fields) : Fields :=
  mkFields (name p) (phoneNumber p) t (responderType p) (notifications p) (profileImage p).
Definition set_type (t : string) (p : Fields) : Fields :=
  mkFields (name p) (phoneNumber p) (station p) t (notifications p) (profileImage p).

(** ** saveChanges (lines 96-123) *)

(** [photoURL && !photoURL.startsWith("https")] *)
Definition is_local (photo : option string) : bool :=
  match photo with
  | Some uri => negb (String.eqb uri "") && negb (String.prefix "https" uri)
  | None => false
  end.

(** Lines 103-107: the local file uploaded to [responders/<uid>.jpg];
    [upload] is its download URL, [None] when a step fails. *)
Definition upload_photo (uid : string) (upload : option string) : PM (option string) :=
  match upload with
  | Some url =>
      _ ← st_modify (fun w => set_files (<[("responders/" +:+ uid +:+ ".jpg"):=url]> (files w)) w);
      mret (Some url)
  | None => st_throw (JsError "upload failed")
  end.

(** Lines 99-108: [photoURL], uploaded first when it is local. *)
Definition photo_step (uid : string) (upload : option string) (p : option string) :
    PM (option string) :=
  if is_local p then upload_photo uid upload else mret p.
Arguments photo_step : simpl never.

(** A nullable field of the spread: the snapshot's value, [null] when the
    snapshot holds it as [null], else the stored value. *)
Definition pick {A} (nulls : list string) (f : string) (snap cur : option A) : option A :=
  match snap with
  | Some v => Some v
  | None => if bool_decide (f ∈ nulls) then None else cur
  end.

(** The registry fields [...profile] carries back (line 112). *)
Definition write_back (nulls : list string) (snap : Responder.t) (cur : option Responder.t) :
    Responder.t :=
  Responder.mk (Responder.status snap)
    (pick nulls "currentLocation" (Responder.currentLocation snap) (cur ≫= Responder.currentLocation))
    (pick nulls "lastKnownLocation" (Responder.lastKnownLocation snap)
       (cur ≫= Responder.lastKnownLocation))
    (pick nulls "lastHeartbeat" (Responder.lastHeartbeat snap) (cur ≫= Responder.lastHeartbeat))
    (pick nulls "lastActiveAt" (Responder.lastActiveAt snap) (cur ≫= Responder.lastActiveAt))
    (pick nulls "lastInactiveAt" (Responder.lastInactiveAt snap) (cur ≫= Responder.lastInactiveAt))
    (pick nulls "assignedEmergency" (Responder.assignedEmergency snap)
       (cur ≫= Responder.assignedEmergency))
    (pick nulls "expoPushToken" (Responder.expoPushToken snap) (cur ≫= Responder.expoPushToken)).

(** The profile part after the update: the form's fields, the photo's
    URL, the snapshot's [uid] and [createdAt] if it had them, [updatedAt]. *)
Definition saved_doc (p : Fields) (photo : option string) (snap cur : option Doc) (now : Z) : Doc :=
  mkDoc (mkFields (name p) (phoneNumber p) (station p) (responderType p) (notifications p) photo)
    (pick [] "uid" (snap ≫= doc_uid) (cur ≫= doc_uid))
    (pick [] "createdAt" (snap ≫= createdAt) (cur ≫= createdAt)) (Some now).

(** The world after [updateDoc(docRef, {...profile, profileImage:
    photoURL, updatedAt})] (lines 110-115). *)
Definition updated_world (now : Z) (uid : string) (nulls : list string) (s : Screen)
    (photo : option string) (w : World) : World :=
  let reg := match carried s with
             | Some snap => <[uid:=write_back nulls snap (responders (wdb w) !! uid)]>
                              (responders (wdb w))
             | None => responders (wdb w)
             end in
  set_profiles (<[uid:=saved_doc (profile s) photo (carried_doc s) (profiles w !! uid) now]>
                  (profiles w))
    (set_wdb (set_responders reg (wdb w)) w).

(** The update fails on a missing document. *)
Definition update_profile_doc (now : Z) (uid : string) (nulls : list string) (s : Screen)
    (photo : option string) : PM unit :=
  fun w =>
    if doc_exists w uid then (inr tt, updated_world now uid nulls s photo w)
    else (inl (NotFound "responders" uid), w).

Definition saveChanges (now : Z) (upload : option string) (nulls : list string) (s : Screen) :
    PM Screen :=
  w ← st_get;
  match authUser w with
  | None => mret s
  | Some u =>
      st_catch
        (photoURL ← photo_step (cu_uid u) upload (profileImage (profile s));
         _ ← update_profile_doc now (cu_uid u) nulls s photoURL;
         mret (with_dialog "Success" "Profile updated successfully!" (with_editing false s)))
        (fun _ => mret (with_dialog "Error" "Failed to save profile" s))
  end.

(** Lines 125-128 *)
Definition toggleEdit (now : Z) (upload : option string) (nulls : list string) (s : Screen) :
    PM Screen :=
  if isEditing s then saveChanges now upload nulls s else mret (with_editing true s).

(** ** handleLogout (lines 130-139) *)

Inductive LogoutOutcome := logout_ok | signout_fails | remove_fails.

Definition handleLogout (o : LogoutOutcome) (s : Screen) : PM Screen :=
  match o with
  | logout_ok =>
      _ ← st_modify (fun w => set_session None (set_authUser None w));
      mret (mkScreen (isEditing s) (loading s) (profile s) (carried s) (carried_doc s)
              (dialog s) (Some "Welcome"))
  | signout_fails => mret (with_dialog "Error" "Failed to log out. Please try again." s)
  | remove_fails =>
      _ ← st_modify (set_authUser None);
      mret (with_dialog "Error" "Failed to log out. Please try again." s)
  end.

(** ** The screen's events *)

Inductive Event :=
| PickImage (picked : option string)
| EditName (t : string)
| EditPhone (t : string)
| EditStation (t : string)
| PressType (type : string)
| PressEdit (now : Z) (upload : option string) (nulls : list string)
| PressLogout (o : LogoutOutcome).

(** While [loading] only the spinner is drawn (lines 141-154), and a
    replaced screen receives nothing. *)
Definition profile_step (ev : Event) (s : Screen) : PM Screen :=
  if loading s || bool_decide (is_Some (replacedBy s)) then mret s
  else match ev with
       | PickImage picked => mret (pickImage picked s)
       | EditName t => mret (edit (set_name t) s)
       | EditPhone t => mret (edit (set_phone t) s)
       | EditStation t => mret (edit (set_station t) s)
       | PressType t => mret (edit (set_type t) s)
       | PressEdit now upload nulls => toggleEdit now upload nulls s
       | PressLogout o => handleLogout o s
       end.

Fixpoint profile_events (evs : list Event) (s : Screen) : PM Screen :=
  match evs with
  | [] => mret s
  | ev :: evs' => s' ← profile_step ev s; profile_events evs' s'
  end.

(** A visit: the mount's fetch, then the presses. *)
Definition profile_session (now : Z) (fetch_ok : bool) (evs : list Event) : PM Screen :=
  s ← fetchProfile now fetch_ok initial_screen; profile_events evs s.

(** ** What the screen draws (lines 141-272) *)

Inductive View :=
| Spinner (msg : string)
| Form (avatar : option string) (editable : bool) (types : list (string * bool * bool))
       (primary : string).

Definition type_label (t : string) : string :=
  if String.eqb t "medical" then "🩺 Medical"
  else if String.eqb t "security" then "🛡️ Security" else "🔥 Fire".

Definition render (s : Screen) : View :=
  if loading s then Spinner "Loading profile..."
  else Form (str_val (profileImage (profile s))) (isEditing s)
         (map (fun t => (type_label t, bool_decide (responderType (profile s) = t), negb (isEditing s)))
            ["medical"; "security"; "fire"])
         (if isEditing s then "Save Changes" else "Edit Profile").

(** ** Lemmas *)

Ltac pm_unfold :=
  repeat progress (unfold mbind, st_mbind, st_bind, mret, st_mret, st_return, st_get,
                     st_modify, st_catch, st_throw; cbn).

Section Runs.
Context (u : CurrentUser) (w : World).
Hypothesis Hu : authUser w = Some u.

(** The mount on an existing document: the whole document is read into
    the form. *)
Lemma fetch_existing now s :
  doc_exists w (cu_uid u) = true ->
  fetchProfile now true s w =
    (inr (loaded (mkScreen (isEditing s) (loading s) (merged (profile s) (profiles w !! cu_uid u))
                    (responders (wdb w) !! cu_uid u) (profiles w !! cu_uid u)
                    (dialog s) (replacedBy s))), w).
Proof. intros He. unfold fetchProfile. pm_unfold. by rewrite Hu, He. Qed.

(** The mount on a missing document creates it and leaves the form as it was. *)
Lemma fetch_missing now s :
  doc_exists w (cu_uid u) = false ->
  fetchProfile now true s w =
    (inr (loaded s), set_profiles (<[cu_uid u:=created_doc now u]> (profiles w)) w).
Proof. intros He. unfold fetchProfile. pm_unfold. rewrite Hu, He. cbn. by rewrite <- Hu. Qed.

(** The photo step of a save that cannot fail: no local picture, or an
    upload that succeeds. *)
Lemma photo_step_ok p upload :
  is_local p = false \/ is_Some upload ->
  exists photo w1,
    photo_step (cu_uid u) upload p w = (inr photo, w1) /\
    wdb w1 = wdb w /\ profiles w1 = profiles w /\ authUser w1 = authUser w.
Proof.
  intros Hp. unfold photo_step. destruct (is_local p) eqn:Hl.
  - destruct Hp as [? | [url ->]]; [done |]. unfold upload_photo. pm_unfold. by do 2 eexists.
  - by do 2 eexists.
Qed.

(** A save that reaches [updateDoc] on an existing document. *)
Lemma save_ok now upload nulls s photo w1 :
  photo_step (cu_uid u) upload (profileImage (profile s)) w = (inr photo, w1) ->
  doc_exists w1 (cu_uid u) = true ->
  saveChanges now upload nulls s w =
    (inr (with_dialog "Success" "Profile updated successfully!" (with_editing false s)),
     updated_world now (cu_uid u) nulls s photo w1).
Proof.
  intros Hph He. unfold saveChanges. pm_unfold. rewrite Hu.
  unfold st_catch, st_bind in *. cbn. rewrite Hph. unfold update_profile_doc. by rewrite He.
Qed.
End Runs.

Lemma fetch_signed_out now ok s w :
  authUser w = None -> fetchProfile now ok s w = (inr s, w).
Proof. intros Hu. unfold fetchProfile. pm_unfold. by rewrite Hu. Qed.

(** A screen still loading ignores every event. *)
Lemma events_loading evs s w :
  loading s = true -> profile_events evs s w = (inr s, w).
Proof.
  intros Hl. induction evs as [|ev evs IH]; [done |]. cbn [profile_events].
  unfold profile_step. rewrite Hl. pm_unfold. exact IH.
Qed.

(** Edit, then Save, on a loaded screen not yet in edit mode. *)
Lemma edit_then_save u w s t1 t2 upload nulls :
  authUser w = Some u -> loading s = false -> replacedBy s = None -> isEditing s = false ->
  is_local (profileImage (profile s)) = false \/ is_Some upload ->
  doc_exists w (cu_uid u) = true ->
  exists photo w1,
    profile_events [PressEdit t1 upload nulls; PressEdit t2 upload nulls] s w =
      (inr (with_dialog "Success" "Profile updated successfully!"
              (with_editing false (with_editing true s))),
       updated_world t2 (cu_uid u) nulls (with_editing true s) photo w1) /\
    photo_step (cu_uid u) upload (profileImage (profile s)) w = (inr photo, w1) /\
    wdb w1 = wdb w /\ profiles w1 = profiles w.
Proof.
  intros Hu Hl Hr He Hp Hx.
  destruct (photo_step_ok u w (profileImage (profile s)) upload Hp)
    as (photo & w1 & Hph & D1 & P1 & A1).
  exists photo, w1. split_and!; [| done..].
  cbn [profile_events]. unfold profile_step, toggleEdit.
  unfold mbind, st_mbind, st_bind, mret, st_mret, st_return. cbn -[saveChanges].
  rewrite Hl, Hr, He. cbn -[saveChanges]. rewrite Hl, Hr. cbn -[saveChanges].
  assert (Hx1 : doc_exists w1 (cu_uid u) = true) by (unfold doc_exists in *; by rewrite D1, P1).
  rewrite (save_ok u w Hu t2 upload nulls (with_editing true s) photo w1 Hph Hx1). done.
Qed.

(** What the update writes into the registry and the alerts. *)
Lemma updated_world_db now uid nulls s photo w :
  responders (wdb (updated_world now uid nulls s photo w)) =
    match carried s with
    | Some snap => <[uid:=write_back nulls snap (responders (wdb w) !! uid)]> (responders (wdb w))
    | None => responders (wdb w)
    end /\
  responders_alerts (wdb (updated_world now uid nulls s photo w)) = responders_alerts (wdb w) /\
  profiles (updated_world now uid nulls s photo w) !! uid =
    Some (saved_doc (profile s) photo (carried_doc s) (profiles w !! uid) now).
Proof. unfold updated_world. cbn. by rewrite lookup_insert_eq. Qed.

Lemma doc_exists_registry w uid r : responders (wdb w) !! uid = Some r -> doc_exists w uid = true.
Proof. intros H. unfold doc_exists. apply bool_decide_eq_true_2. left. by rewrite H. Qed.

Lemma doc_exists_profile w uid d : profiles w !! uid = Some d -> doc_exists w uid = true.
Proof. intros H. unfold doc_exists. apply bool_decide_eq_true_2. right. by rewrite H. Qed.

(** ** Properties *)

(** C15: the profile screen undoes the registry's changes.  It reads the
    responder's whole document when it mounts and its Save writes the
    registry fields of that snapshot back.  A responder who opens the
    screen while active and unassigned, and is then assigned an emergency
    (any change of the registry entry that sets [assignedEmergency]),
    becomes active again at the next Edit and Save: the assigner's
    [status == "active"] query returns it while the alert naming it is
    still there, and unless the snapshot held [assignedEmergency] as
    [null] the entry keeps the assignment with status [active], breaking
    "assigned iff busy". *)
Theorem profile_save_reverts_registry t0 t1 t2 url nulls u w0 w1 r0 r1 rep :
  authUser w0 = Some u -> authUser w1 = Some u ->
  responders (wdb w0) !! cu_uid u = Some r0 -> Responder.status r0 = Responder.active ->
  Responder.assignedEmergency r0 = None ->
  responders (wdb w1) !! cu_uid u = Some r1 -> Responder.assignedEmergency r1 = Some rep ->
  exists s s' w2,
    fetchProfile t0 true initial_screen w0 = (inr s, w0) /\
    profile_events [PressEdit t1 (Some url) nulls; PressEdit t2 (Some url) nulls] s w1 =
      (inr s', w2) /\
    exists r2, responders (wdb w2) !! cu_uid u = Some r2 /\
      (cu_uid u, r2) ∈ active_docs (responders (wdb w2)) /\
      Responder.assignedEmergency r2 =
        (if bool_decide ("assignedEmergency" ∈ nulls) then None else Some rep) /\
      responders_alerts (wdb w2) = responders_alerts (wdb w1) /\
      ("assignedEmergency" ∉ nulls -> ~ registry_ok (wdb w2)).
Proof.
  intros Hu0 Hu1 Hr0 Hs0 Ha0 Hr1 Ha1.
  rewrite (fetch_existing u w0 Hu0 t0 initial_screen (doc_exists_registry _ _ _ Hr0)). cbn.
  destruct (edit_then_save u w1 (loaded (mkScreen false true (merged initial_fields
              (profiles w0 !! cu_uid u)) (responders (wdb w0) !! cu_uid u)
              (profiles w0 !! cu_uid u) None None)) t1 t2 (Some url) nulls Hu1 eq_refl eq_refl
              eq_refl (or_intror (ex_intro _ url eq_refl)) (doc_exists_registry _ _ _ Hr1))
    as (photo & w' & Hrun & _ & D & _).
  do 3 eexists. split; [reflexivity |]. split; [exact Hrun |].
  destruct (updated_world_db t2 (cu_uid u) nulls
              (with_editing true (loaded (mkScreen false true (merged initial_fields
                 (profiles w0 !! cu_uid u)) (responders (wdb w0) !! cu_uid u)
                 (profiles w0 !! cu_uid u) None None))) photo w') as (R & A & _).
  rewrite R, A, D. cbn. rewrite Hr0, Hr1.
  eexists. rewrite lookup_insert_eq. split; [done |].
  cbn. rewrite Ha0, Ha1. split_and!; [| done | done |].
  - apply elem_of_active_docs. rewrite lookup_insert_eq. split; [done |]. exact Hs0.
  - intros Hn Hok. unfold registry_ok in Hok. cbn in Hok. rewrite D, Hr1 in Hok.
    specialize (Hok _ _ (lookup_insert_eq _ _ _)). unfold assigned_iff_busy in Hok. cbn in Hok.
    rewrite Ha0, Ha1, Hs0 in Hok. unfold pick in Hok. rewrite bool_decide_eq_false_2 in Hok by done.
    destruct Hok as [Hb _]. by specialize (Hb ltac:(eexists; reflexivity)).
Qed.

(** C34: on a responder's first visit the screen creates the profile
    document with Auth's display name and phone and the type "medical",
    but it never shows them: the form keeps its empty initial state (no
    type highlighted), and an Edit and Save without changes overwrites
    the created name, phone and type with empty strings.  The registry is
    untouched, since the created document has none of its fields. *)
Theorem profile_first_visit_erases t0 t1 t2 upload nulls u w :
  authUser w = Some u -> responders (wdb w) !! cu_uid u = None ->
  profiles w !! cu_uid u = None ->
  exists s s' w1 w2,
    fetchProfile t0 true initial_screen w = (inr s, w1) /\
    profiles w1 !! cu_uid u = Some (created_doc t0 u) /\
    render s = Form None false [("🩺 Medical", false, true); ("🛡️ Security", false, true);
                                ("🔥 Fire", false, true)] "Edit Profile" /\
    profile_events [PressEdit t1 upload nulls; PressEdit t2 upload nulls] s w1 = (inr s', w2) /\
    profiles w2 !! cu_uid u = Some (mkDoc initial_fields (Some (cu_uid u)) (Some t0) (Some t2)) /\
    responders (wdb w2) = responders (wdb w).
Proof.
  intros Hu Hr Hp.
  assert (Hx : doc_exists w (cu_uid u) = false).
  { unfold doc_exists. rewrite Hr, Hp. apply bool_decide_eq_false_2. by intros [[] | []]. }
  rewrite (fetch_missing u w Hu t0 initial_screen Hx).
  set (w1 := set_profiles (<[cu_uid u:=created_doc t0 u]> (profiles w)) w).
  assert (Hp1 : profiles w1 !! cu_uid u = Some (created_doc t0 u)) by apply lookup_insert_eq.
  destruct (edit_then_save u w1 (loaded initial_screen) t1 t2 upload nulls Hu eq_refl eq_refl
              eq_refl (or_introl eq_refl) (doc_exists_profile _ _ _ Hp1))
    as (photo & w' & Hrun & Hph & D & P).
  unfold photo_step in Hph. cbn in Hph. injection Hph as <- <-.
  do 4 eexists. split_and!; [reflexivity | exact Hp1 | reflexivity | exact Hrun | |].
  - destruct (updated_world_db t2 (cu_uid u) nulls (with_editing true (loaded initial_screen))
                None w1) as (_ & _ & ->). by rewrite Hp1.
  - destruct (updated_world_db t2 (cu_uid u) nulls (with_editing true (loaded initial_screen))
                None w1) as (-> & _). done.
Qed.

(** C38: with nobody signed in the mount returns before its [try] and
    never clears [loading]: whatever the user does afterwards, the screen
    shows "Loading profile..." for good and touches nothing. *)
Theorem profile_signed_out_spinner now ok evs w :
  authUser w = None ->
  exists s, profile_session now ok evs w = (inr s, w) /\ render s = Spinner "Loading profile...".
Proof.
  intros Hu. exists initial_screen. split; [| done].
  unfold profile_session, mbind, st_mbind, st_bind. rewrite fetch_signed_out by done.
  by apply events_loading.
Qed.

(** ** Witnesses *)

(** Responder "r1" of [scenario_db] opens the screen; a security report
    is then assigned to it by the deployed handler. *)
Definition profile_user : CurrentUser := mkCurrentUser "r1" None (Some "Ada").
Definition profile_w0 : World := mkWorld scenario_db ∅ ∅ (Some "r1") (Some profile_user).
Definition profile_w1 : World :=
  set_wdb (snd (@createEmergencyReport Z grid_metric 1000 "rep1" (sample_request "security")
                  scenario_db)) profile_w0.

Lemma profile_save_reverts_registry_witness :
  exists s s' w2,
    fetchProfile 0 true initial_screen profile_w0 = (inr s, profile_w0) /\
    profile_events [PressEdit 2000 (Some "https://img") []; PressEdit 3000 (Some "https://img") []]
      s profile_w1 = (inr s', w2) /\
    ~ registry_ok (wdb w2).
Proof.
  destruct (profile_save_reverts_registry 0 2000 3000 "https://img" [] profile_user profile_w0
              profile_w1 (scenario_responder (Some (mkLatLng 0%Q 5%Q)))
              (set_busy "rep1" (scenario_responder (Some (mkLatLng 0%Q 5%Q)))) "rep1")
    as (s & s' & w2 & H1 & H2 & r2 & _ & _ & _ & _ & Hn);
    [reflexivity | reflexivity | reflexivity | reflexivity | reflexivity
    | vm_compute; reflexivity | reflexivity |].
  exists s, s', w2. split_and!; [exact H1 | exact H2 | apply Hn, not_elem_of_nil].
Defined.

(** A new responder "r7" with a display name and a phone number. *)
Definition newcomer : CurrentUser := mkCurrentUser "r7" (Some "+2348000000000") (Some "Bola").
Definition newcomer_w : World := mkWorld scenario_db ∅ ∅ None (Some newcomer).

Lemma profile_first_visit_erases_witness :
  exists s s' w1 w2,
    fetchProfile 0 true initial_screen newcomer_w = (inr s, w1) /\
    profiles w1 !! "r7" = Some (created_doc 0 newcomer) /\
    render s = Form None false [("🩺 Medical", false, true); ("🛡️ Security", false, true);
                                ("🔥 Fire", false, true)] "Edit Profile" /\
    profile_events [PressEdit 10 None []; PressEdit 20 None []] s w1 = (inr s', w2) /\
    profiles w2 !! "r7" = Some (mkDoc initial_fields (Some "r7") (Some 0) (Some 20)) /\
    responders (wdb w2) = responders (wdb newcomer_w).
Proof. apply (profile_first_visit_erases 0 10 20 None [] newcomer newcomer_w); reflexivity. Defined.

Definition signed_out_w : World := mkWorld scenario_db ∅ ∅ None None.

Lemma profile_signed_out_spinner_witness :
  authUser signed_out_w = None /\
  exists s, profile_session 0 true [PressEdit 5 None []; PressLogout logout_ok] signed_out_w =
              (inr s, signed_out_w) /\ render s = Spinner "Loading profile...".
Proof. split; [reflexivity |]. apply profile_signed_out_spinner. reflexivity. Defined.

End Profile.
