(* ===== verification/Boot.v ===== *)
(** * Boot: loading the Cloud Functions entry points
      (functions/index.js lines 1-41, Screens/Shared/fake index.js lines 1-39)

    Before any handler of [Intake], [Lifecycle], [Liveness] or [Otp] can
    run, the runtime evaluates the entry module's top level.  Both entry
    points require their libraries and the responder triggers, register
    the Admin SDK's initialisation with [onInit] -- a callback the
    framework runs later, before the first function executes -- and then,
    still at the top level, take [const db = admin.firestore()], which
    needs the default app that only that callback creates.

    A module is a list of top-level statements ([Stmt]); [load] runs them
    in order over [LoadState] (the initialised apps, the registered
    callbacks, the names bound and exported) in the state-and-error monad
    of [Prelude].  Which module paths resolve is an argument
    ([available]): the responder triggers and the configuration module of
    otptriggers.js are not in the repository.  The handlers of the other
    files are modelled as they run once the entry point loads. *)

From S2P Require Import Prelude Store.

Module Boot.

Inductive Stmt :=
| Require (names : list string) (path : string)  (** [const {names} = require(path)] *)
| Bind (names : list string)                     (** [let] / [const f = () => ...]: no effect *)
| OnInit                                         (** [onInit(async () => {...})] *)
| FirestoreRef (name : string)                   (** [const name = admin.firestore()] *)
| Log                                            (** [console.log(...)] *)
| Export (name : string).                        (** [exports.name = onCall(...)] *)

Record LoadState := mkLoad {
  apps : nat;             (** [admin.apps.length] *)
  inits : nat;            (** callbacks registered with [onInit] *)
  bound : list string;
  exported : list string
}.

Definition initial_load : LoadState := mkLoad 0 0 [] [].

(** [getApp()] without a default app (firebase-admin). *)
Definition no_app_error : Error :=
  JsError ("The default Firebase app does not exist. Make sure you call initializeApp() " +:+
           "before using any of the Firebase services.").

Definition module_not_found (path : string) : Error :=
  JsError ("Cannot find module '" +:+ path +:+ "'").

Section Load.
Variable available : string -> bool.

Definition exec (s : Stmt) : ST LoadState Error unit :=
  fun st =>
    match s with
    | Require names path =>
        if available path then (inr tt, mkLoad (apps st) (inits st) (bound st ++ names) (exported st))
        else (inl (module_not_found path), st)
    | Bind names => (inr tt, mkLoad (apps st) (inits st) (bound st ++ names) (exported st))
    | OnInit => (inr tt, mkLoad (apps st) (S (inits st)) (bound st) (exported st))
    | FirestoreRef name =>
        if Nat.eqb (apps st) 0 then (inl no_app_error, st)
        else (inr tt, mkLoad (apps st) (inits st) (bound st ++ [name]) (exported st))
    | Log => (inr tt, st)
    | Export name => (inr tt, mkLoad (apps st) (inits st) (bound st) (exported st ++ [name]))
    end.

Definition load (prog : list Stmt) : ST LoadState Error unit := st_iter exec prog.
End Load.
Arguments load : simpl never.

(** The [onInit] callback (index.js lines 23-38): initialise the default
    app unless one exists, for the emulator or for production alike. *)
Definition init_callback (st : LoadState) : LoadState :=
  if Nat.eqb (apps st) 0 then mkLoad 1 (inits st) (bound st) (exported st) else st.

(** functions/index.js: lines 1-41, then the exports (lines 96-118,
    121, 276, 308, 356). *)
Definition index_program : list Stmt :=
  [Require ["onCall"] "firebase-functions/v2/https";
   Require ["onInit"] "firebase-functions/v2/core";
   Require ["onSchedule"] "firebase-functions/v2/scheduler";
   Require ["admin"] "firebase-admin";
   Require ["axios"] "axios";
   Require ["verifyResponder"; "signupResponder"] "./triggers/respondertriggers";
   Bind ["sendOtp"; "verifyOtp"; "loadHandlers"];
   OnInit;
   FirestoreRef "db";
   Bind ["toRad"; "getDistance"; "assignNearestResponder"];
   Export "sendOtp"; Export "verifyOtp"; Export "verifyResponder"; Export "signupResponder";
   Export "createEmergencyReport"; Export "completeEmergency";
   Export "updateResponderHeartbeat"; Export "markInactiveResponders"].

(** Screens/Shared/fake index.js: lines 1-41, then the exports (lines
    46-72, 76). *)
Definition legacy_program : list Stmt :=
  [Require ["onCall"] "firebase-functions/v2/https";
   Require ["onInit"] "firebase-functions/v2/core";
   Require ["admin"] "firebase-admin";
   Require ["verifyResponder"; "signupResponder"] "./triggers/respondertriggers";
   Bind ["sendOtp"; "verifyOtp"; "loadHandlers"];
   OnInit;
   FirestoreRef "db";
   Log;
   Export "sendOtp"; Export "verifyOtp"; Export "verifyResponder"; Export "signupResponder";
   Export "createEmergencyReport"].

(** The packages of functions/package.json, which the runtime installs. *)
Definition packages : list string :=
  ["firebase-functions/v2/https"; "firebase-functions/v2/core";
   "firebase-functions/v2/scheduler"; "firebase-admin"; "axios"].

Definition responder_triggers : string := "./triggers/respondertriggers".

(** ** Lemmas *)

Lemma load_cons available s prog st :
  load available (s :: prog) st =
    match exec available s st with
    | (inr _, st1) => load available prog st1
    | (inl e, st1) => (inl e, st1)
    end.
Proof. unfold load. cbn. unfold st_bind. by destruct (exec available s st) as [[e|[]] st1]. Qed.

(** Run a program statement by statement, splitting on whether each
    required path resolves under [av]. *)
Ltac load_steps av :=
  repeat (rewrite load_cons; cbn [exec];
          repeat match goal with |- context [av ?p] =>
                   let E := fresh "E" in destruct (av p) eqn:E end; cbn).

(** ** Property *)

(** C6: neither entry point of the Cloud Functions loads.  Whatever
    module paths resolve, evaluating the top level of functions/index.js
    or of the legacy copy fails before the first export: a missing module
    fails its [require], and otherwise [const db = admin.firestore()]
    (index.js line 41) fails because the default app is created only by
    the [onInit] callback, which has not run.  Run before the top level,
    that callback makes the same module load and export all eight
    functions. *)
Theorem entry_points_fail_to_load available :
  (exists e st, load available index_program initial_load = (inl e, st) /\ exported st = []) /\
  (exists e st, load available legacy_program initial_load = (inl e, st) /\ exported st = []) /\
  (Forall (fun p => available p = true) (responder_triggers :: packages) ->
   fst (load available index_program initial_load) = inl no_app_error /\
   fst (load available legacy_program initial_load) = inl no_app_error /\
   exists st, load available index_program (init_callback initial_load) = (inr tt, st) /\
     exported st = ["sendOtp"; "verifyOtp"; "verifyResponder"; "signupResponder";
                    "createEmergencyReport"; "completeEmergency"; "updateResponderHeartbeat";
                    "markInactiveResponders"]).
Proof.
  split_and!.
  - unfold index_program. load_steps available; by do 2 eexists.
  - unfold legacy_program. load_steps available; by do 2 eexists.
  - intros Ha. repeat (apply Forall_cons in Ha as [? Ha]).
    unfold index_program, legacy_program, responder_triggers, packages in *.
    split_and!; [load_steps available; congruence.. |].
    eexists. load_steps available; try congruence. split; reflexivity.
Qed.

(** ** Witness: every module path resolves *)

Lemma entry_points_fail_to_load_witness :
  Forall (fun p => (fun _ : string => true) p = true) (responder_triggers :: packages) /\
  fst (load (fun _ => true) index_program initial_load) = inl no_app_error.
Proof.
  assert (H : Forall (fun p => (fun _ : string => true) p = true) (responder_triggers :: packages))
    by (repeat constructor).
  split; [exact H |].
  exact (proj1 (proj2 (proj2 (entry_points_fail_to_load (fun _ => true))) H)).
Defined.

End Boot.
